(** * Release tooling of mongo-tools: [release/release.go]

    A shallow embedding of the release program and the proofs of the
    properties its specification states.

    The program talks to the outside world all the time (the CI, the object
    storage, the file system, external tools).  Every such call is a command
    answered by a [World]; a procedure is a function from the state of the
    world to a [Run]: how it ended (return, [log.Fatal], panic), the state
    it left and the trace of its interactions.  The statements are about all
    worlds; the scripted world at the end of the definitions runs the program
    on examples.

    Embedded: [check], [run], [getReleaseName], [listLinuxDeps],
    [getLibraryPaths], the closure [createSpecFile] of [buildRPM],
    [buildDeb], [buildMSI], [copyFile], [downloadFile], the digests,
    [useWorkingDir] and [uploadRelease]; of the Go library,
    [strings.Replace], [strings.Split], [strings.Trim], [sort.Strings] and
    [path.Ext].  Not embedded: [main], and the procedures that write
    archives through the tar, gzip and zip writers ([buildArchive],
    [buildTarball], [buildZip], [addToTarball], [addToZip] and the rest of
    [buildRPM], with [buildLinuxPackages] that calls it), and
    [isTaggedRelease], which nothing calls.

    Strings are Go byte strings ([string]); Go's [error] is the text of the
    error, [nil] being [None]. *)

From Stdlib Require Import String Ascii List ZArith Lia Bool Arith Sorted Permutation.
From Stdlib Require DecimalString Decimal DecimalZ DecimalNat.
Import ListNotations.

Open Scope list_scope.
Open Scope string_scope.



(** ** Go standard library: package [strings] *)

Module strings.

(** [s[n:]] for [n <= len(s)]. *)
Fixpoint from (n : nat) (s : string) : string :=
  match n, s with
  | S n', String _ s' => from n' s'
  | _, _ => s
  end.

(** [s[:n]] for [n <= len(s)]. *)
Fixpoint upto (n : nat) (s : string) : string :=
  match n, s with
  | S n', String c s' => String c (upto n' s')
  | _, _ => ""
  end.

(** [strings.HasPrefix(s, prefix)]. *)
Fixpoint HasPrefix (s prefix : string) {struct prefix} : bool :=
  match prefix with
  | "" => true
  | String a prefix' =>
      match s with
      | "" => false
      | String b s' => Ascii.eqb a b && HasPrefix s' prefix'
      end
  end.

(** [strings.Index(s, substr)]: the index of the first instance of
    [substr] in [s]; [None] stands for Go's [-1]. *)
Fixpoint Index (s substr : string) : option nat :=
  if HasPrefix s substr then Some 0
  else match s with
       | "" => None
       | String _ s' => option_map S (Index s' substr)
       end.

(** The loop of [strings.Count] for a non-empty [substr]:
    [for { i := Index(s, substr); if i == -1 { return n }; n++;
           s = s[i+len(substr):] }].
    Every round drops at least one byte of [s], so [S (length s)] rounds
    of fuel are never used up. *)
Fixpoint Count_loop (fuel : nat) (s substr : string) : nat :=
  match fuel with
  | O => 0
  | S fuel' =>
      match Index s substr with
      | None => 0
      | Some i => S (Count_loop fuel' (from (i + String.length substr) s) substr)
      end
  end.

(** [strings.Count(s, substr)]: the number of non-overlapping instances.
    For an empty [substr] Go answers the number of runes plus one; bytes
    stand for runes here (the program never counts an empty string). *)
Definition Count (s substr : string) : nat :=
  if substr =? "" then S (String.length s)
  else Count_loop (S (String.length s)) s substr.

(** The replacement loop of [strings.Replace]:
    [for i := 0; i < n; i++ { j := start; ...; j += Index(s[start:], old);
       b.WriteString(s[start:j]); b.WriteString(new); start = j + len(old) }
     b.WriteString(s[start:])].
    The argument [s] is [s[start:]]; [first] says that [i == 0], which
    matters only for an empty [old] (one rune, here one byte, is stepped
    over from the second round on).  [Index] cannot fail in the loop since
    [n] is at most the count; the model leaves the rest as it is there. *)
Fixpoint Replace_loop (old new : string) (n : nat) (first : bool)
    (s : string) : string :=
  match n with
  | O => s
  | S n' =>
      let j :=
        if old =? "" then
          if first then Some 0
          else match s with "" => Some 0 | String _ _ => Some 1 end
        else Index s old in
      match j with
      | None => s
      | Some j =>
          upto j s ++ new ++
          Replace_loop old new n' false (from (j + String.length old) s)
      end
  end.

(** [strings.Replace(s, old, new, n)]: the first [n] non-overlapping
    instances of [old] replaced by [new]; all of them when [n < 0]. *)
Definition Replace (s old new : string) (n : Z) : string :=
  if (old =? new) || (n =? 0)%Z then s
  else
    let m := Count s old in
    if (m =? 0)%nat then s
    else
      let n := if (n <? 0)%Z || (Z.of_nat m <? n)%Z then m else Z.to_nat n in
      Replace_loop old new n true s.

(** [strings.Contains(s, substr)]. *)
Definition Contains (s substr : string) : bool :=
  match Index s substr with Some _ => true | None => false end.

End strings.

(** ** Go standard library: package [path] *)

Module path.

(** The loop of [path.Ext], which walks the path from its last byte:
    [for i := len(path) - 1; i >= 0 && path[i] != '/'; i-- {
       if path[i] == '.' { return path[i:] } }; return ""].
    [seen] holds the bytes already walked over, [path[i+1:]]. *)
Fixpoint Ext_scan (backwards : list ascii) (seen : list ascii) : string :=
  match backwards with
  | [] => ""
  | c :: rest =>
      if Ascii.eqb c "/" then ""
      else if Ascii.eqb c "." then string_of_list_ascii (c :: seen)
      else Ext_scan rest (c :: seen)
  end.

Definition Ext (path : string) : string :=
  Ext_scan (List.rev (list_ascii_of_string path)) [].

End path.

(** ** Formatting helpers of package [fmt] *)

(** [%d] of a non-negative [int] such as a length. *)
Definition itoa (n : nat) : string := DecimalString.NilZero.string_of_uint (Nat.to_uint n).

(** [%d] of an [int]. *)
Definition ztoa (z : Z) : string := DecimalString.NilZero.string_of_int (Z.to_int z).

(** The line feed. *)
Definition nl : string := String (ascii_of_nat 10) "".

(** ** Results and errors *)

(** Go's [error]: [nil] or the text of the error. *)
Definition error := option string.

(** A Go result pair [(x, err)]: the value when [err == nil]. *)
Inductive result (A : Type) : Type :=
| Ok (a : A)
| Err (e : string).
Arguments Ok {A} a.
Arguments Err {A} e.

(** ** The packages the release program is built on *)

(** Modelled from the spec: the [Version] type of package release/version,
    which is not among the sources: major, minor, patch, pre-release tag and
    source commit.  Its methods [IsStable], [String] and [StringWithoutPre]
    are parameters of the [World] below. *)
Module version.
Record Version : Type := {
  Major : Z;
  Minor : Z;
  Patch : Z;
  Pre : string;
  Commit : string
}.
End version.

(** Modelled from the spec: the [Platform] type of package release/platform,
    which is not among the sources: name, architecture, OS family, package
    kind and the expected artifact extensions. *)
Module platform.
Inductive OSKind : Type := OSLinux | OSMac | OSWindows.
Inductive PkgKind : Type := PkgNone | PkgDeb | PkgRPM.
Record Platform : Type := {
  Name : string;
  Arch : string;
  OS : OSKind;
  Pkg : PkgKind;
  ArtifactExtensions : list string
}.

Definition OS_eqb (a b : OSKind) : bool :=
  match a, b with
  | OSLinux, OSLinux | OSMac, OSMac | OSWindows, OSWindows => true
  | _, _ => false
  end.
End platform.

(** Modelled from the spec: the [Task] and [Artifact] types of package
    release/evergreen, which is not among the sources. *)
Module evergreen.
Record Task : Type := {
  TaskID : string;
  Variant : string;
  DisplayName : string;
  IsPatch : bool
}.
Record Artifact : Type := { URL : string }.
End evergreen.

(** The types of package release/download, as [uploadRelease] builds them. *)
Module download.
Module ToolsArchive.
Record t : Type := { URL : string; Md5 : string; Sha1 : string; Sha256 : string }.
Definition zero : t := {| URL := ""; Md5 := ""; Sha1 := ""; Sha256 := "" |}.
End ToolsArchive.
Module ToolsPackage.
Record t : Type := { URL : string; Md5 : string; Sha1 : string; Sha256 : string }.
End ToolsPackage.
Record ToolsDownload : Type := {
  Name : string;
  Arch : string;
  Archive : ToolsArchive.t;
  Package : option ToolsPackage.t        (* a pointer: [nil] or a package *)
}.
Record ToolsVersion : Type := {
  Version : string;
  Downloads : list ToolsDownload
}.
Record JSONFeed : Type := { Versions : list ToolsVersion }.

(** [dl.Archive = a] *)
Definition setArchive (dl : ToolsDownload) (a : ToolsArchive.t) : ToolsDownload :=
  {| Name := Name dl; Arch := Arch dl; Archive := a; Package := Package dl |}.
(** [dl.Package = &p] *)
Definition setPackage (dl : ToolsDownload) (p : ToolsPackage.t) : ToolsDownload :=
  {| Name := Name dl; Arch := Arch dl; Archive := Archive dl; Package := Some p |}.
End download.

(** ** The outside world

    Everything the program asks of its environment is a command [Cmd]; the
    environment answers with a value of type [Resp c]. *)

(** An open file or an HTTP response body. *)
Definition Handle := nat.
(** The client of package release/aws. *)
Definition Client := nat.

(** The error of [exec.Cmd.Output]: an [*exec.ExitError] with the captured
    standard error, or any other error. *)
Inductive ExecError : Type :=
| ExitError (msg stderr : string)
| OtherError (msg : string).

Inductive Cmd : Type :=
| EvgIsPatch                                    (* env.EvgIsPatch() *)
| GetTasksForRevision (commit : string)         (* evergreen.GetTasksForRevision *)
| GetArtifactsForTask (taskID : string)         (* evergreen.GetArtifactsForTask *)
| GetClient                                     (* aws.GetClient() *)
| UploadFile (client : Client) (bucket objPath filename : string)
| GetFromEnv                                    (* platform.GetFromEnv() *)
| GetCurrent                                    (* version.GetCurrent() *)
| Print (text : string)                         (* fmt.Println, fmt.Printf *)
| Log (text : string)                           (* log.Printf *)
| OsCreate (name : string)
| OsOpen (name : string)
| Close (h : Handle)
| HttpGet (url : string)
| IoCopy (dst src : Handle)
| ReadFile (name : string)                      (* ioutil.ReadFile *)
| WriteString (h : Handle) (text : string)
| JsonEncode (h : Handle) (prefix indent : string) (feed : download.JSONFeed)
| OsRemoveAll (dir : string)
| OsMkdirAll (dir : string)
| OsChdir (dir : string)
| OsGetwd
| OsLink (oldname newname : string)
| Exec (name : string) (args : list string).    (* exec.Command(...).Output() *)

Definition Resp (c : Cmd) : Type :=
  match c with
  | EvgIsPatch => bool
  | GetTasksForRevision _ => result (list evergreen.Task)
  | GetArtifactsForTask _ => result (list evergreen.Artifact)
  | GetClient => result Client
  | UploadFile _ _ _ _ => error
  | GetFromEnv => result platform.Platform
  | GetCurrent => result version.Version
  | Print _ => unit
  | Log _ => unit
  | OsCreate _ => result Handle
  | OsOpen _ => result Handle
  | Close _ => error
  | HttpGet _ => result Handle
  | IoCopy _ _ => error
  | ReadFile _ => result string
  | WriteString _ _ => error
  | JsonEncode _ _ _ _ => error
  | OsRemoveAll _ => error
  | OsMkdirAll _ => error
  | OsChdir _ => error
  | OsGetwd => result string
  | OsLink _ _ => error
  | Exec _ _ => (string * option ExecError)%type
  end.

(** One interaction: a command and the answer it got. *)
Inductive Event : Type :=
| Ev (c : Cmd) (r : Resp c).

(** The world: a state, the answer to every command in a state, and the pure
    functions of the packages that are not among the sources (the static
    platform matrix, the methods of [Version], the digests) and of the host's
    Go library. *)
Record World : Type := {
  St : Type;
  handle : forall c : Cmd, St -> Resp c * St;
  (* package release/platform *)
  GetByVariant : string -> option platform.Platform;
  PlatformCount : nat;                               (* platform.Count() *)
  DebianArch : platform.Platform -> string;
  (* package release/version *)
  IsStable : version.Version -> bool;
  VersionString : version.Version -> string;        (* v.String(), [%s] of v *)
  StringWithoutPre : version.Version -> string;
  (* fmt.Sprintf("%x", md5.Sum(b)) and its like *)
  md5hex : string -> string;
  sha1hex : string -> string;
  sha256hex : string -> string;
  (* Go library of the host *)
  PathSeparator : string;
  filepathJoin : list string -> string;
  SprintfVerbs : string -> string;    (* fmt.Sprintf(format) of a format with verbs *)
  Quote : string -> string;           (* [%q] *)
  TrimSpace : string -> string
}.

Existing Class World.

(** ** The monad of the program: state, trace and process exit *)

(** How a procedure ends: it returns, the process exits through [log.Fatal]
    (with the message logged), or it panics. *)
Inductive Outcome (A : Type) : Type :=
| Done (a : A)
| Exit (msg : string)
| Panic (msg : string).
Arguments Done {A} a.
Arguments Exit {A} msg.
Arguments Panic {A} msg.

Record Run (S A : Type) : Type := mkRun {
  outcome : Outcome A;
  final : S;
  events : list Event
}.
Arguments mkRun {S A}.
Arguments outcome {S A}.
Arguments final {S A}.
Arguments events {S A}.

Definition M (W : World) (A : Type) : Type := St W -> Run (St W) A.

Section Monad.
Context {W : World}.

Definition ret {A} (a : A) : M W A := fun s => mkRun (Done a) s [].

Definition bind {A B} (m : M W A) (k : A -> M W B) : M W B := fun s =>
  let r := m s in
  match outcome r with
  | Done a =>
      let r' := k a (final r) in
      mkRun (outcome r') (final r') (events r ++ events r')
  | Exit msg => mkRun (Exit msg) (final r) (events r)
  | Panic msg => mkRun (Panic msg) (final r) (events r)
  end.

(** Ask the world. *)
Definition call (c : Cmd) : M W (Resp c) := fun s =>
  let (r, s') := handle W c s in mkRun (Done r) s' [Ev c r].

(** [log.Fatal(msg)]: the message is logged and the process exits. *)
Definition logFatal {A} (msg : string) : M W A := fun s => mkRun (Exit msg) s [].

Definition panic {A} (msg : string) : M W A := fun s => mkRun (Panic msg) s [].
End Monad.

Declare Scope go_scope.
Delimit Scope go_scope with go.
Notation "x <- m ;; k" := (bind m (fun x => k))
  (at level 100, m at next level, right associativity) : go_scope.
Notation "m ;; k" := (bind m (fun _ => k))
  (at level 100, right associativity) : go_scope.
Open Scope go_scope.

Section Program.
Context {W : World}.

(** A [for _, x := range l] loop whose body updates the local state [b]. *)
Fixpoint foldM {A B} (f : B -> A -> M W B) (l : list A) (b : B) : M W B :=
  match l with
  | [] => ret b
  | x :: l' => b' <- f b x ;; foldM f l' b'
  end.

(** [fmt.Sprintf(format)] without operands: a format that holds no [%] is
    printed as it is. *)
Definition Sprintf0 (format : string) : string :=
  if strings.Contains format "%" then SprintfVerbs W format else format.

(** The fatal branch of [check]:
    [task := fmt.Sprintf(format[0].(string), format[1:]...);
     msg = fmt.Sprintf("'%s' failed: %v", task, err); log.Fatal(msg)]. *)
Definition checkFailed {A} (e : string) (format : string) : M W A :=
  logFatal ("'" ++ Sprintf0 format ++ "' failed: " ++ e).

(** [check(err, format)] (lines 95-105); every call of the program passes
    one format. *)
Definition check (err : error) (format : string) : M W unit :=
  match err with
  | None => ret tt
  | Some e => checkFailed e format
  end.

(** [x, err := f(); check(err, format)]. *)
Definition checked {A} (m : M W (result A)) (format : string) : M W A :=
  r <- m ;;
  match r with
  | Ok a => ret a
  | Err e => checkFailed e format
  end.

(** [copyFile(src, dst)] (lines 637-649); the deferred [Close] calls run
    after the one whose error is returned. *)
Definition copyFile (src dst : string) : M W error :=
  file <- checked (call (OsOpen src)) "open src" ;;
  out <- checked (call (OsCreate dst)) "create dst" ;;
  err <- call (IoCopy out file) ;;
  check err "copy src -> dst" ;;
  res <- call (Close out) ;;
  _ <- call (Close out) ;;
  _ <- call (Close file) ;;
  ret res.

(** [downloadFile(url, dst)] (lines 651-662), with its deferred [Close]
    calls. *)
Definition downloadFile (url dst : string) : M W unit :=
  out <- checked (call (OsCreate dst)) "create release file" ;;
  resp <- checked (call (HttpGet url)) "download release file" ;;
  err <- call (IoCopy out resp) ;;
  check err "write release file from http body" ;;
  _ <- call (Close resp) ;;
  _ <- call (Close out) ;;
  ret tt.

(** [computeMD5], [computeSHA1] and [computeSHA256] (lines 664-680). *)
Definition computeMD5 (filename : string) : M W string :=
  content <- checked (call (ReadFile filename)) "reading file during md5 summing" ;;
  ret (md5hex W content).

Definition computeSHA1 (filename : string) : M W string :=
  content <- checked (call (ReadFile filename)) "reading file during sha1 summing" ;;
  ret (sha1hex W content).

Definition computeSHA256 (filename : string) : M W string :=
  content <- checked (call (ReadFile filename)) "reading file during sha256 summing" ;;
  ret (sha256hex W content).

End Program.

(** The double quote, for the Go literals that hold one. *)
Definition dq : string := String (ascii_of_nat 34) "".

(** [var binaries]. *)
Definition binaries : list string :=
  ["bsondump"; "mongodump"; "mongoexport"; "mongofiles"; "mongoimport";
   "mongorestore"; "mongostat"; "mongotop"].

(** The placeholder tokens of the package metadata templates. *)
Definition TOOLS_VERSION : string := "@TOOLS_VERSION@".
Definition TOOLS_RELEASE : string := "@TOOLS_RELEASE@".
Definition ARCHITECTURE : string := "@ARCHITECTURE@".

(** The substitutions of [createSpecFile] in [buildRPM]. *)
Definition specContent (content rpmVersion rpmRelease arch : string) : string :=
  let content := strings.Replace content TOOLS_VERSION rpmVersion (-1) in
  let content := strings.Replace content TOOLS_RELEASE rpmRelease (-1) in
  let content := strings.Replace content ARCHITECTURE arch (-1) in
  content.

(** The substitutions of [createControlFile] in [buildDeb]. *)
Definition controlContent (content debVersion debArch : string) : string :=
  let content := strings.Replace content TOOLS_VERSION debVersion (-1) in
  let content := strings.Replace content ARCHITECTURE debArch 1 in
  content.

Section Build.
Context {W : World}.

(** [run(name, args...)] (lines 107-116). *)
Definition run (name : string) (args : list string) : M W (string * error) :=
  r <- call (Exec name args) ;;
  let (out, err) := r in
  let err :=
    match err with
    | None => None
    | Some (ExitError msg stderr) =>
        Some ("ExitError: " ++ msg ++ ". Stderr: " ++ Quote W stderr)
    | Some (OtherError msg) => Some msg
    end in
  ret (TrimSpace W out, err).

(** [useWorkingDir(dir)] (lines 682-692); the function it returns is the
    [cdBack] that the callers defer. *)
Definition useWorkingDir (dir : string) : M W (M W unit) :=
  err <- call (OsRemoveAll dir) ;;
  check err ("removeAll " ++ dir) ;;
  err <- call (OsMkdirAll dir) ;;
  check err ("mkdirAll " ++ dir) ;;
  err <- call (OsChdir dir) ;;
  check err ("cd to " ++ dir) ;;
  cur <- checked (call OsGetwd) "get current directory" ;;
  ret (_ <- call (OsChdir cur) ;; ret tt).

(** The closure [createSpecFile] of [buildRPM] (lines 289-304); [specFile],
    [rpmVersion] (which is [v.StringWithoutPre()]), [rpmRelease] (which is
    [v.RPMRelease()]) and [pf] are the variables it captures. *)
Definition createSpecFile (specFile rpmVersion rpmRelease : string)
    (pf : platform.Platform) : M W unit :=
  _ <- call (Log ("create spec file" ++ nl)) ;;
  f <- checked (call (OsCreate specFile)) "create spec" ;;
  content <- checked
    (call (ReadFile (filepathJoin W [".."; "installer"; "rpm"; specFile])))
    "reading spec file content" ;;
  let content := specContent content rpmVersion rpmRelease (platform.Arch pf) in
  err <- call (WriteString f content) ;;
  check err "write content to spec file" ;;
  _ <- call (Close f) ;;
  ret tt.

(** The closure [createControlFile] of [buildDeb] (lines 391-408);
    [controlFile] and [pf] are the variables it captures. *)
Definition createControlFile (controlFile : string) (pf : platform.Platform)
    : M W unit :=
  f <- checked (call (OsCreate controlFile)) "create control" ;;
  v <- checked (call GetCurrent) "get version" ;;
  content <- checked
    (call (ReadFile (filepathJoin W [".."; "installer"; "deb"; "control"])))
    "reading control file content" ;;
  let content := controlContent content (VersionString W v) (DebianArch W pf) in
  err <- call (WriteString f content) ;;
  check err "write content to control file" ;;
  _ <- call (Close f) ;;
  ret tt.

Definition msiUpgradeCode : string := "f8a84cb5-a2a7-4392-bfb5-8f829b659960".
Definition lastVersionLabel : string := "100".

Definition msiStaticFiles : list string := ["README.md"; "THIRD-PARTY-NOTICES"].
Definition saslDLLs : list string := ["libsasl.dll"].
Definition msiFiles : list string :=
  ["Banner_Tools.bmp"; "BinaryFragment.wxs"; "Dialog.bmp"; "Dialog_Tools.bmp";
   "FeatureFragment.wxs"; "Installer_Icon_16x16.ico";
   "Installer_Icon_32x32.ico"; "LICENSE.rtf"; "LicensingFragment.wxs";
   "Product.wxs"; "UIFragment.wxs"].

(** A [for _, name := range names] loop without local state. *)
Definition forEach {A} (l : list A) (body : A -> M W unit) : M W unit :=
  foldM (fun _ x => body x) l tt.

(** The arguments of [candle.exe]. *)
Definition candleArgs (wixVersion versionLabel projectName sourceDir
    resourceDir binDir objDir arch wixUIExtPath : string) : list string :=
  ["-wx";
   "-dProductId=*";
   "-dPlatform=x64";
   "-dUpgradeCode=" ++ msiUpgradeCode;
   "-dVersion=" ++ wixVersion;
   "-dVersionLabel=" ++ versionLabel;
   "-dProjectName=" ++ projectName;
   "-dSourceDir=" ++ sourceDir;
   "-dResourceDir=" ++ resourceDir;
   "-dSslDir=" ++ binDir;
   "-dBinaryDir=" ++ binDir;
   "-dTargetDir=" ++ objDir;
   "-dTargetExt=" ++ dq ++ ".msi" ++ dq;
   "-dTargetFileName=" ++ dq ++ "release" ++ dq;
   "-dOutDir=" ++ objDir;
   "-dConfiguration=" ++ dq ++ "Release" ++ dq;
   "-arch"; arch;
   "-out"; objDir;
   "-ext"; wixUIExtPath;
   "Product.wxs";
   "FeatureFragment.wxs";
   "BinaryFragment.wxs";
   "LicensingFragment.wxs";
   "UIFragment.wxs"].

(** The arguments of [light.exe]. *)
Definition lightArgs (output wixUIExtPath objDir : string) : list string :=
  ["-wx";
   "-cultures:en-us";
   "-out"; output;
   "-ext"; wixUIExtPath;
   filepathJoin W [objDir; "Product.wixobj"];
   filepathJoin W [objDir; "FeatureFragment.wixobj"];
   filepathJoin W [objDir; "BinaryFragment.wixobj"];
   filepathJoin W [objDir; "LicensingFragment.wixobj"];
   filepathJoin W [objDir; "UIFragment.wixobj"]].

(** [buildMSI] (lines 473-635); the deferred [cdBack] runs at the return. *)
Definition buildMSI : M W unit :=
  pf <- checked (call GetFromEnv) "get platform" ;;
  if negb (platform.OS_eqb (platform.OS pf) platform.OSWindows) then ret tt
  else
    let binariesPath := filepathJoin W [".."; "bin"] in
    let msiStaticFilesPath := ".." in
    let saslDLLsPath := PathSeparator W ++ filepathJoin W ["sasl"; "bin"] in
    let msiFilesPath := filepathJoin W [".."; "installer"; "msi"] in
    _ <- call (Log ("building msi installer" ++ nl)) ;;
    let msiBuildDir := "msi_build" in
    cdBack <- useWorkingDir msiBuildDir ;;
    forEach saslDLLs (fun name =>
      err <- copyFile (filepathJoin W [saslDLLsPath; name]) name ;;
      check err ("copy sasl dlls into " ++ msiBuildDir)) ;;
    forEach msiStaticFiles (fun name =>
      err <- call (OsLink (filepathJoin W [msiStaticFilesPath; name]) name) ;;
      check err ("link msi static files into " ++ msiBuildDir)) ;;
    forEach msiFiles (fun name =>
      err <- call (OsLink (filepathJoin W [msiFilesPath; name]) name) ;;
      check err ("link msi creation files into " ++ msiBuildDir)) ;;
    forEach binaries (fun name =>
      err <- call (OsLink (filepathJoin W [binariesPath; name]) (name ++ ".exe")) ;;
      check err ("link binary files into " ++ msiBuildDir)) ;;
    cwd <- checked (call OsGetwd) "getwd" ;;
    let cwd := cwd ++ "\" in
    let wixPath := PathSeparator W ++ filepathJoin W ["wixtools"; "bin"] in
    let wixUIExtPath := filepathJoin W [wixPath; "WixUIExtension.dll"] in
    let projectName := "MongoDB Tools" in
    let sourceDir := cwd in
    let resourceDir := cwd in
    let binDir := cwd in
    let objDir := filepathJoin W [cwd; "objs"] ++ PathSeparator W in
    let arch := "x64" in
    v <- checked (call GetCurrent) "get version" ;;
    let wixVersion :=
      ztoa (version.Major v) ++ "." ++ ztoa (version.Minor v) ++ "."
      ++ ztoa (version.Patch v) in
    let versionLabel := ztoa (version.Major v) in
    (if negb (versionLabel =? lastVersionLabel)
     then check (Some "msiUpgradeCode in release.go must be updated")
            ("msiUpgradeCode should be up-to-date, last version = "
             ++ lastVersionLabel)
     else ret tt) ;;
    let candle := filepathJoin W [wixPath; "candle.exe"] in
    r <- run candle
           (candleArgs wixVersion versionLabel projectName sourceDir
              resourceDir binDir objDir arch wixUIExtPath) ;;
    check (snd r) ("run candle.exe" ++ nl ++ fst r) ;;
    let output := "release.msi" in
    let light := filepathJoin W [wixPath; "light.exe"] in
    r <- run light (lightArgs output wixUIExtPath objDir) ;;
    check (snd r) ("run light.exe" ++ nl ++ fst r) ;;
    err <- call (OsLink output (filepathJoin W [".."; output])) ;;
    check err "linking output for s3 upload" ;;
    cdBack ;;
    ret tt.

End Build.

(** ** [uploadRelease] *)

Section Upload.
Context {W : World}.

(** The three names an artifact is published under. *)
Definition unstableFile (pf : platform.Platform) (ext : string) : string :=
  "mongodb-database-tools-" ++ platform.Name pf ++ "-" ++ platform.Arch pf
  ++ "-unstable" ++ ext.

Definition stableFile (pf : platform.Platform) (v : version.Version)
    (ext : string) : string :=
  "mongodb-database-tools-" ++ platform.Name pf ++ "-" ++ platform.Arch pf
  ++ "-" ++ VersionString W v ++ ext.

Definition latestStableFile (pf : platform.Platform) (ext : string) : string :=
  "mongodb-database-tools-" ++ platform.Name pf ++ "-" ++ platform.Arch pf
  ++ "-latest-stable" ++ ext.

Definition uploadingTo (file : string) : string :=
  "    uploading to https://s3.amazonaws.com/downloads.mongodb.org/tools/db/"
  ++ file ++ nl.

(** The body of the first loop (lines 801-812): a task that is a patch or is
    not named "sign" is passed over; a sign task of an unknown variant is
    fatal. *)
Definition collectSignTask (signTasks : list evergreen.Task)
    (task : evergreen.Task) : M W (list evergreen.Task) :=
  if evergreen.IsPatch task || negb (evergreen.DisplayName task =? "sign")
  then ret signTasks
  else
    match GetByVariant W (evergreen.Variant task) with
    | None =>
        logFatal ("found sign task with unknown variant '"
                  ++ evergreen.Variant task ++ "'" ++ nl)
    | Some _ => ret (signTasks ++ [task])%list
    end.

(** The body of the loop over the artifacts of one sign task (lines
    847-894). *)
Definition uploadArtifact (v : version.Version) (awsClient : Client)
    (pf : platform.Platform) (dl : download.ToolsDownload)
    (a : evergreen.Artifact) : M W download.ToolsDownload :=
  let ext := path.Ext (evergreen.URL a) in
  let unstableFile := unstableFile pf ext in
  let stableFile := stableFile pf v ext in
  let latestStableFile := latestStableFile pf ext in
  _ <- call (Print ("  downloading " ++ evergreen.URL a ++ nl)) ;;
  downloadFile (evergreen.URL a) unstableFile ;;
  dl <- (if IsStable W v then
           _ <- copyFile unstableFile stableFile ;;
           _ <- copyFile unstableFile latestStableFile ;;
           let artifactURL := "https://fastdl.mongodb.org/tools/db/" ++ stableFile in
           md5sum <- computeMD5 latestStableFile ;;
           sha1sum <- computeSHA1 latestStableFile ;;
           sha256sum <- computeSHA256 latestStableFile ;;
           if (ext =? ".tgz") || (ext =? ".zip") then
             ret (download.setArchive dl
                    {| download.ToolsArchive.URL := artifactURL;
                       download.ToolsArchive.Md5 := md5sum;
                       download.ToolsArchive.Sha1 := sha1sum;
                       download.ToolsArchive.Sha256 := sha256sum |})
           else
             ret (download.setPackage dl
                    {| download.ToolsPackage.URL := artifactURL;
                       download.ToolsPackage.Md5 := md5sum;
                       download.ToolsPackage.Sha1 := sha1sum;
                       download.ToolsPackage.Sha256 := sha256sum |})
         else ret dl) ;;
  _ <- call (Print (uploadingTo unstableFile)) ;;
  _ <- call (UploadFile awsClient "downloads.mongodb.org" "/tools/db" unstableFile) ;;
  (if IsStable W v then
     _ <- call (Print (uploadingTo stableFile)) ;;
     _ <- call (UploadFile awsClient "downloads.mongodb.org" "/tools/db" stableFile) ;;
     _ <- call (Print (uploadingTo latestStableFile)) ;;
     _ <- call (UploadFile awsClient "downloads.mongodb.org" "/tools/db" latestStableFile) ;;
     ret tt
   else ret tt) ;;
  ret dl.

(** [var dl download.ToolsDownload; dl.Name = pf.Name; dl.Arch = pf.Arch]. *)
Definition newDownload (pf : platform.Platform) : download.ToolsDownload :=
  {| download.Name := platform.Name pf;
     download.Arch := platform.Arch pf;
     download.Archive := download.ToolsArchive.zero;
     download.Package := None |}.

(** The body of the loop over the sign tasks (lines 827-897). *)
Definition uploadTask (v : version.Version) (awsClient : Client)
    (dls : list download.ToolsDownload) (task : evergreen.Task)
    : M W (list download.ToolsDownload) :=
  _ <- call (Print (nl ++ "getting artifacts for " ++ evergreen.Variant task ++ nl)) ;;
  match GetByVariant W (evergreen.Variant task) with
  | None => panic "unreachable"
  | Some pf =>
      artifacts <- checked (call (GetArtifactsForTask (evergreen.TaskID task)))
                     "getting artifacts list" ;;
      if negb (length artifacts =? length (platform.ArtifactExtensions pf))%nat
      then
        logFatal ("expected " ++ itoa (length (platform.ArtifactExtensions pf))
                  ++ " artifacts but found " ++ itoa (length artifacts)
                  ++ " for " ++ evergreen.Variant task)
      else
        dl <- foldM (uploadArtifact v awsClient pf) artifacts (newDownload pf) ;;
        ret (dls ++ [dl])%list
  end.

Definition feedFilename : string := "release.json".

(** The end of [uploadRelease] (lines 899-917): the feed of a stable
    version, uploaded after the loop over the sign tasks; [feedFile.Close()]
    is deferred to the return. *)
Definition uploadFeed (v : version.Version) (awsClient : Client)
    (dls : list download.ToolsDownload) : M W unit :=
  if IsStable W v then
    let feed :=
      {| download.Versions :=
           ([] ++ [ {| download.Version := StringWithoutPre W v;
                       download.Downloads := dls |} ])%list |} in
    feedFile <- checked (call (OsCreate feedFilename)) "create release.json" ;;
    err <- call (JsonEncode feedFile "" "  " feed) ;;
    check err "encode json feed" ;;
    _ <- call (Print ("uploading download feed to https://s3.amazonaws.com/downloads.mongodb.org/tools/db/"
                      ++ feedFilename ++ nl)) ;;
    _ <- call (UploadFile awsClient "downloads.mongodb.org" "/tools/db" feedFilename) ;;
    _ <- call (Close feedFile) ;;
    ret tt
  else ret tt.

(** [uploadRelease] after the count check (lines 821-917): the client, the
    loop over the sign tasks and the feed. *)
Definition uploadSignTasks (v : version.Version)
    (signTasks : list evergreen.Task) : M W unit :=
  awsClient <- checked (call GetClient) "get aws client" ;;
  dls <- foldM (uploadTask v awsClient) signTasks [] ;;
  uploadFeed v awsClient dls.

(** [uploadRelease] from the fetch of the tasks on (lines 797-917, the
    statements after the patch notice). *)
Definition reconcileAndUpload (v : version.Version) : M W unit :=
  tasks <- checked (call (GetTasksForRevision (version.Commit v)))
             "get evergreen tasks" ;;
  signTasks <- foldM collectSignTask tasks [] ;;
  if negb (length signTasks =? PlatformCount W)%nat then
    logFatal ("found " ++ itoa (length signTasks)
              ++ " sign tasks, but expected " ++ itoa (PlatformCount W)
              ++ " release platforms")
  else uploadSignTasks v signTasks.

Definition patchNotice : string :=
  "current build is a patch; not uploading a release" ++ nl.

(** [uploadRelease(v)] (lines 792-918). *)
Definition uploadRelease (v : version.Version) : M W unit :=
  isPatch <- call EvgIsPatch ;;
  (if (isPatch : bool) then call (Print patchNotice) else ret tt) ;;
  reconcileAndUpload v.

End Upload.

(** ** Reading a trace *)

Definition cmdOf (e : Event) : Cmd := match e with Ev c _ => c end.

(** The file names handed to [UploadFile], in order. *)
Definition uploaded (e : Event) : list string :=
  match cmdOf e with
  | UploadFile _ _ _ filename => [filename]
  | _ => []
  end.
Definition uploads (t : list Event) : list string := flat_map uploaded t.

(** The uploads with what [UploadFile] answered. *)
Definition uploadAnswered (e : Event) : list (string * error) :=
  match e with
  | Ev c r =>
      match c return Resp c -> list (string * error) with
      | UploadFile _ _ _ filename => fun r => [(filename, r)]
      | _ => fun _ => []
      end r
  end.
Definition uploadAnswers (t : list Event) : list (string * error) :=
  flat_map uploadAnswered t.

(** The texts printed on the standard output, in order. *)
Definition printed (e : Event) : list string :=
  match cmdOf e with
  | Print text => [text]
  | _ => []
  end.
Definition prints (t : list Event) : list string := flat_map printed t.

(** The programs started through [exec.Command], in order. *)
Definition executed (e : Event) : list string :=
  match cmdOf e with
  | Exec name _ => [name]
  | _ => []
  end.
Definition execs (t : list Event) : list string := flat_map executed t.

(** The texts written with [WriteString], in order. *)
Definition written (e : Event) : list string :=
  match cmdOf e with
  | WriteString _ text => [text]
  | _ => []
  end.
Definition writes (t : list Event) : list string := flat_map written t.

(** The files read with [ioutil.ReadFile] and what the reads gave. *)
Definition readFrom (e : Event) : list (string * result string) :=
  match e with
  | Ev c r =>
      match c return Resp c -> list (string * result string) with
      | ReadFile name => fun r => [(name, r)]
      | _ => fun _ => []
      end r
  end.
Definition reads (t : list Event) : list (string * result string) :=
  flat_map readFrom t.

(** The answers of the collaborators. *)
Definition tasksAnswered (e : Event) : list (result (list evergreen.Task)) :=
  match e with
  | Ev c r =>
      match c return Resp c -> list (result (list evergreen.Task)) with
      | GetTasksForRevision _ => fun r => [r]
      | _ => fun _ => []
      end r
  end.
(** The answer of the first [evergreen.GetTasksForRevision]. *)
Definition tasksAnswer (t : list Event) : option (result (list evergreen.Task)) :=
  hd_error (flat_map tasksAnswered t).

Definition artifactsAnswered (e : Event) : list (result (list evergreen.Artifact)) :=
  match e with
  | Ev c r =>
      match c return Resp c -> list (result (list evergreen.Artifact)) with
      | GetArtifactsForTask _ => fun r => [r]
      | _ => fun _ => []
      end r
  end.
(** The answer of the first [evergreen.GetArtifactsForTask]. *)
Definition artifactsAnswer (t : list Event) : option (result (list evergreen.Artifact)) :=
  hd_error (flat_map artifactsAnswered t).

Definition platformAnswered (e : Event) : list (result platform.Platform) :=
  match e with
  | Ev c r =>
      match c return Resp c -> list (result platform.Platform) with
      | GetFromEnv => fun r => [r]
      | _ => fun _ => []
      end r
  end.
(** The answer of the first [platform.GetFromEnv]. *)
Definition platformAnswer (t : list Event) : option (result platform.Platform) :=
  hd_error (flat_map platformAnswered t).

Definition versionAnswered (e : Event) : list (result version.Version) :=
  match e with
  | Ev c r =>
      match c return Resp c -> list (result version.Version) with
      | GetCurrent => fun r => [r]
      | _ => fun _ => []
      end r
  end.
(** The answer of the first [version.GetCurrent]. *)
Definition versionAnswer (t : list Event) : option (result version.Version) :=
  hd_error (flat_map versionAnswered t).

(** ** Notions the statements use *)

(** The tasks the first loop of [uploadRelease] keeps: named "sign" and not
    patch tasks. *)
Definition isSignTask (task : evergreen.Task) : bool :=
  negb (evergreen.IsPatch task || negb (evergreen.DisplayName task =? "sign")).

Definition signTasksOf (tasks : list evergreen.Task) : list evergreen.Task :=
  filter isSignTask tasks.

(** A sign task whose variant the platform matrix does not know. *)
Definition unknownSign (W : World) (task : evergreen.Task) : bool :=
  isSignTask task &&
  match GetByVariant W (evergreen.Variant task) with
  | None => true
  | Some _ => false
  end.

(** The names [uploadRelease] uploads for one artifact extension. *)
Definition uploadNames (W : World) (v : version.Version) (pf : platform.Platform)
    (ext : string) : list string :=
  if IsStable W v
  then [unstableFile pf ext; stableFile (W := W) pf v ext; latestStableFile pf ext]
  else [unstableFile pf ext].

(** The number of places of [s] at which [tok] starts. *)
Fixpoint occurrences (tok s : string) : nat :=
  (if strings.HasPrefix s tok then 1 else 0) +
  match s with
  | "" => 0
  | String _ s' => occurrences tok s'
  end.

Fixpoint elem (c : ascii) (s : string) : bool :=
  match s with
  | "" => false
  | String c' s' => Ascii.eqb c c' || elem c s'
  end.

(** A value is clean for a token when it is not empty, its first byte is no
    byte of the token and the first byte of the token is no byte of it. *)
Definition clean (tok v : string) : bool :=
  match v, tok with
  | String c _, String t _ => negb (elem c tok) && negb (elem t v)
  | _, _ => false
  end.

(** Clean for the three placeholder tokens. *)
Definition cleanValue (v : string) : bool :=
  clean TOOLS_VERSION v && clean TOOLS_RELEASE v && clean ARCHITECTURE v.

(** ** A scripted world, for running the program *)

Record Scenario : Type := {
  patch : bool;
  tasks : result (list evergreen.Task);
  artifacts : string -> result (list evergreen.Artifact);
  uploadError : string -> error;
  matrix : list (string * platform.Platform);
  files : string -> result string;
  envPlatform : result platform.Platform;
  current : result version.Version
}.

Definition answer (sc : Scenario) (c : Cmd) : Resp c :=
  match c return Resp c with
  | EvgIsPatch => patch sc
  | GetTasksForRevision _ => tasks sc
  | GetArtifactsForTask taskID => artifacts sc taskID
  | GetClient => Ok 1
  | UploadFile _ _ _ filename => uploadError sc filename
  | GetFromEnv => envPlatform sc
  | GetCurrent => current sc
  | Print _ => tt
  | Log _ => tt
  | OsCreate _ => Ok 3
  | OsOpen _ => Ok 4
  | Close _ => None
  | HttpGet _ => Ok 5
  | IoCopy _ _ => None
  | ReadFile name => files sc name
  | WriteString _ _ => None
  | JsonEncode _ _ _ _ => None
  | OsRemoveAll _ => None
  | OsMkdirAll _ => None
  | OsChdir _ => None
  | OsGetwd => Ok "/build"
  | OsLink _ _ => None
  | Exec _ _ => ("", None)
  end.

Fixpoint lookup (variant : string) (m : list (string * platform.Platform))
    : option platform.Platform :=
  match m with
  | [] => None
  | (k, pf) :: m' => if k =? variant then Some pf else lookup variant m'
  end.

Definition semver (v : version.Version) : string :=
  ztoa (version.Major v) ++ "." ++ ztoa (version.Minor v) ++ "."
  ++ ztoa (version.Patch v).

Definition scripted (sc : Scenario) : World :=
  {| St := unit;
     handle := fun c s => (answer sc c, s);
     GetByVariant := fun variant => lookup variant (matrix sc);
     PlatformCount := length (matrix sc);
     DebianArch := fun pf =>
       if platform.Arch pf =? "x86_64" then "amd64" else platform.Arch pf;
     IsStable := fun v => version.Pre v =? "";
     VersionString := fun v =>
       if version.Pre v =? "" then semver v else semver v ++ "-" ++ version.Pre v;
     StringWithoutPre := semver;
     md5hex := fun b => "md5:" ++ b;
     sha1hex := fun b => "sha1:" ++ b;
     sha256hex := fun b => "sha256:" ++ b;
     PathSeparator := "/";
     filepathJoin := String.concat "/";
     SprintfVerbs := fun format => format;
     Quote := fun s => dq ++ s ++ dq;
     TrimSpace := fun s => s |}.

Definition linux64 : platform.Platform :=
  {| platform.Name := "rhel70"; platform.Arch := "x86_64";
     platform.OS := platform.OSLinux; platform.Pkg := platform.PkgRPM;
     platform.ArtifactExtensions := [".tgz"; ".rpm"] |}.

Definition windows64 : platform.Platform :=
  {| platform.Name := "windows"; platform.Arch := "x86_64";
     platform.OS := platform.OSWindows; platform.Pkg := platform.PkgNone;
     platform.ArtifactExtensions := [".zip"; ".msi"] |}.

Definition v100_3_1 : version.Version :=
  {| version.Major := 100; version.Minor := 3; version.Patch := 1;
     version.Pre := ""; version.Commit := "abcdef" |}.

Definition v100_3_1_rc : version.Version :=
  {| version.Major := 100; version.Minor := 3; version.Patch := 1;
     version.Pre := "rc0"; version.Commit := "abcdef" |}.

Definition v101_0_0 : version.Version :=
  {| version.Major := 101; version.Minor := 0; version.Patch := 0;
     version.Pre := ""; version.Commit := "fedcba" |}.

Definition signTask (id variant : string) : evergreen.Task :=
  {| evergreen.TaskID := id; evergreen.Variant := variant;
     evergreen.DisplayName := "sign"; evergreen.IsPatch := false |}.

(** One platform, one sign task with its two artifacts; every call succeeds. *)
Definition release : Scenario :=
  {| patch := false;
     tasks := Ok [ {| evergreen.TaskID := "t0"; evergreen.Variant := "rhel70";
                      evergreen.DisplayName := "dist"; evergreen.IsPatch := false |};
                   signTask "t1" "rhel70" ];
     artifacts := fun _ => Ok [ {| evergreen.URL := "https://host/a/tools.tgz" |};
                                {| evergreen.URL := "https://host/a/tools.rpm" |} ];
     uploadError := fun _ => None;
     matrix := [("rhel70", linux64)];
     files := fun name => Ok ("bytes of " ++ name);
     envPlatform := Ok linux64;
     current := Ok v100_3_1 |}.

Definition withPatch (sc : Scenario) (b : bool) : Scenario :=
  {| patch := b; tasks := tasks sc; artifacts := artifacts sc;
     uploadError := uploadError sc; matrix := matrix sc; files := files sc;
     envPlatform := envPlatform sc; current := current sc |}.

Definition withTasks (sc : Scenario) (l : list evergreen.Task) : Scenario :=
  {| patch := patch sc; tasks := Ok l; artifacts := artifacts sc;
     uploadError := uploadError sc; matrix := matrix sc; files := files sc;
     envPlatform := envPlatform sc; current := current sc |}.

Definition withUploadError (sc : Scenario) (f : string -> error) : Scenario :=
  {| patch := patch sc; tasks := tasks sc; artifacts := artifacts sc;
     uploadError := f; matrix := matrix sc; files := files sc;
     envPlatform := envPlatform sc; current := current sc |}.

Definition withFiles (sc : Scenario) (f : string -> result string) : Scenario :=
  {| patch := patch sc; tasks := tasks sc; artifacts := artifacts sc;
     uploadError := uploadError sc; matrix := matrix sc; files := f;
     envPlatform := envPlatform sc; current := current sc |}.

Definition withHost (sc : Scenario) (pf : platform.Platform)
    (v : version.Version) : Scenario :=
  {| patch := patch sc; tasks := tasks sc; artifacts := artifacts sc;
     uploadError := uploadError sc; matrix := matrix sc; files := files sc;
     envPlatform := Ok pf; current := Ok v |}.


(** The templates of the scripted packaging: every token once in the spec
    file, the version and the architecture once in the control file. *)
Definition templates (name : string) : result string :=
  if name =? "../installer/deb/control" then
    Ok ("Package: mongodb-database-tools" ++ nl ++ "Version: @TOOLS_VERSION@" ++ nl
        ++ "Architecture: @ARCHITECTURE@" ++ nl)
  else
    Ok ("Version: @TOOLS_VERSION@" ++ nl ++ "Release: @TOOLS_RELEASE@" ++ nl
        ++ "BuildArch: @ARCHITECTURE@" ++ nl).

(** ** Notions about runs *)

Section Runs.
Context {W : World}.

(** [Returns m s a s' t]: started in [s], [m] returns [a] in state [s']
    after the interactions [t]. *)
Definition Returns {A} (m : M W A) (s : St W) (a : A) (s' : St W)
    (t : list Event) : Prop :=
  m s = mkRun (Done a) s' t.

(** [Quiet ok m]: whatever happens, [m] only issues commands that [ok]
    accepts. *)
Definition Quiet {A} (ok : Cmd -> bool) (m : M W A) : Prop :=
  forall s, Forall (fun e => ok (cmdOf e) = true) (events (m s)).

(** [NoPanic m]: however [m] ends, it is not by a panic. *)
Definition NoPanic {A} (m : M W A) : Prop :=
  forall s msg, outcome (m s) <> Panic msg.

(** A run with more interactions before it. *)
Definition after {A} (t : list Event) (r : Run (St W) A) : Run (St W) A :=
  mkRun (outcome r) (final r) (t ++ events r).

(** What is logged when the upgrade code of [buildMSI] is out of date. *)
Definition staleUpgradeCode : string :=
  "'msiUpgradeCode should be up-to-date, last version = 100' failed: msiUpgradeCode in release.go must be updated".

(** A run of (the rest of) [buildMSI] stops on a stale upgrade code: if it
    learns a current version whose major label is not the recorded one, it
    ends in the fatal exit and has started no program. *)
Definition StopsOnStaleCode (r : Run (St W) unit) : Prop :=
  forall v,
    versionAnswer (events r) = Some (Ok v) ->
    ztoa (version.Major v) <> lastVersionLabel ->
    outcome r = Exit staleUpgradeCode /\ execs (events r) = [].

End Runs.

(** Local input and output and printing: what [copyFile], [downloadFile],
    [useWorkingDir] and the linking loops of [buildMSI] do. *)
Definition plain (c : Cmd) : bool :=
  match c with
  | Print _ | Log _ | OsCreate _ | OsOpen _ | Close _ | HttpGet _ | IoCopy _ _
  | OsRemoveAll _ | OsMkdirAll _ | OsChdir _ | OsGetwd | OsLink _ _ => true
  | _ => false
  end.

(** Uploads of artifact names only. *)
Definition artifactsOnly (c : Cmd) : bool :=
  match c with
  | UploadFile _ _ _ filename => strings.HasPrefix filename "mongodb-database-tools-"
  | _ => true
  end.

(** * More of the program *)

(** ** More readings of a trace *)

(** The files created with [os.Create], in order. *)
Definition created (e : Event) : list string :=
  match cmdOf e with
  | OsCreate name => [name]
  | _ => []
  end.
Definition creates (t : list Event) : list string := flat_map created t.

(** The URLs fetched with [http.Get], in order. *)
Definition fetched (e : Event) : list string :=
  match cmdOf e with
  | HttpGet url => [url]
  | _ => []
  end.
Definition fetches (t : list Event) : list string := flat_map fetched t.

(** The files opened with [os.Open], in order. *)
Definition opened (e : Event) : list string :=
  match cmdOf e with
  | OsOpen name => [name]
  | _ => []
  end.
Definition opens (t : list Event) : list string := flat_map opened t.

(** The feeds handed to the JSON encoder, in order. *)
Definition encodedFeed (e : Event) : list download.JSONFeed :=
  match cmdOf e with
  | JsonEncode _ _ _ feed => [feed]
  | _ => []
  end.
Definition encoded (t : list Event) : list download.JSONFeed :=
  flat_map encodedFeed t.

(** The lines logged with [log.Printf], in order. *)
Definition logged (e : Event) : list string :=
  match cmdOf e with
  | Log text => [text]
  | _ => []
  end.
Definition logs (t : list Event) : list string := flat_map logged t.

(** The programs started, with their arguments and what they answered. *)
Definition ranProgram (e : Event)
    : list (string * list string * (string * option ExecError)) :=
  match e with
  | Ev c r =>
      match c return Resp c -> list (string * list string * (string * option ExecError)) with
      | Exec name args => fun r => [(name, args, r)]
      | _ => fun _ => []
      end r
  end.
Definition ran (t : list Event)
    : list (string * list string * (string * option ExecError)) :=
  flat_map ranProgram t.

(** The answer of the first [aws.GetClient]. *)
Definition clientAnswered (e : Event) : list (result Client) :=
  match e with
  | Ev c r =>
      match c return Resp c -> list (result Client) with
      | GetClient => fun r => [r]
      | _ => fun _ => []
      end r
  end.
Definition clientAnswer (t : list Event) : option (result Client) :=
  hd_error (flat_map clientAnswered t).

(** ** More notions *)

(** Everything but an upload. *)
Definition noUpload (c : Cmd) : bool :=
  match c with
  | UploadFile _ _ _ _ => false
  | _ => true
  end.

(** The commands of the round of [uploadRelease] for a sign task. *)
Definition inRound (c : Cmd) : bool :=
  match c with
  | Print _ | OsCreate _ | OsOpen _ | Close _ | HttpGet _ | IoCopy _ _
  | ReadFile _ | UploadFile _ _ _ _ | GetArtifactsForTask _ => true
  | _ => false
  end.

(** The commands of [uploadRelease] for a version that is not stable: no
    file is opened or read, no feed is encoded, and [release.json] is neither
    created nor uploaded. *)
Definition inPrerelease (c : Cmd) : bool :=
  match c with
  | EvgIsPatch | GetTasksForRevision _ | GetClient | GetArtifactsForTask _
  | Print _ | Close _ | HttpGet _ | IoCopy _ _ => true
  | OsCreate name | UploadFile _ _ _ name => negb (name =? feedFilename)
  | _ => false
  end.

(** The handle that [os.Create], [os.Open] or [http.Get] answered. *)
Definition gotHandle (e : Event) : list Handle :=
  match e with
  | Ev c r =>
      match c return Resp c -> list Handle with
      | OsCreate _ | OsOpen _ | HttpGet _ =>
          fun r => match r with Ok h => [h] | Err _ => [] end
      | _ => fun _ => []
      end r
  end.

(** The handles closed, in order. *)
Definition closedHandle (e : Event) : list Handle :=
  match cmdOf e with
  | Close h => [h]
  | _ => []
  end.
Definition closes (t : list Event) : list Handle := flat_map closedHandle t.

(** The handles of a trace that are not closed after they were got. *)
Fixpoint leaks (t : list Event) : list Handle :=
  match t with
  | [] => []
  | e :: t' =>
      (filter (fun h => negb (existsb (Nat.eqb h) (closes t'))) (gotHandle e)
       ++ leaks t')%list
  end.

(** The commands that answer no handle. *)
Definition handleFree (c : Cmd) : bool :=
  match c with
  | OsCreate _ | OsOpen _ | HttpGet _ => false
  | _ => true
  end.

(** The name and the architecture of a download of the feed. *)
Definition downloadOf (dl : download.ToolsDownload) : string * string :=
  (download.Name dl, download.Arch dl).

(** The name and the architecture of the platform of a sign task. *)
Definition platformOf (W : World) (task : evergreen.Task) : string * string :=
  match GetByVariant W (evergreen.Variant task) with
  | Some pf => (platform.Name pf, platform.Arch pf)
  | None => ("", "")
  end.

(** The uploads of a trace are the names of some artifacts, all of them for
    each. *)
Definition Grouped (W : World) (v : version.Version) (t : list Event) : Prop :=
  exists l : list (platform.Platform * string),
    uploads t = flat_map (fun p => uploadNames W v (fst p) (snd p)) l.

(** ** More scripted worlds *)

(** A world that answers some commands as [f] says and is [W] otherwise. *)
Definition override (W : World) (f : forall c : Cmd, option (Resp c)) : World :=
  {| St := St W;
     handle := fun c s =>
       match f c with
       | Some r => (r, s)
       | None => handle W c s
       end;
     GetByVariant := GetByVariant W;
     PlatformCount := PlatformCount W;
     DebianArch := DebianArch W;
     IsStable := IsStable W;
     VersionString := VersionString W;
     StringWithoutPre := StringWithoutPre W;
     md5hex := md5hex W;
     sha1hex := sha1hex W;
     sha256hex := sha256hex W;
     PathSeparator := PathSeparator W;
     filepathJoin := filepathJoin W;
     SprintfVerbs := SprintfVerbs W;
     Quote := Quote W;
     TrimSpace := TrimSpace W |}.

(** No credentials: [aws.GetClient] fails. *)
Definition noClient (c : Cmd) : option (Resp c) :=
  match c return option (Resp c) with
  | GetClient => Some (Err "NoCredentialProviders")
  | _ => None
  end.

(** The CI is down: [evergreen.GetTasksForRevision] fails. *)
Definition noTasks (c : Cmd) : option (Resp c) :=
  match c return option (Resp c) with
  | GetTasksForRevision _ => Some (Err "503 Service Unavailable")
  | _ => None
  end.

(** The CI answers one artifact only for every task. *)
Definition oneArtifact (c : Cmd) : option (Resp c) :=
  match c return option (Resp c) with
  | GetArtifactsForTask _ =>
      Some (Ok [ {| evergreen.URL := "https://host/a/tools.tgz" |} ])
  | _ => None
  end.

(** ** More procedures of [release.go] *)

Section MoreProcedures.
Context {W : World}.

(** [getReleaseName()] (lines 123-134). *)
Definition getReleaseName : M W string :=
  p <- checked (call GetFromEnv) "get platform" ;;
  v <- checked (call GetCurrent) "get version" ;;
  ret ("mongodb-database-tools-" ++ platform.Name p ++ "-" ++ platform.Arch p
       ++ "-" ++ VersionString W v).

End MoreProcedures.

(** Everything but the start of a program. *)
Definition noExec (c : Cmd) : bool :=
  match c with
  | Exec _ _ => false
  | _ => true
  end.

(** The two programs of the WiX toolset that [buildMSI] starts. *)
Definition wixPath (W : World) : string :=
  PathSeparator W ++ filepathJoin W ["wixtools"; "bin"].
Definition candle (W : World) : string := filepathJoin W [wixPath W; "candle.exe"].
Definition light (W : World) : string := filepathJoin W [wixPath W; "light.exe"].

(** The programs of a build of the MSI are started in order: [light.exe]
    only after [candle.exe] answered without an error, and the build returns
    only when both did. *)
Definition ToolsInOrder (W : World) (r : Run (St W) unit) : Prop :=
  ran (events r) = [] \/
  (exists args out err msg,
     ran (events r) = [(candle W, args, (out, Some err))] /\
     outcome r = Exit msg) \/
  (exists args1 out1 args2 out2 err2,
     ran (events r) = [(candle W, args1, (out1, None)); (light W, args2, (out2, err2))] /\
     (err2 = None \/ exists msg, outcome r = Exit msg)).

(** A world with a working directory: [os.Chdir] changes it, [os.Getwd]
    reports it, and every other command is answered as the scenario says.
    The state is the working directory, read as a path from the root. *)
Definition absolute (dir : string) : string :=
  if strings.HasPrefix dir "/" then dir else "/" ++ dir.

Definition inDirectory (sc : Scenario) : World :=
  {| St := string;
     handle := fun c cwd =>
       match c as c0 return Resp c0 * string with
       | OsChdir dir =>
           (None, if strings.HasPrefix dir "/" then dir else absolute cwd ++ "/" ++ dir)
       | OsGetwd => (Ok (absolute cwd), cwd)
       | c0 => (answer sc c0, cwd)
       end;
     GetByVariant := fun variant => lookup variant (matrix sc);
     PlatformCount := length (matrix sc);
     DebianArch := fun pf =>
       if platform.Arch pf =? "x86_64" then "amd64" else platform.Arch pf;
     IsStable := fun v => version.Pre v =? "";
     VersionString := fun v =>
       if version.Pre v =? "" then semver v else semver v ++ "-" ++ version.Pre v;
     StringWithoutPre := semver;
     md5hex := fun b => "md5:" ++ b;
     sha1hex := fun b => "sha1:" ++ b;
     sha256hex := fun b => "sha256:" ++ b;
     PathSeparator := "/";
     filepathJoin := String.concat "/";
     SprintfVerbs := fun format => format;
     Quote := fun s => dq ++ s ++ dq;
     TrimSpace := fun s => s |}.

(** ** More of the Go library: [strings.Split], [strings.Trim], [sort.Strings] *)

(** The loop of [strings.Split] (genSplit) for a non-empty [sep]:
    [for i < n { m := Index(s, sep); if m < 0 { break }; a[i] = s[:m];
                 s = s[m+len(sep):]; i++ }; a[i] = s; return a[:i+1]]. *)
Fixpoint Split_loop (n : nat) (s sep : string) : list string :=
  match n with
  | O => [s]
  | S n' =>
      match strings.Index s sep with
      | None => [s]
      | Some m =>
          strings.upto m s
          :: Split_loop n' (strings.from (m + String.length sep) s) sep
      end
  end.

(** [strings.Split(s, sep)]: [n] is [Count(s, sep) + 1], cut down to
    [len(s) + 1], and the loop runs [n - 1] rounds.  For an empty [sep] Go
    explodes [s] into its UTF-8 sequences; bytes stand for them here (the
    program never splits at an empty string). *)
Definition Split (s sep : string) : list string :=
  if sep =? "" then map (fun c => String c "") (list_ascii_of_string s)
  else
    Split_loop (Nat.min (strings.Count s sep + 1) (String.length s + 1) - 1) s sep.

(** [strings.TrimLeft] and [strings.TrimRight] for a cutset of ASCII
    characters, which is what the program passes: bytes stand for code
    points. *)
Fixpoint TrimLeft (s cutset : string) : string :=
  match s with
  | "" => ""
  | String c s' => if elem c cutset then TrimLeft s' cutset else s
  end.

Fixpoint TrimRight (s cutset : string) : string :=
  match s with
  | "" => ""
  | String c s' =>
      match TrimRight s' cutset with
      | "" => if elem c cutset then "" else String c ""
      | r => String c r
      end
  end.

(** [strings.Trim(s, cutset)]:
    [trimLeftASCII(trimRightASCII(s, &as), &as)]. *)
Definition Trim (s cutset : string) : string :=
  TrimLeft (TrimRight s cutset) cutset.

(** [sort.Strings]: the strings in increasing order of their bytes.  The
    order is total and strings that compare equal are the same string, so
    the result does not depend on the sorting algorithm; insertion sort
    stands for the one of the library. *)
Fixpoint insertString (x : string) (l : list string) : list string :=
  match l with
  | [] => [x]
  | y :: l' => if (x <=? y)%string then x :: l else y :: insertString x l'
  end.

Definition sortStrings (l : list string) : list string :=
  fold_right insertString [] l.

(** The tab. *)
Definition tab : string := String (ascii_of_nat 9) "".

(** ** The dependencies of the Linux packages *)

(** [deps[k] = struct{}{}] on a map that is used as a set: the keys,
    each once. *)
Definition addKey (k : string) (deps : list string) : list string :=
  if existsb (String.eqb k) deps then deps else (deps ++ [k])%list.

Section Deps.
Context {W : World}.

(** [sp[i]]: an index out of range is a run-time panic. *)
Definition index (sp : list string) (i : nat) : M W string :=
  match nth_error sp i with
  | Some x => ret x
  | None =>
      panic ("runtime error: index out of range [" ++ itoa i ++ "] with length "
             ++ itoa (length sp))
  end.

(** The body of the loop of [getLibraryPaths] (lines 191-201). *)
Definition libraryPath (paths : list string) (line : string) : M W (list string) :=
  let sp := Split line "=>" in
  if (length sp <? 2)%nat then ret paths
  else
    sp1 <- index sp 1 ;;
    let sp := Split sp1 "(" in
    sp0 <- index sp 0 ;;
    let libPath := Trim sp0 (" " ++ tab) in
    if negb (libPath =? "") then ret (paths ++ [libPath])%list else ret paths.

(** [getLibraryPaths()] (lines 186-203). *)
Definition getLibraryPaths : M W (list string) :=
  r <- run "ldd" [filepathJoin W ["bin"; "mongodump"]] ;;
  check (snd r) ("ldd" ++ nl ++ fst r) ;;
  foldM libraryPath (Split (fst r) nl) [].

(** The body of the loop of the RPM case (lines 160-164). *)
Definition rpmDependency (deps : list string) (libPath : string)
    : M W (list string) :=
  r <- run "rpm" ["-q"; "--whatprovides"; libPath] ;;
  check (snd r) ("rpm -q --whatprovides " ++ libPath ++ ": " ++ fst r) ;;
  ret (addKey (Trim (fst r) (" " ++ tab ++ nl)) deps).

(** The body of the loop of the Debian case (lines 166-171). *)
Definition debDependency (deps : list string) (libPath : string)
    : M W (list string) :=
  r <- run "dpkg" ["-S"; libPath] ;;
  check (snd r) ("dpkg -S " ++ libPath ++ ": " ++ fst r) ;;
  let sp := Split (fst r) ":" in
  sp0 <- index sp 0 ;;
  ret (addKey (Trim sp0 (" " ++ tab ++ nl)) deps).

(** [listLinuxDeps()] (lines 146-184).  The order in which [range] visits
    the keys of the map [deps] is not fixed by the language: [rangeOrder]
    is the order of this run. *)
Definition listLinuxDeps (rangeOrder : list string -> list string) : M W unit :=
  pf <- checked (call GetFromEnv) "get platform" ;;
  if negb (platform.OS_eqb (platform.OS pf) platform.OSLinux) then ret tt
  else
    check None "get platform" ;;
    libraryPaths <- getLibraryPaths ;;
    deps <- match platform.Pkg pf with
            | platform.PkgRPM => foldM rpmDependency libraryPaths []
            | platform.PkgDeb => foldM debDependency libraryPaths []
            | platform.PkgNone =>
                logFatal ("linux platform " ++ Quote W (platform.Name pf)
                          ++ " is neither deb nor rpm based")
            end ;;
    (* [for dep := range deps { orderedDeps = append(orderedDeps, dep) }] *)
    let orderedDeps := rangeOrder deps in
    let orderedDeps := sortStrings orderedDeps in
    forEach orderedDeps (fun dep => _ <- call (Log (dep ++ nl)) ;; ret tt).

End Deps.

(** The package that a query of the package manager names: the whole answer
    of [rpm], the answer of [dpkg] up to its first colon, without blanks
    around it. *)
Definition dependencyOf (W : World)
    (p : string * list string * (string * option ExecError)) : string :=
  let out := TrimSpace W (fst (snd p)) in
  Trim (if fst (fst p) =? "dpkg" then hd "" (Split out ":") else out)
       (" " ++ tab ++ nl).

(** Neither the first nor the last byte of a string is in the cutset. *)
Definition startsIn (cutset s : string) : bool :=
  match s with
  | "" => false
  | String c _ => elem c cutset
  end.

Fixpoint endsIn (cutset s : string) : bool :=
  match s with
  | "" => false
  | String c "" => elem c cutset
  | String _ s' => endsIn cutset s'
  end.

(** A host with two shared libraries, each of a package of its own, and a
    line of [ldd] without a path. *)
Definition lddOutput : string :=
  tab ++ "linux-vdso.so.1 (0x00007ffc)" ++ nl ++
  tab ++ "libssl.so.10 => /lib64/libssl.so.10 (0x00007f10)" ++ nl ++
  tab ++ "libc.so.6 => /lib64/libc.so.6 (0x00007f20)" ++ nl ++
  tab ++ "/lib64/ld-linux-x86-64.so.2 (0x00007f30)".

Definition withLibraries (c : Cmd) : option (Resp c) :=
  match c return option (Resp c) with
  | Exec name args =>
      Some (if name =? "ldd" then (lddOutput, None)
            else if existsb (String.eqb "/lib64/libssl.so.10") args
                 then ("openssl-libs-1.0.2k-19.el7.x86_64" ++ nl, None)
                 else ("glibc-2.17-307.el7.1.x86_64" ++ nl, None))
  | _ => None
  end.


(** A Linux platform of neither package kind. *)
Definition bareLinux : platform.Platform :=
  {| platform.Name := "alpine"; platform.Arch := "x86_64";
     platform.OS := platform.OSLinux; platform.Pkg := platform.PkgNone;
     platform.ArtifactExtensions := [".tgz"] |}.

(** ** [buildDeb] *)

(** [var staticFiles]. *)
Definition staticFiles : list string :=
  ["LICENSE.md"; "README.md"; "THIRD-PARTY-NOTICES"].

(** A Go [map[string]string]: the value stored last under a key is the one
    that is found. *)
Definition mapSet (k v : string) (m : list (string * string))
    : list (string * string) :=
  (k, v) :: m.

Fixpoint mapGet (k : string) (m : list (string * string)) : option string :=
  match m with
  | [] => None
  | (k', v) :: m' => if k' =? k then Some v else mapGet k m'
  end.

(** [os.Chmod], which only [buildDeb] calls, and whose error it drops: a
    call of the world that leaves no event in the trace. *)
Class Chmod (W : World) : Type := {
  osChmod : string -> Z -> St W -> error * St W
}.

Section Deb.
Context {W : World} {P : Chmod W}.

Definition chmod (name : string) (mode : Z) : M W error := fun s =>
  mkRun (Done (fst (osChmod name mode s))) (snd (osChmod name mode s)) [].

(** The closure [logCopy] (lines 364-366). *)
Definition logCopy (src dst : string) : M W unit :=
  _ <- call (Log ("copying " ++ src ++ " to " ++ dst ++ nl)) ;;
  ret tt.

(** [logCopy(src, dst); check(os.Link(src, dst), "link file")]. *)
Definition linkFile (src dst : string) : M W unit :=
  logCopy src dst ;;
  err <- call (OsLink src dst) ;;
  check err "link file".

(** The body of the two loops over the data files (lines 371-378 and
    380-387); the local state is [md5sums] and [md5sumsOrder]. *)
Definition addDataFile (srcDir dstDir : string)
    (sums : list (string * string) * list string) (name : string)
    : M W (list (string * string) * list string) :=
  let src := filepathJoin W [srcDir; name] in
  let dst := filepathJoin W [dstDir; name] in
  linkFile src dst ;;
  md5sum <- computeMD5 src ;;
  ret (mapSet dst md5sum (fst sums), (snd sums ++ [dst])%list).

(** The body of the loop of [createMD5Sums] (lines 418-427); [missing] is
    what the branch of a path that is no key of the map does. *)
Definition writeMD5Sum (missing : string -> M W string) (f : Handle)
    (md5sums : list (string * string)) (path : string) : M W unit :=
  md5sum <- match mapGet path md5sums with
            | Some md5sum => ret md5sum
            | None => missing path
            end ;;
  err <- call (WriteString f (md5sum ++ " ")) ;;
  check err "write md5sum to md5sums" ;;
  err <- call (WriteString f (path ++ nl)) ;;
  check err "write path to md5sums".

(** The closure [createMD5Sums] (lines 412-428); [0644] is 420. *)
Definition createMD5Sums (missing : string -> M W string) (md5sumsFile : string)
    (md5sums : list (string * string)) (md5sumsOrder : list string) : M W unit :=
  f <- checked (call (OsCreate md5sumsFile)) "create md5sums" ;;
  _ <- chmod md5sumsFile 420 ;;
  forEach md5sumsOrder (writeMD5Sum missing f md5sums) ;;
  _ <- call (Close f) ;;
  ret tt.

(** [buildDeb] (lines 320-471) with [missing] in the place of the branch
    [if !ok] of [createMD5Sums]; the deferred [cdBack] runs at the
    return. *)
Definition buildDebWith (missing : string -> M W string) : M W unit :=
  pf <- checked (call GetFromEnv) "get platform" ;;
  let mdt := "mongodb-database-tools" in
  releaseName <- getReleaseName ;;
  cdBack <- useWorkingDir "deb_build" ;;
  _ <- call (Log ("create deb directory tree" ++ nl)) ;;
  let controlDir := filepathJoin W [releaseName; "DEBIAN"] in
  err <- call (OsMkdirAll controlDir) ;;
  check err ("mkdirAll " ++ controlDir) ;;
  let binDir := filepathJoin W [releaseName; "usr"; "bin"] in
  err <- call (OsMkdirAll binDir) ;;
  check err ("mkdirAll " ++ binDir) ;;
  let docDir := filepathJoin W [releaseName; "usr"; "share"; "doc"; mdt] in
  err <- call (OsMkdirAll docDir) ;;
  check err ("mkdirAll " ++ docDir) ;;
  let binariesPath := filepathJoin W [".."; "bin"] in
  sums <- foldM (addDataFile binariesPath binDir) binaries ([], []) ;;
  sums <- foldM (addDataFile ".." docDir) staticFiles sums ;;
  let controlFile := "control" in
  createControlFile controlFile pf ;;
  let md5sumsFile := "md5sums" in
  createMD5Sums missing md5sumsFile (fst sums) (snd sums) ;;
  linkFile controlFile (filepathJoin W [controlDir; controlFile]) ;;
  linkFile md5sumsFile (filepathJoin W [controlDir; md5sumsFile]) ;;
  forEach ["postinst"; "prerm"] (fun file =>
    linkFile (filepathJoin W [".."; "installer"; "deb"; file])
      (filepathJoin W [controlDir; file])) ;;
  let output := releaseName ++ ".deb" in
  _ <- call (Log ("running: dpkg -D1 -b " ++ releaseName ++ " " ++ output)) ;;
  r <- run "dpkg" ["-D1"; "-b"; releaseName; output] ;;
  check (snd r) ("run dpkg" ++ nl ++ fst r) ;;
  err <- call (OsLink output (filepathJoin W ["../release.deb"])) ;;
  check err "linking output for s3 upload" ;;
  cdBack ;;
  ret tt.

(** [buildDeb()]: the branch is
    [log.Fatalf("could not find md5sum for " + path)]. *)
Definition buildDeb : M W unit :=
  buildDebWith (fun path => logFatal (Sprintf0 ("could not find md5sum for " ++ path))).

End Deb.

(** The links of the data files in the tree of the package, in the order of
    [md5sumsOrder]: the binaries and then the static files. *)
Definition debDataFiles (W : World) (releaseName : string) : list string :=
  (map (fun name => filepathJoin W [filepathJoin W [releaseName; "usr"; "bin"]; name])
     binaries ++
   map (fun name =>
          filepathJoin W
            [filepathJoin W [releaseName; "usr"; "share"; "doc";
                             "mongodb-database-tools"]; name])
     staticFiles)%list.

(** The files that the links of [debDataFiles] point to. *)
Definition debDataSources (W : World) : list string :=
  (map (fun name => filepathJoin W [filepathJoin W [".."; "bin"]; name]) binaries ++
   map (fun name => filepathJoin W [".."; name]) staticFiles)%list.

(** Every path of the order is a key of the map. *)
Definition Coherent (sums : list (string * string) * list string) : Prop :=
  forall path, In path (snd sums) -> mapGet path (fst sums) <> None.

(** The lines of [md5sums] for the paths and the contents of their
    files. *)
Definition md5Lines (W : World) (paths contents : list string) : list string :=
  flat_map (fun pc => [md5hex W (snd pc) ++ " "; fst pc ++ nl])
    (combine paths contents).

(** In the scripted worlds [os.Chmod] succeeds. *)
#[export] Instance scriptedChmod (sc : Scenario) : Chmod (scripted sc) :=
  {| osChmod := fun _ _ s => (None, s) |}.

(** A Debian host. *)
Definition debian64 : platform.Platform :=
  {| platform.Name := "debian10"; platform.Arch := "x86_64";
     platform.OS := platform.OSLinux; platform.Pkg := platform.PkgDeb;
     platform.ArtifactExtensions := [".tgz"; ".deb"] |}.

(** The files of the scripted Debian host: the template of the control file
    and the data files. *)
Definition debFiles (name : string) : result string :=
  if name =? "../installer/deb/control" then templates name
  else Ok ("bytes of " ++ name).

(** Every upload of the trace is of a file that was created earlier in the
    trace, or is in [seen]. *)
Fixpoint uploadsCreated (seen : list string) (t : list Event) : bool :=
  match t with
  | [] => true
  | e :: t' =>
      forallb (fun name => existsb (String.eqb name) seen) (uploaded e)
      && uploadsCreated (created e ++ seen) t'
  end.

(** The events after which [uploadRelease] can stop with a fatal exit: an
    answer of the CI (its error, or a reconciliation that fails on what it
    answered) and a failure of the client, of a file, of the fetch, of a
    copy or of the encoder.  An upload, a close and a print are none of
    them. *)
Definition stops (e : Event) : bool :=
  match e with
  | Ev c r =>
      match c return Resp c -> bool with
      | GetTasksForRevision _ | GetArtifactsForTask _ => fun _ => true
      | GetClient => fun r => match r with Err _ => true | Ok _ => false end
      | OsCreate _ | OsOpen _ | HttpGet _ =>
          fun r => match r with Err _ => true | Ok _ => false end
      | ReadFile _ => fun r => match r with Err _ => true | Ok _ => false end
      | IoCopy _ _ | JsonEncode _ _ _ _ =>
          fun r => match r with Some _ => true | None => false end
      | _ => fun _ => false
      end r
  end.

(** Whether the last event of a trace is one of them; [prev] stands for the
    event before the trace. *)
Definition lastStops (prev : bool) (t : list Event) : bool :=
  fold_left (fun _ e => stops e) t prev.

(** A procedure whose fatal exits come right after such an event. *)
Definition Stops {W : World} {A} (prev : bool) (m : M W A) : Prop :=
  forall s msg, outcome (m s) = Exit msg -> lastStops prev (events (m s)) = true.

(** ** The whole run of [uploadRelease] *)

(** The events of a [downloadFile] that returns: the file is created, the
    URL is fetched, the body is copied into the file without an error, and
    the body and the file are closed. *)
Definition downloadEvents (url dst : string) (out resp : Handle) (e1 e2 : error)
    : list Event :=
  [Ev (OsCreate dst) (Ok out); Ev (HttpGet url) (Ok resp);
   Ev (IoCopy out resp) None; Ev (Close resp) e1; Ev (Close out) e2].

(** The events of a [copyFile] that returns: the source is opened, the
    destination is created, the source is copied into it without an error,
    and the destination (twice) and the source are closed. *)
Definition copyEvents (src dst : string) (file out : Handle) (e1 e2 e3 : error)
    : list Event :=
  [Ev (OsOpen src) (Ok file); Ev (OsCreate dst) (Ok out);
   Ev (IoCopy out file) None; Ev (Close out) e1; Ev (Close out) e2;
   Ev (Close file) e3].

(** The announcement and the upload of a file. *)
Definition uploadEvents (c : Client) (file : string) (e : error) : list Event :=
  [Ev (Print (uploadingTo file)) tt;
   Ev (UploadFile c "downloads.mongodb.org" "/tools/db" file) e].

(** The tasks whose artifacts the CI was asked for, with what it answered,
    in order. *)
Definition artifactsListed (e : Event)
    : list (string * result (list evergreen.Artifact)) :=
  match e with
  | Ev c r =>
      match c return Resp c -> list (string * result (list evergreen.Artifact)) with
      | GetArtifactsForTask taskID => fun r => [(taskID, r)]
      | _ => fun _ => []
      end r
  end.
Definition artifactLists (t : list Event)
    : list (string * result (list evergreen.Artifact)) :=
  flat_map artifactsListed t.

(** The names of a round: for the platform of the task and the extension of
    the URL of each artifact, in order. *)
Definition roundNames (W : World) (names : platform.Platform -> string -> list string)
    (round : evergreen.Task * list evergreen.Artifact) : list string :=
  match GetByVariant W (evergreen.Variant (fst round)) with
  | Some pf => flat_map (fun a => names pf (path.Ext (evergreen.URL a))) (snd round)
  | None => []
  end.

(** The files whose digests a round takes: for a stable version the
    latest-stable copy, three times. *)
Definition digestFiles (W : World) (v : version.Version) (pf : platform.Platform)
    (ext : string) : list string :=
  if IsStable W v
  then [latestStableFile pf ext; latestStableFile pf ext; latestStableFile pf ext]
  else [].

(** A sign task and the artifacts listed for it agree with the platform
    matrix: the variant resolves and the artifacts are as many as the
    artifact extensions of the platform. *)
Definition Reconciled (W : World) (task : evergreen.Task)
    (artifacts : list evergreen.Artifact) : Prop :=
  exists pf, GetByVariant W (evergreen.Variant task) = Some pf /\
             length artifacts = length (platform.ArtifactExtensions pf).

(** The environment says that the build is not a patch. *)
Definition notPatch (c : Cmd) : option (Resp c) :=
  match c return option (Resp c) with
  | EvgIsPatch => Some false
  | _ => None
  end.

(** The CI lists two archives, and no package, for every task. *)
Definition twoArchives (c : Cmd) : option (Resp c) :=
  match c return option (Resp c) with
  | GetArtifactsForTask _ =>
      Some (Ok [ {| evergreen.URL := "https://host/a/tools.tgz" |};
                 {| evergreen.URL := "https://host/b/tools.tgz" |} ])
  | _ => None
  end.

(** Two platforms, and two sign tasks of the first of them. *)
Definition twoPlatforms : Scenario :=
  {| patch := false;
     tasks := Ok [ signTask "t1" "rhel70"; signTask "t2" "rhel70" ];
     artifacts := fun _ => Ok [ {| evergreen.URL := "https://host/a/tools.tgz" |};
                                {| evergreen.URL := "https://host/a/tools.rpm" |} ];
     uploadError := fun _ => None;
     matrix := [("rhel70", linux64); ("windows", windows64)];
     files := fun name => Ok ("bytes of " ++ name);
     envPlatform := Ok linux64;
     current := Ok v100_3_1 |}.

(** * Facts *)

(** ** The Go library models on examples *)

Example Ext_tgz : path.Ext "https://host/dir.d/foo.tgz" = ".tgz".
Proof. reflexivity. Qed.

Example Ext_none : path.Ext "https://host/dir.d/foo" = "".
Proof. reflexivity. Qed.

Example Replace_all :
  strings.Replace "a@X@b@X@" "@X@" "1" (-1) = "a1b1".
Proof. reflexivity. Qed.

Example Replace_first :
  strings.Replace "a@X@b@X@" "@X@" "1" 1 = "a1b@X@".
Proof. reflexivity. Qed.

Example itoa_12 : itoa 12 = "12" /\ ztoa 100 = "100" /\ ztoa (-3) = "-3".
Proof. repeat split. Qed.



(** ** The program on examples *)

(** A stable release of one platform: six artifact uploads, then the feed. *)
Example release_run :
  let r := uploadRelease (W := scripted release) v100_3_1 tt in
  outcome r = Done tt /\
  uploads (events r) =
    ["mongodb-database-tools-rhel70-x86_64-unstable.tgz";
     "mongodb-database-tools-rhel70-x86_64-100.3.1.tgz";
     "mongodb-database-tools-rhel70-x86_64-latest-stable.tgz";
     "mongodb-database-tools-rhel70-x86_64-unstable.rpm";
     "mongodb-database-tools-rhel70-x86_64-100.3.1.rpm";
     "mongodb-database-tools-rhel70-x86_64-latest-stable.rpm";
     "release.json"].
Proof. vm_compute. split; reflexivity. Qed.

(** A release candidate: the unstable names only, and no feed. *)
Example prerelease_run :
  let r := uploadRelease (W := scripted release) v100_3_1_rc tt in
  outcome r = Done tt /\
  uploads (events r) =
    ["mongodb-database-tools-rhel70-x86_64-unstable.tgz";
     "mongodb-database-tools-rhel70-x86_64-unstable.rpm"].
Proof. vm_compute. split; reflexivity. Qed.

(** A patch build: the notice is printed first, and the release is uploaded
    all the same. *)
Example patch_run :
  let r := uploadRelease (W := scripted (withPatch release true)) v100_3_1 tt in
  outcome r = Done tt /\
  hd_error (prints (events r))
  = Some ("current build is a patch; not uploading a release" ++ nl) /\
  length (uploads (events r)) = 7.
Proof. vm_compute. repeat split. Qed.

(** ** Strings *)

Module StringFacts.
Import strings.

Lemma length_app (a b : string) :
  String.length (a ++ b) = String.length a + String.length b.
Proof. induction a as [|x a IH]; simpl; [reflexivity | now rewrite IH]. Qed.

(** A prefix of a part is a prefix of the whole. *)
Lemma HasPrefix_app (a b tok : string) :
  HasPrefix a tok = true -> HasPrefix (a ++ b) tok = true.
Proof.
  revert a; induction tok as [|c tok IH]; intros a H; [reflexivity|].
  destruct a as [|x a]; simpl in *; [discriminate|].
  apply andb_true_iff in H as [Hc Ht].
  now rewrite Hc, (IH _ Ht).
Qed.

Lemma HasPrefix_upto (n : nat) (s tok : string) :
  HasPrefix (upto n s) tok = true -> HasPrefix s tok = true.
Proof.
  revert n s; induction tok as [|c tok IH]; intros n s H; [reflexivity|].
  destruct n as [|n], s as [|x s]; simpl in *; try discriminate.
  apply andb_true_iff in H as [Hc Ht].
  now rewrite Hc, (IH _ _ Ht).
Qed.

Lemma HasPrefix_split (s tok : string) :
  HasPrefix s tok = true -> s = tok ++ from (String.length tok) s.
Proof.
  revert s; induction tok as [|c tok IH]; intros s H; simpl.
  - now destruct s.
  - destruct s as [|x s]; simpl in *; [discriminate|].
    apply andb_true_iff in H as [Hc Ht].
    apply Ascii.eqb_eq in Hc; subst x.
    now rewrite <- (IH _ Ht).
Qed.

(** A byte that is no byte of the token stops every match. *)
Lemma HasPrefix_stop (a x tok : string) (c : ascii) :
  elem c tok = false ->
  HasPrefix (a ++ String c x) tok = HasPrefix a tok.
Proof.
  revert a; induction tok as [|t tok IH]; intros a Hc; [reflexivity|].
  simpl in Hc. apply orb_false_iff in Hc as [Hct Hc].
  destruct a as [|y a]; simpl.
  - rewrite Ascii.eqb_sym, Hct. reflexivity.
  - now rewrite (IH a Hc).
Qed.

Lemma occurrences_empty (tok : string) :
  tok <> "" -> occurrences tok "" = 0.
Proof. destruct tok; [congruence | reflexivity]. Qed.

(** Nothing starts inside a value that lacks the first byte of the token. *)
Lemma occurrences_skip (t : ascii) (tok v x : string) :
  elem t v = false ->
  occurrences (String t tok) (v ++ x) = occurrences (String t tok) x.
Proof.
  induction v as [|c v IH]; intros Hv; [reflexivity|].
  simpl in Hv. apply orb_false_iff in Hv as [Htc Hv].
  change (String c v ++ x) with (String c (v ++ x)).
  cbn [occurrences HasPrefix]. rewrite Htc. simpl. now apply IH.
Qed.

(** Around a clean value the occurrences are those of the two sides. *)
Lemma occurrences_around (tok v g x : string) :
  clean tok v = true ->
  occurrences tok (g ++ v ++ x) = occurrences tok g + occurrences tok x.
Proof.
  intros Hc. destruct v as [|c v]; [discriminate|].
  destruct tok as [|t tok]; [discriminate|].
  simpl in Hc. apply andb_true_iff in Hc as [Hc1 Hc2].
  apply negb_true_iff in Hc1, Hc2.
  induction g as [|y g IH].
  - change ("" ++ String c v ++ x) with (String c v ++ x).
    rewrite (occurrences_skip t tok (String c v) x Hc2). reflexivity.
  - change (String y g ++ String c v ++ x) with (String y (g ++ String c v ++ x)).
    cbn [occurrences]. rewrite IH.
    change (String y (g ++ String c v ++ x))
      with (String y g ++ String c (v ++ x)).
    rewrite (HasPrefix_stop (String y g) (v ++ x) (String t tok) c Hc1).
    lia.
Qed.

(** Occurrences of the parts are occurrences of the whole. *)
Lemma occurrences_app_ge (tok a b : string) :
  tok <> "" ->
  occurrences tok a + occurrences tok b <= occurrences tok (a ++ b).
Proof.
  intros Hne. induction a as [|y a IH].
  - rewrite occurrences_empty by assumption. simpl. lia.
  - change (String y a ++ b) with (String y (a ++ b)).
    cbn [occurrences].
    destruct (HasPrefix (String y a) tok) eqn:Hp.
    + change (String y (a ++ b)) with (String y a ++ b).
      rewrite (HasPrefix_app _ b _ Hp). lia.
    + destruct (HasPrefix (String y (a ++ b)) tok); lia.
Qed.

Lemma HasPrefix_refl (tok : string) : HasPrefix tok tok = true.
Proof.
  induction tok as [|c tok IH]; simpl; [reflexivity|].
  now rewrite Ascii.eqb_refl.
Qed.

Lemma occurrences_self (tok : string) : 1 <= occurrences tok tok.
Proof.
  destruct tok as [|c tok]; [simpl; lia|].
  cbn [occurrences]. rewrite HasPrefix_refl. lia.
Qed.

Lemma Index_None (s tok : string) :
  Index s tok = None -> occurrences tok s = 0.
Proof.
  induction s as [|c s IH]; simpl.
  - destruct (HasPrefix "" tok); [discriminate | reflexivity].
  - destruct (HasPrefix (String c s) tok); [discriminate|].
    destruct (Index s tok); [discriminate|]. intros _. now rewrite IH.
Qed.

(** At the first instance the string splits, and nothing starts before it. *)
Lemma Index_Some (s tok : string) (j : nat) :
  tok <> "" ->
  Index s tok = Some j ->
  s = upto j s ++ tok ++ from (j + String.length tok) s /\
  occurrences tok (upto j s) = 0.
Proof.
  intros Hne. revert j. induction s as [|c s IH]; intros j; simpl.
  - destruct (HasPrefix "" tok) eqn:Hp; [|discriminate].
    destruct tok; [congruence | discriminate].
  - destruct (HasPrefix (String c s) tok) eqn:Hp.
    + intros [= <-]. split.
      * apply (HasPrefix_split _ _ Hp).
      * simpl. now apply occurrences_empty.
    + destruct (Index s tok) as [i|] eqn:Hi; [|discriminate].
      intros [= <-]. destruct (IH i eq_refl) as [Hs Ho]. split.
      * simpl. f_equal. exact Hs.
      * cbn [upto occurrences]. rewrite Ho.
        destruct (HasPrefix (String c (upto i s)) tok) eqn:Hq; [|reflexivity].
        apply (HasPrefix_upto (S i) (String c s)) in Hq. congruence.
Qed.

Lemma length_from (n : nat) (s : string) :
  String.length (from n s) = String.length s - n.
Proof.
  revert s; induction n as [|n IH]; intros s; simpl.
  - lia.
  - destruct s as [|c s]; simpl; [reflexivity | apply IH].
Qed.

Lemma length_upto (n : nat) (s : string) :
  String.length (upto n s) = Nat.min n (String.length s).
Proof.
  revert s; induction n as [|n IH]; intros s; simpl; [reflexivity|].
  destruct s as [|c s]; simpl; [reflexivity | now rewrite IH].
Qed.

Lemma Index_bound (s tok : string) (j : nat) :
  tok <> "" -> Index s tok = Some j -> j + String.length tok <= String.length s.
Proof.
  intros Hne Hi. destruct (Index_Some s tok j Hne Hi) as [Hs _].
  apply (f_equal String.length) in Hs.
  rewrite !length_app, length_from, length_upto in Hs.
  assert (0 < String.length tok) by (destruct tok; [congruence | simpl; lia]).
  lia.
Qed.

Lemma clean_nonempty (tok v : string) : clean tok v = true -> tok <> "".
Proof. destruct v, tok; simpl; congruence. Qed.

Lemma clean_neq (tok v : string) : clean tok v = true -> (tok =? v) = false.
Proof.
  intros Hc. apply String.eqb_neq. intros ->.
  destruct v as [|c v]; [discriminate|]. simpl in Hc.
  rewrite Ascii.eqb_refl in Hc. discriminate.
Qed.

Lemma eqb_empty (tok : string) : tok <> "" -> (tok =? "") = false.
Proof. intros H. now apply String.eqb_neq. Qed.

(** Replacing instances of [old] by a value that is clean for [tok] brings
    no new occurrence of [tok]. *)
Lemma Replace_loop_le (tok old v : string) (k : nat) :
  old <> "" -> clean tok v = true ->
  forall (b : bool) (s : string),
    occurrences tok (Replace_loop old v k b s) <= occurrences tok s.
Proof.
  intros Hold Hc. pose proof (clean_nonempty tok v Hc) as Htok.
  induction k as [|k IH]; intros b s; [simpl; lia|].
  cbn [Replace_loop]. rewrite (eqb_empty old Hold).
  destruct (Index s old) as [j|] eqn:Hi; [|lia].
  destruct (Index_Some s old j Hold Hi) as [Hs _].
  set (rest := from (j + String.length old) s) in *.
  rewrite occurrences_around by assumption.
  specialize (IH false rest).
  pose proof (occurrences_app_ge tok (upto j s) (old ++ rest) Htok) as H1.
  pose proof (occurrences_app_ge tok old rest Htok) as H2.
  rewrite <- Hs in H1. lia.
Qed.

Lemma Replace_le (tok old v s : string) (n : Z) :
  old <> "" -> clean tok v = true ->
  occurrences tok (Replace s old v n) <= occurrences tok s.
Proof.
  intros Hold Hc. unfold Replace.
  destruct ((old =? v) || (n =? 0)%Z); [lia|].
  destruct (Count s old =? 0)%nat; [lia|].
  now apply Replace_loop_le.
Qed.

(** Replacing as many instances as [Count] finds leaves none. *)
Lemma Replace_loop_all (tok v : string) :
  clean tok v = true ->
  forall (fuel : nat) (b : bool) (s : string),
    String.length s < fuel ->
    occurrences tok (Replace_loop tok v (Count_loop fuel s tok) b s) = 0.
Proof.
  intros Hc. pose proof (clean_nonempty tok v Hc) as Htok.
  induction fuel as [|fuel IH]; intros b s Hlen; [lia|].
  cbn [Count_loop].
  destruct (Index s tok) as [j|] eqn:Hi.
  - cbn [Replace_loop]. rewrite (eqb_empty tok Htok), Hi.
    destruct (Index_Some s tok j Htok Hi) as [_ Hbefore].
    pose proof (Index_bound s tok j Htok Hi) as Hb.
    assert (0 < String.length tok) by (destruct tok; [congruence | simpl; lia]).
    rewrite occurrences_around by assumption.
    rewrite Hbefore, IH; [reflexivity|].
    rewrite length_from. lia.
  - simpl. now apply Index_None.
Qed.

(** [strings.Replace] with [n < 0] leaves no instance of the token, when
    the value is clean for it. *)
Lemma Replace_all_none (tok v s : string) :
  clean tok v = true ->
  occurrences tok (Replace s tok v (-1)) = 0.
Proof.
  intros Hc. pose proof (clean_nonempty tok v Hc) as Htok.
  unfold Replace. rewrite (clean_neq tok v Hc). cbn [orb Z.eqb].
  unfold Count. rewrite (eqb_empty tok Htok).
  destruct (Count_loop (S (String.length s)) s tok =? 0)%nat eqn:Hm.
  - apply Nat.eqb_eq in Hm. cbn [Count_loop] in Hm.
    destruct (Index s tok) eqn:Hi; [discriminate|]. now apply Index_None.
  - cbn [Z.ltb Z.compare orb]. apply Replace_loop_all; [assumption | lia].
Qed.

(** [strings.Replace] with [n = 1] takes one occurrence away. *)
Lemma Replace_first_none (tok v s : string) :
  clean tok v = true ->
  occurrences tok s <= 1 ->
  occurrences tok (Replace s tok v 1) = 0.
Proof.
  intros Hc Hone. pose proof (clean_nonempty tok v Hc) as Htok.
  unfold Replace. rewrite (clean_neq tok v Hc). cbn [orb Z.eqb].
  unfold Count. rewrite (eqb_empty tok Htok).
  cbn [Count_loop].
  destruct (Index s tok) as [j|] eqn:Hi.
  - cbn [Nat.eqb Z.ltb Z.compare orb].
    replace (Z.of_nat (S (Count_loop (String.length s)
               (from (j + String.length tok) s) tok)) <? 1)%Z with false
      by (symmetry; apply Z.ltb_ge; lia).
    change (Z.to_nat 1) with 1. cbn [Replace_loop].
    rewrite (eqb_empty tok Htok), Hi.
    destruct (Index_Some s tok j Htok Hi) as [Hs Hbefore].
    set (rest := from (j + String.length tok) s) in *.
    rewrite occurrences_around by assumption.
    pose proof (occurrences_app_ge tok (upto j s) (tok ++ rest) Htok) as H1.
    pose proof (occurrences_app_ge tok tok rest Htok) as H2.
    pose proof (occurrences_self tok) as H3.
    rewrite <- Hs in H1. lia.
  - simpl. now apply Index_None.
Qed.

(** [strings.Count] counts no more than the occurrences. *)
Lemma Count_loop_le (tok : string) :
  tok <> "" ->
  forall (fuel : nat) (s : string), Count_loop fuel s tok <= occurrences tok s.
Proof.
  intros Htok. induction fuel as [|fuel IH]; intros s; [simpl; lia|].
  cbn [Count_loop]. destruct (Index s tok) as [j|] eqn:Hi; [|lia].
  destruct (Index_Some s tok j Htok Hi) as [Hs _].
  set (rest := from (j + String.length tok) s) in *.
  specialize (IH rest).
  pose proof (occurrences_app_ge tok (upto j s) (tok ++ rest) Htok) as H1.
  pose proof (occurrences_app_ge tok tok rest Htok) as H2.
  pose proof (occurrences_self tok) as H3.
  rewrite <- Hs in H1. lia.
Qed.

(** Where the token occurs at most once, replacing one instance is replacing
    all of them. *)
Lemma Replace_first_all (tok v s : string) :
  tok <> "" ->
  occurrences tok s <= 1 ->
  Replace s tok v 1 = Replace s tok v (-1).
Proof.
  intros Htok Hone. unfold Replace.
  destruct (tok =? v); [reflexivity|]. cbn [orb Z.eqb].
  unfold Count. rewrite (eqb_empty tok Htok).
  pose proof (Count_loop_le tok Htok (S (String.length s)) s) as Hm.
  destruct (Count_loop (S (String.length s)) s tok) as [|m]; [reflexivity|].
  assert (m = 0) by lia. subst m. reflexivity.
Qed.

End StringFacts.

(** ** The monad *)

Section MonadFacts.
Context {W : World}.

Lemma outcome_bind {A B} (m : M W A) (k : A -> M W B) (s : St W) :
  outcome (bind m k s) =
  match outcome (m s) with
  | Done a => outcome (k a (final (m s)))
  | Exit msg => Exit msg
  | Panic msg => Panic msg
  end.
Proof. unfold bind. destruct (outcome (m s)); reflexivity. Qed.

Lemma events_bind {A B} (m : M W A) (k : A -> M W B) (s : St W) :
  events (bind m k s) =
  (events (m s) ++
   match outcome (m s) with
   | Done a => events (k a (final (m s)))
   | _ => []
   end)%list.
Proof.
  unfold bind. destruct (outcome (m s)); simpl;
    [reflexivity | now rewrite List.app_nil_r ..].
Qed.

Lemma Returns_intro {A} (m : M W A) (s : St W) (a : A) :
  outcome (m s) = Done a -> Returns m s a (final (m s)) (events (m s)).
Proof. unfold Returns. destruct (m s) as [o s' t]; simpl. now intros ->. Qed.

Lemma Returns_ret {A} (a b : A) s s' t :
  Returns (ret a) s b s' t -> b = a /\ s' = s /\ t = [].
Proof. unfold Returns, ret. now intros [= -> -> ->]. Qed.

Lemma Returns_call (c : Cmd) s r s' t :
  Returns (call c) s r s' t -> handle W c s = (r, s') /\ t = [Ev c r].
Proof.
  unfold Returns, call. destruct (handle W c s) as [r0 s0].
  now intros [= -> -> <-].
Qed.

Lemma Returns_bind {A B} (m : M W A) (k : A -> M W B) s b s2 t :
  Returns (bind m k) s b s2 t ->
  exists a s1 t1 t2,
    Returns m s a s1 t1 /\ Returns (k a) s1 b s2 t2 /\ t = (t1 ++ t2)%list.
Proof.
  unfold Returns, bind. destruct (m s) as [o s1 t1]; simpl.
  destruct o as [a| |]; try discriminate.
  destruct (k a s1) as [o2 s2' t2] eqn:Hk; simpl.
  intros [= -> -> <-]. exists a, s1, t1, t2. now rewrite Hk.
Qed.

Lemma Returns_logFatal {A} (msg : string) s (a : A) s' t :
  Returns (logFatal msg) s a s' t -> False.
Proof. unfold Returns, logFatal. discriminate. Qed.

Lemma Returns_panic {A} (msg : string) s (a : A) s' t :
  Returns (panic msg) s a s' t -> False.
Proof. unfold Returns, panic. discriminate. Qed.

Lemma Returns_check (err : error) (format : string) s u s' t :
  Returns (check err format) s u s' t -> err = None /\ s' = s /\ t = [].
Proof.
  destruct err as [e|]; simpl; intros H.
  - now apply Returns_logFatal in H.
  - apply Returns_ret in H. tauto.
Qed.

Lemma Returns_checked {A} (m : M W (result A)) (format : string) s a s' t :
  Returns (checked m format) s a s' t -> Returns m s (Ok a) s' t.
Proof.
  unfold checked. intros H.
  apply Returns_bind in H as (r & s1 & t1 & t2 & Hm & Hk & ->).
  destruct r as [x|e].
  - apply Returns_ret in Hk as (-> & -> & ->). now rewrite List.app_nil_r.
  - now apply Returns_logFatal in Hk.
Qed.

(** A returning loop is a chain of returning bodies. *)
Lemma Returns_foldM_cons {A B} (f : B -> A -> M W B) x l b s b2 s2 t :
  Returns (foldM f (x :: l) b) s b2 s2 t ->
  exists b1 s1 t1 t2,
    Returns (f b x) s b1 s1 t1 /\ Returns (foldM f l b1) s1 b2 s2 t2 /\
    t = (t1 ++ t2)%list.
Proof. simpl. apply Returns_bind. Qed.

Lemma quiet_ret {A} ok (a : A) : Quiet ok (ret a).
Proof. intros s. constructor. Qed.

Lemma quiet_logFatal {A} ok msg : Quiet ok (@logFatal W A msg).
Proof. intros s. constructor. Qed.

Lemma quiet_panic {A} ok msg : Quiet ok (@panic W A msg).
Proof. intros s. constructor. Qed.

Lemma quiet_call ok (c : Cmd) : ok c = true -> Quiet ok (call c).
Proof.
  intros Hc s. unfold call. destruct (handle W c s) as [r s'].
  simpl. now repeat constructor.
Qed.

Lemma quiet_bind {A B} ok (m : M W A) (k : A -> M W B) :
  Quiet ok m -> (forall a, Quiet ok (k a)) -> Quiet ok (bind m k).
Proof.
  intros Hm Hk s. rewrite events_bind. apply Forall_app. split; [apply Hm|].
  destruct (outcome (m s)); [apply Hk | constructor ..].
Qed.

Lemma quiet_check ok err format : Quiet ok (check err format).
Proof. destruct err; [apply quiet_logFatal | apply quiet_ret]. Qed.

Lemma quiet_checked {A} ok (m : M W (result A)) format :
  Quiet ok m -> Quiet ok (checked m format).
Proof.
  intros Hm. apply quiet_bind; [assumption|].
  intros [a|e]; [apply quiet_ret | apply quiet_logFatal].
Qed.

Lemma quiet_foldM {A B} ok (f : B -> A -> M W B) (l : list A) :
  (forall b x, Quiet ok (f b x)) -> forall b, Quiet ok (foldM f l b).
Proof.
  intros Hf. induction l as [|x l IH]; intros b; simpl.
  - apply quiet_ret.
  - apply quiet_bind; [apply Hf | apply IH].
Qed.

Lemma nopanic_ret {A} (a : A) : NoPanic (ret a).
Proof. intros s msg. discriminate. Qed.

Lemma nopanic_logFatal {A} msg : NoPanic (@logFatal W A msg).
Proof. intros s m. discriminate. Qed.

Lemma nopanic_call (c : Cmd) : NoPanic (call c).
Proof. intros s msg. unfold call. destruct (handle W c s). discriminate. Qed.

Lemma nopanic_bind {A B} (m : M W A) (k : A -> M W B) :
  NoPanic m -> (forall a, NoPanic (k a)) -> NoPanic (bind m k).
Proof.
  intros Hm Hk s msg. rewrite outcome_bind.
  destruct (outcome (m s)) eqn:Ho; [apply Hk | discriminate |].
  exfalso. exact (Hm s _ Ho).
Qed.

Lemma nopanic_check err format : NoPanic (check err format).
Proof. destruct err; [apply nopanic_logFatal | apply nopanic_ret]. Qed.

Lemma nopanic_checked {A} (m : M W (result A)) format :
  NoPanic m -> NoPanic (checked m format).
Proof.
  intros Hm. apply nopanic_bind; [assumption|].
  intros [a|e]; [apply nopanic_ret | apply nopanic_logFatal].
Qed.

Lemma nopanic_foldM {A B} (f : B -> A -> M W B) (l : list A) :
  (forall b x, NoPanic (f b x)) -> forall b, NoPanic (foldM f l b).
Proof.
  intros Hf. induction l as [|x l IH]; intros b; simpl.
  - apply nopanic_ret.
  - apply nopanic_bind; [apply Hf | apply IH].
Qed.

End MonadFacts.

(** Walk through a procedure, statement by statement. *)
Ltac quiet :=
  repeat (cbv beta;
    first
      [ apply quiet_ret | apply quiet_logFatal | apply quiet_panic
      | apply quiet_check
      | match goal with
        | |- Quiet ?ok (call ?c) => exact (quiet_call ok c eq_refl)
        end
      | apply quiet_checked
      | apply quiet_bind; [|intro]
      | apply quiet_foldM; intros
      | match goal with
        | |- Quiet _ (if ?b then _ else _) => destruct b
        | |- Quiet _ (match ?x with _ => _ end) => destruct x
        end
      | assumption ]).

Ltac nopanic :=
  repeat (cbv beta;
    first
      [ apply nopanic_ret | apply nopanic_logFatal | apply nopanic_check
      | match goal with
        | |- NoPanic (call ?c) => exact (nopanic_call c)
        end
      | apply nopanic_checked
      | apply nopanic_bind; [|intro]
      | apply nopanic_foldM; intros
      | match goal with
        | |- NoPanic (if ?b then _ else _) => destruct b
        end
      | assumption ]).

(** Take a returning run apart, statement by statement. *)
Ltac returns :=
  repeat match goal with
    | H : Returns (bind _ _) _ _ _ _ |- _ =>
        let a := fresh "a" in let s := fresh "s" in
        let t1 := fresh "t" in let t2 := fresh "t" in
        let H1 := fresh "H" in
        apply Returns_bind in H as (a & s & t1 & t2 & H1 & H & ->)
    | H : Returns (ret _) _ _ _ _ |- _ =>
        apply Returns_ret in H as (-> & -> & ->)
    | H : Returns (call ?c) ?s ?r ?s' ?t |- _ =>
        let Hh := fresh "Hcall" in
        apply (Returns_call c s r s' t) in H as (Hh & ->)
    | H : Returns (if ?b then _ else _) _ _ _ _ |- _ =>
        let Hb := fresh "Hif" in destruct b eqn:Hb
    | H : Returns (check _ _) _ _ _ _ |- _ =>
        apply Returns_check in H as (-> & -> & ->)
    | H : Returns (checked _ _) _ _ _ _ |- _ => apply Returns_checked in H
    | H : Returns (logFatal _) _ _ _ _ |- _ => now apply Returns_logFatal in H
    | H : Returns (panic _) _ _ _ _ |- _ => now apply Returns_panic in H
    end.

(** ** Traces *)

Lemma flat_map_quiet {X} (f : Event -> list X) (ok : Cmd -> bool) (t : list Event) :
  (forall e, ok (cmdOf e) = true -> f e = []) ->
  Forall (fun e => ok (cmdOf e) = true) t -> flat_map f t = [].
Proof.
  intros Hf Ht. induction Ht as [|e t He _ IH]; simpl; [reflexivity|].
  now rewrite (Hf e He), IH.
Qed.

Ltac by_command :=
  let e := fresh "e" in let c := fresh "c" in let r := fresh "r" in
  intros e; destruct e as [c r]; destruct c; simpl; solve [reflexivity | discriminate].

Lemma plain_uploads t :
  Forall (fun e => plain (cmdOf e) = true) t -> uploads t = [].
Proof. apply flat_map_quiet. by_command. Qed.

Lemma plain_reads t :
  Forall (fun e => plain (cmdOf e) = true) t -> reads t = [].
Proof. apply flat_map_quiet. by_command. Qed.

Lemma plain_execs t :
  Forall (fun e => plain (cmdOf e) = true) t -> execs t = [].
Proof. apply flat_map_quiet. by_command. Qed.

Lemma plain_versionAnswered t :
  Forall (fun e => plain (cmdOf e) = true) t -> flat_map versionAnswered t = [].
Proof. apply flat_map_quiet. by_command. Qed.

Lemma plain_artifactsAnswered t :
  Forall (fun e => plain (cmdOf e) = true) t -> flat_map artifactsAnswered t = [].
Proof. apply flat_map_quiet. by_command. Qed.

Lemma uploads_app t1 t2 : uploads (t1 ++ t2) = (uploads t1 ++ uploads t2)%list.
Proof. apply flat_map_app. Qed.

Lemma execs_app t1 t2 : execs (t1 ++ t2) = (execs t1 ++ execs t2)%list.
Proof. apply flat_map_app. Qed.

(** The uploads of a trace of artifact uploads are artifact names. *)
Lemma artifactsOnly_uploads t :
  Forall (fun e => artifactsOnly (cmdOf e) = true) t ->
  Forall (fun f => strings.HasPrefix f "mongodb-database-tools-" = true) (uploads t).
Proof.
  intros Ht. induction Ht as [|e t He _ IH]; [constructor|].
  unfold uploads. cbn [flat_map]. apply Forall_app. split; [|exact IH].
  destruct e as [c r]; destruct c; simpl in *; repeat constructor; assumption.
Qed.

(** ** The procedures of the program *)

Section ProgramFacts.
Context {W : World}.

Lemma call_run (c : Cmd) (s : St W) :
  call c s =
  mkRun (Done (fst (handle W c s))) (snd (handle W c s))
    [Ev c (fst (handle W c s))].
Proof. unfold call. now destruct (handle W c s). Qed.

Lemma bind_run {A B} (m : M W A) (k : A -> M W B) (s : St W) :
  bind m k s =
  match outcome (m s) with
  | Done a => after (events (m s)) (k a (final (m s)))
  | Exit msg => mkRun (Exit msg) (final (m s)) (events (m s))
  | Panic msg => mkRun (Panic msg) (final (m s)) (events (m s))
  end.
Proof. reflexivity. Qed.

Lemma checked_run {A} (m : M W (result A)) (format : string) (s : St W) :
  checked m format s =
  match outcome (m s) with
  | Done (Ok a) => mkRun (Done a) (final (m s)) (events (m s))
  | Done (Err e) => after (events (m s)) (checkFailed e format (final (m s)))
  | Exit msg => mkRun (Exit msg) (final (m s)) (events (m s))
  | Panic msg => mkRun (Panic msg) (final (m s)) (events (m s))
  end.
Proof.
  unfold checked. rewrite bind_run.
  destruct (outcome (m s)) as [[a|e]| |]; try reflexivity.
  unfold after, ret. cbn [outcome final events]. now rewrite List.app_nil_r.
Qed.

Lemma copyFile_plain src dst : Quiet plain (copyFile src dst).
Proof. unfold copyFile. quiet. Qed.

Lemma downloadFile_plain url dst : Quiet plain (downloadFile url dst).
Proof. unfold downloadFile. quiet. Qed.

Lemma useWorkingDir_plain dir : Quiet plain (useWorkingDir dir).
Proof. unfold useWorkingDir. quiet. Qed.

End ProgramFacts.

(** ** [uploadRelease]: the reconciliation *)

Section ReconcileFacts.
Context {W : World}.

(** One round of the first loop. *)
Lemma collect_step (task : evergreen.Task) (acc : list evergreen.Task) (s : St W) :
  collectSignTask acc task s =
  if unknownSign W task then
    mkRun (Exit ("found sign task with unknown variant '"
                 ++ evergreen.Variant task ++ "'" ++ nl)) s []
  else mkRun (Done (if isSignTask task then acc ++ [task] else acc)%list) s [].
Proof.
  unfold collectSignTask, unknownSign, isSignTask.
  destruct (evergreen.IsPatch task || negb (evergreen.DisplayName task =? "sign"));
    [reflexivity|].
  cbn [negb andb]. now destruct (GetByVariant W (evergreen.Variant task)).
Qed.

(** The first loop asks nothing of the world: it stops at the first sign
    task of an unknown variant, and keeps the sign tasks otherwise. *)
Lemma collect_run (tasks acc : list evergreen.Task) (s : St W) :
  foldM collectSignTask tasks acc s =
  match find (unknownSign W) tasks with
  | Some task =>
      mkRun (Exit ("found sign task with unknown variant '"
                   ++ evergreen.Variant task ++ "'" ++ nl)) s []
  | None => mkRun (Done (acc ++ signTasksOf tasks)%list) s []
  end.
Proof.
  revert acc. induction tasks as [|task tasks IH]; intros acc.
  - cbn [foldM find signTasksOf filter]. unfold ret. now rewrite List.app_nil_r.
  - cbn [foldM find signTasksOf filter]. unfold bind. rewrite collect_step.
    destruct (unknownSign W task) eqn:Hu; cbn [outcome final events]; [reflexivity|].
    rewrite IH. destruct (find (unknownSign W) tasks); [reflexivity|].
    cbn [outcome final events app]. f_equal.
    destruct (isSignTask task); [|reflexivity].
    now rewrite <- List.app_assoc.
Qed.

Lemma find_unknown_none (tasks : list evergreen.Task) :
  Forall (fun task => GetByVariant W (evergreen.Variant task) <> None)
    (signTasksOf tasks) ->
  find (unknownSign W) tasks = None.
Proof.
  induction tasks as [|task tasks IH]; intros H; [reflexivity|].
  cbn [find signTasksOf filter] in *. unfold unknownSign at 1.
  destruct (isSignTask task).
  - inversion H as [|? ? Hk Hrest]; subst.
    destruct (GetByVariant W (evergreen.Variant task)); [|congruence].
    simpl. now apply IH.
  - simpl. now apply IH.
Qed.

Lemma find_unknown_some (tasks : list evergreen.Task) :
  Exists (fun task => unknownSign W task = true) tasks ->
  exists task, find (unknownSign W) tasks = Some task.
Proof.
  intros H. destruct (find (unknownSign W) tasks) as [task|] eqn:Hf; [eauto|].
  apply Exists_exists in H as (task & Hin & Hu).
  now rewrite (find_none _ _ Hf task Hin) in Hu.
Qed.

(** The tasks that the first loop keeps are of known variants. *)
Lemma kept_tasks_known (tasks : list evergreen.Task) :
  find (unknownSign W) tasks = None ->
  Forall (fun task => GetByVariant W (evergreen.Variant task) <> None)
    (signTasksOf tasks).
Proof.
  intros Hfind. apply Forall_forall. intros task Hin.
  apply filter_In in Hin as [Hin Hsign].
  pose proof (find_none _ _ Hfind task Hin) as Hu.
  unfold unknownSign in Hu. rewrite Hsign in Hu. cbn [andb] in Hu.
  now destruct (GetByVariant W (evergreen.Variant task)).
Qed.

(** [reconcileAndUpload] once the tasks are fetched. *)
Lemma reconcile_run (v : version.Version) (s : St W) :
  let fetch := handle W (GetTasksForRevision (version.Commit v)) s in
  reconcileAndUpload v s =
  after [Ev (GetTasksForRevision (version.Commit v)) (fst fetch)]
    (match fst fetch with
     | Err e => checkFailed e "get evergreen tasks" (snd fetch)
     | Ok tasks =>
         match find (unknownSign W) tasks with
         | Some task =>
             mkRun (Exit ("found sign task with unknown variant '"
                          ++ evergreen.Variant task ++ "'" ++ nl)) (snd fetch) []
         | None =>
             if negb (length (signTasksOf tasks) =? PlatformCount W)%nat then
               mkRun (Exit ("found " ++ itoa (length (signTasksOf tasks))
                            ++ " sign tasks, but expected "
                            ++ itoa (PlatformCount W) ++ " release platforms"))
                 (snd fetch) []
             else uploadSignTasks v (signTasksOf tasks) (snd fetch)
         end
     end).
Proof.
  intros fetch. unfold reconcileAndUpload.
  rewrite bind_run, checked_run, call_run. fold fetch.
  cbn [outcome final events]. destruct (fst fetch) as [tasks|e].
  - cbn [outcome final events]. rewrite bind_run, collect_run.
    destruct (find (unknownSign W) tasks) as [task|].
    + reflexivity.
    + cbn [outcome final events app].
      destruct (negb (length (signTasksOf tasks) =? PlatformCount W)%nat).
      * reflexivity.
      * unfold after. cbn [app]. now destruct (uploadSignTasks _ _ _).
  - reflexivity.
Qed.

End ReconcileFacts.

(** ** [uploadRelease]: the patch notice and the fatal reconciliations *)

Section ReleaseFacts.
Context {W : World}.

Lemma events_after {A} (t : list Event) (r : Run (St W) A) :
  events (after t r) = (t ++ events r)%list.
Proof. reflexivity. Qed.

Lemma outcome_after {A} (t : list Event) (r : Run (St W) A) :
  outcome (after t r) = outcome r.
Proof. reflexivity. Qed.

Lemma after_after {A} (t1 t2 : list Event) (r : Run (St W) A) :
  after t1 (after t2 r) = after (t1 ++ t2) r.
Proof. unfold after. cbn [outcome final events]. now rewrite List.app_assoc. Qed.

(** [uploadRelease] is the patch notice, if any, and then the rest. *)
Lemma uploadRelease_run (v : version.Version) (s : St W) :
  let asked := handle W EvgIsPatch s in
  let told := handle W (Print patchNotice) (snd asked) in
  uploadRelease v s =
  if fst asked
  then after [Ev EvgIsPatch true; Ev (Print patchNotice) tt]
         (reconcileAndUpload v (snd told))
  else after [Ev EvgIsPatch false] (reconcileAndUpload v (snd asked)).
Proof.
  intros asked told. unfold uploadRelease.
  rewrite bind_run, call_run. fold asked. cbn [outcome final events].
  destruct (fst asked).
  - rewrite bind_run, call_run. fold told. cbn [outcome final events].
    destruct (fst told). now rewrite after_after.
  - rewrite bind_run. reflexivity.
Qed.

(** What a run of [uploadRelease] was told by [GetTasksForRevision]. *)
Lemma uploadRelease_tasks (v : version.Version) (s : St W) :
  exists s1 : St W,
    tasksAnswer (events (uploadRelease v s))
    = Some (fst (handle W (GetTasksForRevision (version.Commit v)) s1)) /\
    exists pre : list Event,
      uploads pre = [] /\
      uploadRelease v s =
      after (pre ++ [Ev (GetTasksForRevision (version.Commit v))
                       (fst (handle W (GetTasksForRevision (version.Commit v)) s1))])
        (match fst (handle W (GetTasksForRevision (version.Commit v)) s1) with
         | Err e => checkFailed e "get evergreen tasks"
                      (snd (handle W (GetTasksForRevision (version.Commit v)) s1))
         | Ok tasks =>
             match find (unknownSign W) tasks with
             | Some task =>
                 mkRun (Exit ("found sign task with unknown variant '"
                              ++ evergreen.Variant task ++ "'" ++ nl))
                   (snd (handle W (GetTasksForRevision (version.Commit v)) s1)) []
             | None =>
                 if negb (length (signTasksOf tasks) =? PlatformCount W)%nat then
                   mkRun (Exit ("found " ++ itoa (length (signTasksOf tasks))
                                ++ " sign tasks, but expected "
                                ++ itoa (PlatformCount W) ++ " release platforms"))
                     (snd (handle W (GetTasksForRevision (version.Commit v)) s1)) []
                 else uploadSignTasks v (signTasksOf tasks)
                        (snd (handle W (GetTasksForRevision (version.Commit v)) s1))
             end
         end).
Proof.
  pose proof (uploadRelease_run v s) as Hrun. cbv zeta in Hrun.
  destruct (fst (handle W EvgIsPatch s)).
  - exists (snd (handle W (Print patchNotice) (snd (handle W EvgIsPatch s)))).
    rewrite Hrun, reconcile_run. cbv zeta. rewrite after_after. split.
    + reflexivity.
    + exists [Ev EvgIsPatch true; Ev (Print patchNotice) tt]. now split.
  - exists (snd (handle W EvgIsPatch s)).
    rewrite Hrun, reconcile_run. cbv zeta. rewrite after_after. split.
    + reflexivity.
    + exists [Ev EvgIsPatch false]. now split.
Qed.

End ReleaseFacts.

(** * The properties of the specification *)

(** C1: whenever the sign tasks kept by the first loop of [uploadRelease]
    are not as many as the platforms of the matrix (more or fewer), the run
    ends in a fatal exit and no file is uploaded; when every kept task has a
    known variant, the exit is the one of the count check. *)
Theorem count_mismatch_is_fatal (W : World) (v : version.Version) (s : St W)
    (tasks : list evergreen.Task) :
  let r := uploadRelease v s in
  tasksAnswer (events r) = Some (Ok tasks) ->
  length (signTasksOf tasks) <> PlatformCount W ->
  uploads (events r) = [] /\
  (exists msg, outcome r = Exit msg) /\
  (Forall (fun task => GetByVariant W (evergreen.Variant task) <> None)
     (signTasksOf tasks) ->
   outcome r =
   Exit ("found " ++ itoa (length (signTasksOf tasks))
         ++ " sign tasks, but expected " ++ itoa (PlatformCount W)
         ++ " release platforms")).
Proof.
  intros r Htasks Hcount. subst r.
  destruct (uploadRelease_tasks v s) as (s1 & Hanswer & pre & Hpre & Hrun).
  rewrite Hanswer in Htasks. clear Hanswer. revert Htasks Hrun.
  destruct (handle W (GetTasksForRevision (version.Commit v)) s1) as [ans s2].
  cbn [fst snd]. intros [= ->] ->.
  rewrite events_after, outcome_after, uploads_app, uploads_app, Hpre.
  apply Nat.eqb_neq in Hcount. rewrite Hcount. cbn [negb].
  destruct (find (unknownSign W) tasks) as [task|] eqn:Hfind.
  - cbn [outcome events]. split; [reflexivity|]. split; [eauto|].
    intros Hknown. now rewrite (find_unknown_none tasks Hknown) in Hfind.
  - cbn [outcome events]. split; [reflexivity|]. split; [eauto|].
    reflexivity.
Qed.

(** A count mismatch in the scripted world: two sign tasks for a matrix of
    one platform. *)
Lemma count_mismatch_is_fatal_witness :
  let W := scripted (withTasks release [signTask "t1" "rhel70"; signTask "t2" "rhel70"]) in
  let r := uploadRelease (W := W) v100_3_1 tt in
  uploads (events r) = [] /\
  (exists msg, outcome r = Exit msg) /\
  (Forall (fun task => GetByVariant W (evergreen.Variant task) <> None)
     (signTasksOf [signTask "t1" "rhel70"; signTask "t2" "rhel70"]) ->
   outcome r = Exit "found 2 sign tasks, but expected 1 release platforms").
Proof.
  intros W r.
  apply (count_mismatch_is_fatal W v100_3_1 tt
           [signTask "t1" "rhel70"; signTask "t2" "rhel70"]).
  - reflexivity.
  - simpl. lia.
Defined.

(** Fewer sign tasks than platforms: no sign task at all. *)
Example count_mismatch_fewer :
  let r := uploadRelease (W := scripted (withTasks release [])) v100_3_1 tt in
  outcome r = Exit "found 0 sign tasks, but expected 1 release platforms" /\
  uploads (events r) = [].
Proof. vm_compute. split; reflexivity. Qed.

(** No upload happens before the count check has passed: a run that uploads
    anything was answered a task set in which every sign task resolves and
    the sign tasks are as many as the platforms. *)
Lemma uploads_only_after_count_check (W : World) (v : version.Version) (s : St W) :
  let r := uploadRelease v s in
  uploads (events r) <> [] ->
  exists tasks,
    tasksAnswer (events r) = Some (Ok tasks) /\
    Forall (fun task => GetByVariant W (evergreen.Variant task) <> None)
      (signTasksOf tasks) /\
    length (signTasksOf tasks) = PlatformCount W.
Proof.
  cbv zeta. intros Hup.
  destruct (uploadRelease_tasks v s) as (s1 & Hanswer & pre & Hpre & Hrun).
  rewrite Hanswer. clear Hanswer. revert Hup. rewrite Hrun. clear Hrun.
  destruct (handle W (GetTasksForRevision (version.Commit v)) s1) as [ans s2].
  cbn [fst snd]. rewrite events_after, !uploads_app, Hpre.
  change (uploads [Ev (GetTasksForRevision (version.Commit v)) ans])
    with (@nil string).
  cbn [app].
  destruct ans as [tasks|e]; [|intros H; now contradiction H].
  destruct (find (unknownSign W) tasks) eqn:Hfind; [intros H; now contradiction H|].
  destruct (length (signTasksOf tasks) =? PlatformCount W)%nat eqn:Hcount;
    cbn [negb]; [|intros H; now contradiction H].
  intros _. exists tasks. split; [reflexivity|].
  split; [now apply kept_tasks_known | now apply Nat.eqb_eq].
Qed.

(** C6: whenever the tasks answered by the CI hold a task that is not a
    patch, is named "sign" and whose variant the platform matrix does not
    resolve, [uploadRelease] ends in the fatal exit of the first such task
    and uploads nothing, whatever the counts are. *)
Theorem unknown_variant_is_fatal (W : World) (v : version.Version) (s : St W)
    (tasks : list evergreen.Task) (bad : evergreen.Task) :
  let r := uploadRelease v s in
  tasksAnswer (events r) = Some (Ok tasks) ->
  In bad tasks ->
  evergreen.IsPatch bad = false ->
  evergreen.DisplayName bad = "sign" ->
  GetByVariant W (evergreen.Variant bad) = None ->
  exists task,
    In task tasks /\
    evergreen.IsPatch task = false /\
    evergreen.DisplayName task = "sign" /\
    GetByVariant W (evergreen.Variant task) = None /\
    outcome r = Exit ("found sign task with unknown variant '"
                      ++ evergreen.Variant task ++ "'" ++ nl) /\
    uploads (events r) = [].
Proof.
  intros r Htasks Hin Hpatch Hname Hvariant. subst r.
  destruct (uploadRelease_tasks v s) as (s1 & Hanswer & pre & Hpre & Hrun).
  rewrite Hanswer in Htasks. clear Hanswer. revert Htasks Hrun.
  destruct (handle W (GetTasksForRevision (version.Commit v)) s1) as [ans s2].
  cbn [fst snd]. intros [= ->] ->.
  rewrite events_after, outcome_after, uploads_app, uploads_app, Hpre.
  assert (Hbad : unknownSign W bad = true).
  { unfold unknownSign, isSignTask. now rewrite Hpatch, Hname, Hvariant. }
  destruct (find_unknown_some tasks) as [task Hfind].
  { apply Exists_exists. eauto. }
  rewrite Hfind. cbn [outcome events].
  apply find_some in Hfind as [Htask Hunknown].
  exists task. unfold unknownSign, isSignTask in Hunknown.
  apply andb_true_iff in Hunknown as [Hsign Hnone].
  apply negb_true_iff, orb_false_iff in Hsign as [Hp Hn].
  apply negb_false_iff, String.eqb_eq in Hn.
  destruct (GetByVariant W (evergreen.Variant task)); [discriminate|].
  repeat split; assumption || reflexivity.
Qed.

(** A task set whose count matches the matrix, with an unknown variant. *)
Lemma unknown_variant_is_fatal_witness :
  let W := scripted (withTasks release [signTask "t9" "solaris"]) in
  let r := uploadRelease (W := W) v100_3_1 tt in
  length (signTasksOf [signTask "t9" "solaris"]) = PlatformCount W /\
  exists task,
    In task [signTask "t9" "solaris"] /\
    evergreen.IsPatch task = false /\
    evergreen.DisplayName task = "sign" /\
    GetByVariant W (evergreen.Variant task) = None /\
    outcome r = Exit ("found sign task with unknown variant '"
                      ++ evergreen.Variant task ++ "'" ++ nl) /\
    uploads (events r) = [].
Proof.
  intros W r. split; [reflexivity|].
  apply (unknown_variant_is_fatal W v100_3_1 tt [signTask "t9" "solaris"]
           (signTask "t9" "solaris")).
  - reflexivity.
  - now left.
  - reflexivity.
  - reflexivity.
  - reflexivity.
Defined.

(** ** [uploadRelease]: no panic *)

Section PanicFacts.
Context {W : World}.

Lemma copyFile_nopanic src dst : NoPanic (copyFile src dst).
Proof. unfold copyFile. nopanic. Qed.

Lemma downloadFile_nopanic url dst : NoPanic (downloadFile url dst).
Proof. unfold downloadFile. nopanic. Qed.

Lemma computeMD5_nopanic f : NoPanic (computeMD5 f).
Proof. unfold computeMD5. nopanic. Qed.

Lemma computeSHA1_nopanic f : NoPanic (computeSHA1 f).
Proof. unfold computeSHA1. nopanic. Qed.

Lemma computeSHA256_nopanic f : NoPanic (computeSHA256 f).
Proof. unfold computeSHA256. nopanic. Qed.

Lemma uploadArtifact_nopanic v c pf dl a : NoPanic (uploadArtifact v c pf dl a).
Proof.
  pose proof copyFile_nopanic. pose proof downloadFile_nopanic.
  pose proof computeMD5_nopanic. pose proof computeSHA1_nopanic.
  pose proof computeSHA256_nopanic.
  unfold uploadArtifact. nopanic; auto.
Qed.

(** The second lookup of a known variant succeeds, so no panic. *)
Lemma uploadTask_nopanic v c dls task :
  GetByVariant W (evergreen.Variant task) <> None ->
  NoPanic (uploadTask v c dls task).
Proof.
  intros Hknown. pose proof uploadArtifact_nopanic.
  unfold uploadTask.
  destruct (GetByVariant W (evergreen.Variant task)) as [pf|]; [|congruence].
  nopanic; auto.
Qed.

Lemma uploadTasks_nopanic v c (signTasks : list evergreen.Task) :
  Forall (fun task => GetByVariant W (evergreen.Variant task) <> None) signTasks ->
  forall dls, NoPanic (foldM (uploadTask v c) signTasks dls).
Proof.
  induction 1 as [|task signTasks Hk _ IH]; intros dls; simpl.
  - apply nopanic_ret.
  - apply nopanic_bind; [now apply uploadTask_nopanic | apply IH].
Qed.

Lemma uploadFeed_nopanic v c dls : NoPanic (uploadFeed v c dls).
Proof. unfold uploadFeed. nopanic. Qed.

Lemma uploadSignTasks_nopanic v (signTasks : list evergreen.Task) :
  Forall (fun task => GetByVariant W (evergreen.Variant task) <> None) signTasks ->
  NoPanic (uploadSignTasks v signTasks).
Proof.
  intros Hknown. unfold uploadSignTasks.
  apply nopanic_bind; [nopanic|]. intros c.
  apply nopanic_bind; [now apply uploadTasks_nopanic|]. intros dls.
  apply uploadFeed_nopanic.
Qed.

Lemma reconcileAndUpload_nopanic v : NoPanic (reconcileAndUpload v).
Proof.
  intros s msg. rewrite reconcile_run. cbv zeta. rewrite outcome_after.
  destruct (fst (handle W (GetTasksForRevision (version.Commit v)) s))
    as [tasks|e]; [|discriminate].
  destruct (find (unknownSign W) tasks) eqn:Hfind; [discriminate|].
  destruct (negb (length (signTasksOf tasks) =? PlatformCount W)%nat);
    [discriminate|].
  apply uploadSignTasks_nopanic. now apply kept_tasks_known.
Qed.

End PanicFacts.

(** C9: the [panic("unreachable")] of [uploadRelease] is never reached:
    every task that the first loop hands on resolves against the platform
    matrix, and no run of [uploadRelease] ends in a panic. *)
Theorem unreachable_is_unreachable (W : World) (v : version.Version) (s : St W) :
  (forall tasks s0 signTasks s1 t,
     Returns (foldM collectSignTask tasks []) s0 signTasks s1 t ->
     Forall (fun task =>
               exists pf, GetByVariant W (evergreen.Variant task) = Some pf)
       signTasks) /\
  (forall msg, outcome (uploadRelease v s) <> Panic msg).
Proof.
  split.
  - intros tasks s0 signTasks s1 t Hret. unfold Returns in Hret.
    rewrite collect_run in Hret.
    destruct (find (unknownSign W) tasks) eqn:Hfind; [discriminate|].
    injection Hret as <- _ _. cbn [app].
    eapply Forall_impl; [|exact (kept_tasks_known tasks Hfind)].
    intros task Hk. cbv beta in Hk.
    destruct (GetByVariant W (evergreen.Variant task)) as [pf|]; [eauto|congruence].
  - intros msg. rewrite uploadRelease_run. cbv zeta.
    destruct (fst (handle W EvgIsPatch s)); rewrite outcome_after;
      apply reconcileAndUpload_nopanic.
Qed.

(** A witness for the first half: the sign task of the scripted release. *)
Lemma unreachable_is_unreachable_witness :
  Forall (fun task =>
            exists pf,
              GetByVariant (scripted release) (evergreen.Variant task) = Some pf)
    [signTask "t1" "rhel70"] /\
  (forall msg,
     outcome (uploadRelease (W := scripted release) v100_3_1 tt) <> Panic msg).
Proof.
  destruct (unreachable_is_unreachable (scripted release) v100_3_1 tt) as [H1 H2].
  split; [|exact H2].
  apply (H1 [signTask "t1" "rhel70"] tt _ tt []).
  reflexivity.
Defined.

(** ** [uploadRelease]: one artifact, one sign task *)

Section ArtifactFacts.
Context {W : World}.

Lemma quiet_returns {A} ok (m : M W A) s a s' t :
  Quiet ok m -> Returns m s a s' t ->
  Forall (fun e => ok (cmdOf e) = true) t.
Proof. intros Hq Hr. specialize (Hq s). now rewrite Hr in Hq. Qed.

(** A digest is taken of what one read of the file gives. *)
Lemma computeMD5_returns f s h s' t :
  Returns (computeMD5 f) s h s' t ->
  exists b, t = [Ev (ReadFile f) (Ok b)] /\ h = md5hex W b.
Proof. unfold computeMD5. intros H. returns. eexists. split; reflexivity. Qed.

Lemma computeSHA1_returns f s h s' t :
  Returns (computeSHA1 f) s h s' t ->
  exists b, t = [Ev (ReadFile f) (Ok b)] /\ h = sha1hex W b.
Proof. unfold computeSHA1. intros H. returns. eexists. split; reflexivity. Qed.

Lemma computeSHA256_returns f s h s' t :
  Returns (computeSHA256 f) s h s' t ->
  exists b, t = [Ev (ReadFile f) (Ok b)] /\ h = sha256hex W b.
Proof. unfold computeSHA256. intros H. returns. eexists. split; reflexivity. Qed.

(** What the trace of a returning sub-procedure holds. *)
Ltac sub_procedures :=
  repeat match goal with
    | H : Returns (downloadFile _ _) _ _ _ _ |- _ =>
        apply (quiet_returns _ _ _ _ _ _ (downloadFile_plain _ _)) in H;
        pose proof (plain_uploads _ H); pose proof (plain_reads _ H);
        pose proof (plain_artifactsAnswered _ H); clear H
    | H : Returns (copyFile _ _) _ _ _ _ |- _ =>
        apply (quiet_returns _ _ _ _ _ _ (copyFile_plain _ _)) in H;
        pose proof (plain_uploads _ H); pose proof (plain_reads _ H);
        pose proof (plain_artifactsAnswered _ H); clear H
    | H : Returns (computeMD5 _) _ _ _ _ |- _ =>
        apply computeMD5_returns in H as (? & -> & ->)
    | H : Returns (computeSHA1 _) _ _ _ _ |- _ =>
        apply computeSHA1_returns in H as (? & -> & ->)
    | H : Returns (computeSHA256 _) _ _ _ _ |- _ =>
        apply computeSHA256_returns in H as (? & -> & ->)
    end.

(** One round of the loop over the artifacts, when it returns: the uploads,
    the reads and the download record. *)
Lemma uploadArtifact_returns v c pf dl a s dl' s' t :
  Returns (uploadArtifact v c pf dl a) s dl' s' t ->
  uploads t = uploadNames W v pf (path.Ext (evergreen.URL a)) /\
  flat_map artifactsAnswered t = [] /\
  if IsStable W v then
    exists b1 b2 b3,
      reads t = [(latestStableFile pf (path.Ext (evergreen.URL a)), Ok b1);
                 (latestStableFile pf (path.Ext (evergreen.URL a)), Ok b2);
                 (latestStableFile pf (path.Ext (evergreen.URL a)), Ok b3)] /\
      dl' =
      let ext := path.Ext (evergreen.URL a) in
      let url := "https://fastdl.mongodb.org/tools/db/" ++ stableFile pf v ext in
      if (ext =? ".tgz") || (ext =? ".zip") then
        download.setArchive dl
          {| download.ToolsArchive.URL := url;
             download.ToolsArchive.Md5 := md5hex W b1;
             download.ToolsArchive.Sha1 := sha1hex W b2;
             download.ToolsArchive.Sha256 := sha256hex W b3 |}
      else
        download.setPackage dl
          {| download.ToolsPackage.URL := url;
             download.ToolsPackage.Md5 := md5hex W b1;
             download.ToolsPackage.Sha1 := sha1hex W b2;
             download.ToolsPackage.Sha256 := sha256hex W b3 |}
  else reads t = [] /\ dl' = dl.
Proof.
  unfold uploadArtifact, uploadNames. intros H.
  destruct (IsStable W v) eqn:Hstable; returns; sub_procedures;
    unfold uploads, reads in *; rewrite !flat_map_app;
    repeat match goal with H : flat_map _ _ = [] |- _ => rewrite H; clear H end;
    cbn [flat_map uploaded readFrom artifactsAnswered cmdOf app];
    (split; [reflexivity|]); (split; [reflexivity|]).
  - do 3 eexists. split; reflexivity.
  - do 3 eexists. split; reflexivity.
  - now split.
Qed.

(** The loop over the artifacts of a sign task, when it returns. *)
Lemma uploadArtifacts_returns v c pf (artifacts : list evergreen.Artifact) :
  forall dl s dl' s' t,
    Returns (foldM (uploadArtifact v c pf) artifacts dl) s dl' s' t ->
    uploads t
    = flat_map (fun a => uploadNames W v pf (path.Ext (evergreen.URL a))) artifacts /\
    flat_map artifactsAnswered t = [].
Proof.
  induction artifacts as [|a artifacts IH]; intros dl s dl' s' t H.
  - simpl in H. returns. now split.
  - apply Returns_foldM_cons in H as (dl1 & s1 & t1 & t2 & Ha & Hrest & ->).
    apply uploadArtifact_returns in Ha as (Hu & Hn & _).
    apply IH in Hrest as (Hu' & Hn').
    rewrite uploads_app, flat_map_app, Hu, Hu', Hn, Hn'. now split.
Qed.

(** One round of the loop over the sign tasks, when it returns. *)
Lemma uploadTask_returns v c dls task s dls' s' t :
  Returns (uploadTask v c dls task) s dls' s' t ->
  exists pf artifacts,
    GetByVariant W (evergreen.Variant task) = Some pf /\
    artifactsAnswer t = Some (Ok artifacts) /\
    length artifacts = length (platform.ArtifactExtensions pf) /\
    uploads t
    = flat_map (fun a => uploadNames W v pf (path.Ext (evergreen.URL a))) artifacts.
Proof.
  unfold uploadTask. intros H.
  destruct (GetByVariant W (evergreen.Variant task)) as [pf|]; returns.
  match goal with
  | Hlen : negb (length ?l =? _)%nat = false,
    Hloop : Returns (foldM _ ?l _) _ _ _ _ |- _ =>
      apply negb_false_iff, Nat.eqb_eq in Hlen;
      apply uploadArtifacts_returns in Hloop as (Hu & Hn);
      exists pf, l
  end.
  split; [reflexivity|]. split; [|split; [assumption|]].
  - unfold artifactsAnswer. rewrite !flat_map_app, Hn. reflexivity.
  - rewrite !uploads_app, Hu, List.app_nil_r. reflexivity.
Qed.

End ArtifactFacts.

(** ** [uploadRelease]: the order of the uploads *)

Section OrderFacts.
Context {W : World}.

Lemma quiet_weaken {A} (ok ok' : Cmd -> bool) (m : M W A) :
  (forall c, ok c = true -> ok' c = true) -> Quiet ok m -> Quiet ok' m.
Proof.
  intros Hw Hq s. eapply Forall_impl; [|apply Hq]. intros e. apply Hw.
Qed.

Lemma plain_artifactsOnly (c : Cmd) : plain c = true -> artifactsOnly c = true.
Proof. destruct c; simpl; congruence. Qed.

Lemma uploadArtifact_artifactsOnly v c pf dl a :
  Quiet artifactsOnly (uploadArtifact v c pf dl a).
Proof.
  pose proof (fun x y => quiet_weaken plain artifactsOnly _ plain_artifactsOnly
                           (copyFile_plain x y)).
  pose proof (fun x y => quiet_weaken plain artifactsOnly _ plain_artifactsOnly
                           (downloadFile_plain x y)).
  unfold uploadArtifact, computeMD5, computeSHA1, computeSHA256. quiet; auto.
Qed.

Lemma uploadTask_artifactsOnly v c dls task :
  Quiet artifactsOnly (uploadTask v c dls task).
Proof.
  pose proof uploadArtifact_artifactsOnly. unfold uploadTask. quiet; auto.
Qed.

(** The feed: uploaded by a stable version only, and always when the end of
    [uploadRelease] returns for a stable version. *)
Lemma uploadFeed_uploads v c dls (s : St W) :
  let r := uploadFeed v c dls s in
  (uploads (events r) = [] \/
   (IsStable W v = true /\ uploads (events r) = [feedFilename])) /\
  (outcome r = Done tt -> IsStable W v = true ->
   uploads (events r) = [feedFilename]).
Proof.
  cbv zeta. unfold uploadFeed. destruct (IsStable W v).
  - rewrite bind_run, checked_run, call_run. cbn [outcome final events].
    destruct (fst (handle W (OsCreate feedFilename) s)) as [feedFile|e].
    + cbn [outcome final events]. rewrite bind_run, call_run.
      cbn [outcome final events]. rewrite bind_run.
      match goal with
      | |- context [check ?err _ ?s1] => destruct err as [e|]; set (s2 := s1)
      end.
      * cbn [check checkFailed logFatal outcome final events app].
        split; [now left | discriminate].
      * cbn [check ret outcome final events].
        rewrite bind_run, call_run. cbn [outcome final events].
        rewrite bind_run, call_run. cbn [outcome final events].
        rewrite bind_run, call_run. cbn [outcome final events].
        split; [right; split; reflexivity | reflexivity].
    + split; [now left | discriminate].
  - split; [now left | discriminate].
Qed.

(** The end of [uploadRelease]: artifact names first, and the feed, if it is
    uploaded at all, last. *)
Lemma uploadSignTasks_uploads v (signTasks : list evergreen.Task) (s : St W) :
  let r := uploadSignTasks v signTasks s in
  exists arts,
    Forall (fun f => strings.HasPrefix f "mongodb-database-tools-" = true) arts /\
    (uploads (events r) = arts \/
     (IsStable W v = true /\ uploads (events r) = (arts ++ [feedFilename])%list)) /\
    (outcome r = Done tt -> IsStable W v = true ->
     uploads (events r) = (arts ++ [feedFilename])%list).
Proof.
  cbv zeta. unfold uploadSignTasks.
  rewrite bind_run, checked_run, call_run. cbn [outcome final events].
  destruct (fst (handle W GetClient s)) as [c|e].
  - cbn [outcome final events]. rewrite bind_run.
    set (s1 := snd (handle W GetClient s)).
    pose proof (quiet_foldM artifactsOnly (uploadTask v c) signTasks
                  (uploadTask_artifactsOnly v c) [] s1) as Hq.
    apply artifactsOnly_uploads in Hq.
    exists (uploads (events (foldM (uploadTask v c) signTasks [] s1))).
    split; [exact Hq|].
    destruct (outcome (foldM (uploadTask v c) signTasks [] s1)) as [dls| |].
    + rewrite !events_after, !outcome_after, !uploads_app.
      destruct (uploadFeed_uploads v c dls
                  (final (foldM (uploadTask v c) signTasks [] s1))) as [Hor Hdone].
      cbv zeta in Hor, Hdone.
      change (uploads [Ev GetClient (Ok c)]) with (@nil string). cbn [app].
      split.
      * destruct Hor as [H0|[Hst H1]].
        -- left. rewrite H0. now rewrite List.app_nil_r.
        -- right. split; [assumption|]. now rewrite H1.
      * intros Hd Hst. now rewrite (Hdone Hd Hst).
    + rewrite events_after, outcome_after, uploads_app. cbn [outcome events].
      change (uploads [Ev GetClient (Ok c)]) with (@nil string). cbn [app].
      split; [now left | discriminate].
    + rewrite events_after, outcome_after, uploads_app. cbn [outcome events].
      change (uploads [Ev GetClient (Ok c)]) with (@nil string). cbn [app].
      split; [now left | discriminate].
  - exists []. split; [constructor|].
    split; [now left | discriminate].
Qed.

End OrderFacts.

(** C5: in every run of [uploadRelease] the uploads are artifact names
    (none of them the feed), followed by at most one upload of the feed
    "release.json"; the feed is uploaded by a stable version only, and when
    the run of a stable version returns, the feed is the last upload. *)
Theorem feed_is_uploaded_last (W : World) (v : version.Version) (s : St W) :
  let r := uploadRelease v s in
  exists arts,
    Forall (fun f => strings.HasPrefix f "mongodb-database-tools-" = true) arts /\
    ~ In "release.json" arts /\
    (uploads (events r) = arts \/
     (IsStable W v = true /\
      uploads (events r) = (arts ++ ["release.json"])%list)) /\
    (outcome r = Done tt -> IsStable W v = true ->
     uploads (events r) = (arts ++ ["release.json"])%list).
Proof.
  cbv zeta.
  assert (Hfeed : forall arts,
             Forall (fun f => strings.HasPrefix f "mongodb-database-tools-" = true) arts ->
             ~ In "release.json" arts).
  { intros arts Ha Hin. rewrite Forall_forall in Ha.
    specialize (Ha _ Hin). discriminate. }
  destruct (uploadRelease_tasks v s) as (s1 & _ & pre & Hpre & Hrun).
  rewrite Hrun. clear Hrun.
  rewrite events_after, outcome_after, !uploads_app, Hpre.
  destruct (handle W (GetTasksForRevision (version.Commit v)) s1) as [ans s2].
  cbn [fst snd].
  change (uploads [Ev (GetTasksForRevision (version.Commit v)) ans])
    with (@nil string).
  cbn [app].
  assert (Hstop : forall msg,
            exists arts,
              Forall (fun f => strings.HasPrefix f "mongodb-database-tools-" = true) arts /\
              ~ In "release.json" arts /\
              (uploads (events (@mkRun (St W) unit (Exit msg) s2 [])) = arts \/
               (IsStable W v = true /\
                uploads (events (@mkRun (St W) unit (Exit msg) s2 []))
                = (arts ++ ["release.json"])%list)) /\
              (outcome (@mkRun (St W) unit (Exit msg) s2 []) = Done tt ->
               IsStable W v = true ->
               uploads (events (@mkRun (St W) unit (Exit msg) s2 []))
               = (arts ++ ["release.json"])%list)).
  { intros msg. exists []. split; [constructor|]. split; [tauto|].
    split; [now left | discriminate]. }
  destruct ans as [tasks|e]; [|apply Hstop].
  destruct (find (unknownSign W) tasks); [apply Hstop|].
  destruct (negb (length (signTasksOf tasks) =? PlatformCount W)%nat);
    [apply Hstop|].
  destruct (uploadSignTasks_uploads v (signTasksOf tasks) s2)
    as (arts & Harts & Hor & Hdone).
  exists arts. split; [exact Harts|]. split; [now apply Hfeed|].
  split; assumption.
Qed.

(** The run of the scripted release: six artifact uploads, then the feed. *)
Lemma feed_is_uploaded_last_witness :
  let W := scripted release in
  let r := uploadRelease (W := W) v100_3_1 tt in
  outcome r = Done tt /\ IsStable W v100_3_1 = true /\
  exists arts,
    ~ In "release.json" arts /\
    uploads (events r) = (arts ++ ["release.json"])%list.
Proof.
  intros W r.
  destruct (feed_is_uploaded_last W v100_3_1 tt)
    as (arts & _ & Hnot & _ & Hdone).
  split; [reflexivity|]. split; [reflexivity|].
  exists arts. split; [exact Hnot|].
  apply Hdone; reflexivity.
Defined.

(** C3 (the code departs from the claim): in the scripted release the upload
    of the first artifact name fails; [uploadRelease] drops the error that
    [UploadFile] returns, uploads the six other files, the feed among them,
    and returns. *)
Theorem failed_upload_is_ignored :
  let failing := "mongodb-database-tools-rhel70-x86_64-unstable.tgz" in
  let W := scripted (withUploadError release
                       (fun f => if f =? failing then Some "RequestTimeout" else None)) in
  let r := uploadRelease (W := W) v100_3_1 tt in
  outcome r = Done tt /\
  uploadAnswers (events r) =
    [("mongodb-database-tools-rhel70-x86_64-unstable.tgz", Some "RequestTimeout");
     ("mongodb-database-tools-rhel70-x86_64-100.3.1.tgz", None);
     ("mongodb-database-tools-rhel70-x86_64-latest-stable.tgz", None);
     ("mongodb-database-tools-rhel70-x86_64-unstable.rpm", None);
     ("mongodb-database-tools-rhel70-x86_64-100.3.1.rpm", None);
     ("mongodb-database-tools-rhel70-x86_64-latest-stable.rpm", None);
     ("release.json", None)].
Proof. vm_compute. split; reflexivity. Qed.

(** ** [buildMSI] *)

Section MSIFacts.
Context {W : World}.

Lemma stops_after (t : list Event) (r : Run (St W) unit) :
  Forall (fun e => plain (cmdOf e) = true) t ->
  StopsOnStaleCode r -> StopsOnStaleCode (after t r).
Proof.
  intros Ht Hr v Hv Hlabel. rewrite events_after, outcome_after in *.
  unfold versionAnswer in Hv.
  rewrite flat_map_app, (plain_versionAnswered t Ht) in Hv.
  rewrite execs_app, (plain_execs t Ht). cbn [app] in *. exact (Hr v Hv Hlabel).
Qed.

Lemma stops_early (t : list Event) (o : Outcome unit) (s : St W) :
  Forall (fun e => plain (cmdOf e) = true) t ->
  StopsOnStaleCode (mkRun o s t).
Proof.
  intros Ht v Hv _. unfold versionAnswer in Hv. cbn [events] in Hv.
  rewrite (plain_versionAnswered t Ht) in Hv. discriminate.
Qed.

(** A plain statement before the rest changes nothing. *)
Lemma stops_bind {A} (m : M W A) (k : A -> M W unit) (s : St W) :
  Quiet plain m ->
  (forall a s', StopsOnStaleCode (k a s')) ->
  StopsOnStaleCode (bind m k s).
Proof.
  intros Hm Hk. rewrite bind_run. specialize (Hm s).
  destruct (outcome (m s)).
  - apply stops_after; [assumption | apply Hk].
  - now apply stops_early.
  - now apply stops_early.
Qed.

End MSIFacts.

(** C8: in every run of [buildMSI] on a Windows platform that learns a
    current version whose major label is not "100", the label recorded with
    the MSI upgrade code, the build ends in the fatal exit about the upgrade
    code, and neither candle.exe nor light.exe nor any other program has been
    started. *)
Theorem stale_upgrade_code_is_fatal (W : World) (s : St W)
    (pf : platform.Platform) (v : version.Version) :
  let r := buildMSI s in
  platformAnswer (events r) = Some (Ok pf) ->
  platform.OS pf = platform.OSWindows ->
  versionAnswer (events r) = Some (Ok v) ->
  ztoa (version.Major v) <> "100" ->
  outcome r =
  Exit "'msiUpgradeCode should be up-to-date, last version = 100' failed: msiUpgradeCode in release.go must be updated" /\
  execs (events r) = [].
Proof.
  cbv zeta. unfold buildMSI.
  rewrite bind_run, checked_run, call_run. cbn [outcome final events].
  destruct (handle W GetFromEnv s) as [ans s1]. cbn [fst snd].
  destruct ans as [pf'|e]; cbn [outcome final events];
    rewrite !events_after, !outcome_after;
    intros [= ->]. intros Hos.
  rewrite Hos. cbn [platform.OS_eqb negb].
  unfold versionAnswer. rewrite flat_map_app, execs_app.
  cbn [flat_map versionAnswered executed cmdOf app].
  intros Hv Hlabel.
  match goal with |- outcome ?X = _ /\ _ => cut (StopsOnStaleCode X) end.
  { intros HX. exact (HX v Hv Hlabel). }
  clear v Hv Hlabel. cbv zeta.
  pose proof useWorkingDir_plain. pose proof copyFile_plain.
  do 7 (apply stops_bind; [unfold forEach; quiet; auto | intros]).
  intros v Hv Hlabel. revert Hv.
  rewrite bind_run, checked_run, call_run. cbn [outcome final events].
  match goal with
  | |- context [handle W GetCurrent ?s0] =>
      destruct (handle W GetCurrent s0) as [ans s2]
  end.
  cbn [fst snd]. destruct ans as [v'|e]; cbn [outcome final events].
  - rewrite events_after, outcome_after. unfold versionAnswer.
    cbn [flat_map versionAnswered app hd_error]. intros [= ->].
    rewrite bind_run.
    apply String.eqb_neq in Hlabel. rewrite Hlabel. cbn [negb].
    split; reflexivity.
  - unfold versionAnswer. cbn. discriminate.
Qed.

(** A Windows host at version 101.0.0. *)
Lemma stale_upgrade_code_is_fatal_witness :
  let W := scripted (withHost release windows64 v101_0_0) in
  let r := buildMSI (W := W) tt in
  outcome r =
  Exit "'msiUpgradeCode should be up-to-date, last version = 100' failed: msiUpgradeCode in release.go must be updated" /\
  execs (events r) = [].
Proof.
  intros W r.
  apply (stale_upgrade_code_is_fatal W tt windows64 v101_0_0).
  - reflexivity.
  - reflexivity.
  - reflexivity.
  - discriminate.
Defined.

(** At version 100.3.1 the same host starts candle.exe and light.exe. *)
Example buildMSI_current_label :
  let W := scripted (withHost release windows64 v100_3_1) in
  let r := buildMSI (W := W) tt in
  outcome r = Done tt /\
  execs (events r) = ["/wixtools/bin/candle.exe"; "/wixtools/bin/light.exe"].
Proof. vm_compute. split; reflexivity. Qed.

(** ** The package metadata of [buildRPM] and [buildDeb] *)

Section MetadataFacts.
Context {W : World}.

Lemma cleanValue_inv (v : string) :
  cleanValue v = true ->
  clean TOOLS_VERSION v = true /\ clean TOOLS_RELEASE v = true /\
  clean ARCHITECTURE v = true.
Proof.
  unfold cleanValue. intros H.
  apply andb_true_iff in H as [H Ha]. apply andb_true_iff in H as [Hv Hr].
  now repeat split.
Qed.

(** With clean values the spec file holds none of the three tokens. *)
Lemma specContent_clean (template rpmVersion rpmRelease arch : string) :
  cleanValue rpmVersion = true -> cleanValue rpmRelease = true ->
  cleanValue arch = true ->
  let content := specContent template rpmVersion rpmRelease arch in
  occurrences TOOLS_VERSION content = 0 /\
  occurrences TOOLS_RELEASE content = 0 /\
  occurrences ARCHITECTURE content = 0.
Proof.
  intros Hv Hr Ha. cbv zeta. unfold specContent.
  apply cleanValue_inv in Hv as (Hvv & _ & _).
  apply cleanValue_inv in Hr as (Hrv & Hrr & _).
  apply cleanValue_inv in Ha as (Hav & Har & Haa).
  set (c1 := strings.Replace template TOOLS_VERSION rpmVersion (-1)).
  set (c2 := strings.Replace c1 TOOLS_RELEASE rpmRelease (-1)).
  pose proof (StringFacts.Replace_all_none TOOLS_VERSION rpmVersion template Hvv) as H1.
  fold c1 in H1.
  pose proof (StringFacts.Replace_all_none TOOLS_RELEASE rpmRelease c1 Hrr) as H2.
  fold c2 in H2.
  pose proof (StringFacts.Replace_all_none ARCHITECTURE arch c2 Haa) as H3.
  assert (Hne_r : TOOLS_RELEASE <> "") by discriminate.
  assert (Hne_a : ARCHITECTURE <> "") by discriminate.
  pose proof (StringFacts.Replace_le TOOLS_VERSION TOOLS_RELEASE rpmRelease c1 (-1)
                Hne_r Hrv) as H4.
  fold c2 in H4.
  pose proof (StringFacts.Replace_le TOOLS_VERSION ARCHITECTURE arch c2 (-1)
                Hne_a Hav) as H5.
  pose proof (StringFacts.Replace_le TOOLS_RELEASE ARCHITECTURE arch c2 (-1)
                Hne_a Har) as H6.
  lia.
Qed.

(** With clean values the control file holds no version token, and no
    architecture token when the template held at most one. *)
Lemma controlContent_clean (template debVersion debArch : string) :
  cleanValue debVersion = true -> cleanValue debArch = true ->
  let content := controlContent template debVersion debArch in
  occurrences TOOLS_VERSION content = 0 /\
  (occurrences ARCHITECTURE template <= 1 ->
   occurrences ARCHITECTURE content = 0 /\
   content =
     strings.Replace (strings.Replace template TOOLS_VERSION debVersion (-1))
       ARCHITECTURE debArch (-1)).
Proof.
  intros Hv Ha. cbv zeta. unfold controlContent.
  apply cleanValue_inv in Hv as (Hvv & _ & Hva).
  apply cleanValue_inv in Ha as (Hav & _ & Haa).
  set (c1 := strings.Replace template TOOLS_VERSION debVersion (-1)).
  pose proof (StringFacts.Replace_all_none TOOLS_VERSION debVersion template Hvv) as H1.
  fold c1 in H1.
  assert (Hne_v : TOOLS_VERSION <> "") by discriminate.
  assert (Hne_a : ARCHITECTURE <> "") by discriminate.
  pose proof (StringFacts.Replace_le TOOLS_VERSION ARCHITECTURE debArch c1 1
                Hne_a Hav) as H2.
  pose proof (StringFacts.Replace_le ARCHITECTURE TOOLS_VERSION debVersion template (-1)
                Hne_v Hva) as H3.
  fold c1 in H3.
  split; [lia|]. intros Hone. split.
  - apply StringFacts.Replace_first_none; [assumption | lia].
  - apply StringFacts.Replace_first_all; [assumption | lia].
Qed.

(** What [createSpecFile] reads and writes when it returns. *)
Lemma createSpecFile_returns specFile rpmVersion rpmRelease pf s u s' t :
  Returns (createSpecFile specFile rpmVersion rpmRelease pf) s u s' t ->
  exists template,
    reads t = [(filepathJoin W [".."; "installer"; "rpm"; specFile], Ok template)] /\
    writes t = [specContent template rpmVersion rpmRelease (platform.Arch pf)].
Proof.
  unfold createSpecFile. intros H. returns.
  eexists. split; reflexivity.
Qed.

(** What [createControlFile] learns, reads and writes when it returns. *)
Lemma createControlFile_returns controlFile pf s u s' t :
  Returns (createControlFile controlFile pf) s u s' t ->
  exists v template,
    versionAnswer t = Some (Ok v) /\
    reads t = [(filepathJoin W [".."; "installer"; "deb"; "control"], Ok template)] /\
    writes t = [controlContent template (VersionString W v) (DebianArch W pf)].
Proof.
  unfold createControlFile. intros H. returns.
  do 2 eexists. repeat split; reflexivity.
Qed.

End MetadataFacts.




(** The control file also keeps a second @ARCHITECTURE@: [buildDeb] replaces
    one occurrence where [buildRPM] replaces all. *)
Example control_file_second_architecture :
  controlContent "Architecture: @ARCHITECTURE@ Multi-Arch: @ARCHITECTURE@" "100.3.1" "amd64"
  = "Architecture: amd64 Multi-Arch: @ARCHITECTURE@" /\
  specContent "Architecture: @ARCHITECTURE@ Multi-Arch: @ARCHITECTURE@" "100.3.1" "1" "x86_64"
  = "Architecture: x86_64 Multi-Arch: x86_64".
Proof. split; reflexivity. Qed.

(** A value that is not clean can put a token together. *)
Example unclean_value_builds_token :
  cleanValue "ARCH" = false /\
  specContent "@@ARCHITECTURE@ITECTURE@" "100.3.1" "1" "ARCH" = "@ARCHITECTURE@".
Proof. split; reflexivity. Qed.

(** The values of a release are clean. *)
Example release_values_clean :
  cleanValue "100.3.1" = true /\ cleanValue "1" = true /\
  cleanValue "x86_64" = true /\ cleanValue "amd64" = true /\
  cleanValue "100.3.1-rc0" = true.
Proof. repeat split. Qed.

(** * Further properties of the program *)

(** ** Runs in general *)

Section MoreRunFacts.
Context {W : World}.

Lemma outcome_call (c : Cmd) (s : St W) :
  outcome (call c s) = Done (fst (handle W c s)).
Proof. now rewrite call_run. Qed.

(** A property of runs that statements accepted by [ok] before the run do
    not disturb holds of a run that starts with such statements. *)
Lemma bind_prefix {A B} (ok : Cmd -> bool) (P : Run (St W) B -> Prop)
    (m : M W A) (k : A -> M W B) (s : St W) :
  Quiet ok m ->
  (forall t r, Forall (fun e => ok (cmdOf e) = true) t -> P r -> P (after t r)) ->
  (forall t s' msg, Forall (fun e => ok (cmdOf e) = true) t ->
                    P (mkRun (Exit msg) s' t)) ->
  (forall t s' msg, Forall (fun e => ok (cmdOf e) = true) t ->
                    P (mkRun (Panic msg) s' t)) ->
  (forall a s', P (k a s')) ->
  P (bind m k s).
Proof.
  intros Hm Hafter Hexit Hpanic Hk. rewrite bind_run. specialize (Hm s).
  destruct (outcome (m s)).
  - apply Hafter; [assumption | apply Hk].
  - now apply Hexit.
  - now apply Hpanic.
Qed.

(** The trace of a loop is made of the traces of its rounds. *)
Lemma foldM_events {A B} (P : list Event -> Prop) (f : B -> A -> M W B)
    (l : list A) :
  P [] ->
  (forall t1 t2, P t1 -> P t2 -> P (t1 ++ t2)%list) ->
  (forall b x s, P (events (f b x s))) ->
  forall b s, P (events (foldM f l b s)).
Proof.
  intros Hnil Happ Hf. induction l as [|x l IH]; intros b s; simpl.
  - exact Hnil.
  - rewrite events_bind. apply Happ; [apply Hf|].
    destruct (outcome (f b x s)); [apply IH | exact Hnil ..].
Qed.

Lemma noUpload_uploads t :
  Forall (fun e => noUpload (cmdOf e) = true) t -> uploads t = [].
Proof. apply flat_map_quiet. by_command. Qed.

Lemma plain_noUpload (c : Cmd) : plain c = true -> noUpload c = true.
Proof. destruct c; simpl; congruence. Qed.

End MoreRunFacts.

(** ** [uploadRelease]: the rounds that do not return *)

Section RoundFacts.
Context {W : World}.

(** A statement without uploads before a run that exits without uploads. *)
Lemma exits_clean_bind {A B} (m : M W A) (k : A -> M W B) (s : St W) :
  Quiet noUpload m ->
  (forall a s' msg, outcome (k a s') = Exit msg -> uploads (events (k a s')) = []) ->
  forall msg, outcome (bind m k s) = Exit msg -> uploads (events (bind m k s)) = [].
Proof.
  intros Hm Hk.
  apply (bind_prefix noUpload
           (fun r => forall msg, outcome r = Exit msg -> uploads (events r) = []));
    try assumption.
  - intros t r Ht Hr msg. rewrite outcome_after, events_after, uploads_app.
    intros Ho. now rewrite (noUpload_uploads t Ht), (Hr msg Ho).
  - intros t s' msg Ht msg' _. now apply noUpload_uploads.
  - intros t s' msg Ht msg' _. now apply noUpload_uploads.
Qed.

(** The round of an artifact exits only before its first upload. *)
Lemma uploadArtifact_exits_clean v c pf dl a (s : St W) (msg : string) :
  outcome (uploadArtifact v c pf dl a s) = Exit msg ->
  uploads (events (uploadArtifact v c pf dl a s)) = [].
Proof.
  pose proof (fun x y => quiet_weaken plain noUpload _ plain_noUpload
                           (copyFile_plain x y)) as Hcopy.
  pose proof (fun x y => quiet_weaken plain noUpload _ plain_noUpload
                           (downloadFile_plain x y)) as Hdown.
  revert msg. unfold uploadArtifact.
  apply exits_clean_bind; [quiet|]. intros _ s1.
  apply exits_clean_bind; [apply Hdown|]. intros _ s2.
  apply exits_clean_bind.
  { unfold computeMD5, computeSHA1, computeSHA256. quiet; auto. }
  intros dl1 s3 msg.
  rewrite !outcome_bind, !outcome_call.
  destruct (IsStable W v).
  - rewrite !outcome_bind, !outcome_call. discriminate.
  - discriminate.
Qed.

End RoundFacts.

(** X1: the round of [uploadRelease] for one artifact either returns, having
    uploaded all the names of the artifact, or is a fatal exit that has
    uploaded none of them: every step that can fail comes before the first
    upload. *)
Theorem artifact_round_all_or_nothing (W : World) (v : version.Version)
    (c : Client) (pf : platform.Platform) (dl : download.ToolsDownload)
    (a : evergreen.Artifact) (s : St W) :
  let r := uploadArtifact v c pf dl a s in
  let ext := path.Ext (evergreen.URL a) in
  (exists dl', outcome r = Done dl' /\
               uploads (events r) =
               if IsStable W v
               then [unstableFile pf ext; stableFile pf v ext; latestStableFile pf ext]
               else [unstableFile pf ext]) \/
  (exists msg, outcome r = Exit msg /\ uploads (events r) = []).
Proof.
  cbv zeta. destruct (outcome (uploadArtifact v c pf dl a s)) as [dl'|msg|msg] eqn:Ho.
  - left. exists dl'. split; [reflexivity|].
    apply Returns_intro in Ho.
    now apply uploadArtifact_returns in Ho as (Hu & _).
  - right. exists msg. split; [reflexivity|].
    now apply (uploadArtifact_exits_clean v c pf dl a s msg).
  - exfalso. exact (uploadArtifact_nopanic v c pf dl a s msg Ho).
Qed.

(** ** [uploadRelease]: uploads in complete groups *)

Section GroupFacts.
Context {W : World}.
Variable v : version.Version.

Lemma grouped_nil : Grouped W v [].
Proof. now exists []. Qed.

Lemma grouped_app t1 t2 :
  Grouped W v t1 -> Grouped W v t2 -> Grouped W v (t1 ++ t2).
Proof.
  intros [l1 H1] [l2 H2]. exists (l1 ++ l2)%list.
  now rewrite uploads_app, flat_map_app, H1, H2.
Qed.

Lemma grouped_quiet t :
  Forall (fun e => noUpload (cmdOf e) = true) t -> Grouped W v t.
Proof. intros Ht. exists []. now apply noUpload_uploads. Qed.

Lemma uploadArtifact_grouped c pf dl a (s : St W) :
  Grouped W v (events (uploadArtifact v c pf dl a s)).
Proof.
  destruct (outcome (uploadArtifact v c pf dl a s)) as [dl'|msg|msg] eqn:Ho.
  - apply Returns_intro in Ho. apply uploadArtifact_returns in Ho as (Hu & _).
    exists [(pf, path.Ext (evergreen.URL a))]. cbn [flat_map fst snd].
    now rewrite List.app_nil_r.
  - exists []. now apply (uploadArtifact_exits_clean v c pf dl a s msg).
  - exfalso. exact (uploadArtifact_nopanic v c pf dl a s msg Ho).
Qed.

Lemma uploadTask_grouped c dls task (s : St W) :
  Grouped W v (events (uploadTask v c dls task s)).
Proof.
  unfold uploadTask. rewrite events_bind, outcome_call.
  apply grouped_app; [apply grouped_quiet, (quiet_call noUpload (Print _) eq_refl)|].
  destruct (GetByVariant W (evergreen.Variant task)) as [pf|];
    [|apply grouped_nil].
  rewrite events_bind. apply grouped_app.
  { apply grouped_quiet. apply quiet_checked.
    exact (quiet_call noUpload (GetArtifactsForTask _) eq_refl). }
  destruct (outcome (checked _ _ _)) as [artifacts| |]; try apply grouped_nil.
  destruct (negb _); [apply grouped_nil|].
  rewrite events_bind. apply grouped_app.
  - apply foldM_events; [apply grouped_nil | apply grouped_app |].
    intros. apply uploadArtifact_grouped.
  - destruct (outcome _); apply grouped_nil.
Qed.

Lemma uploadSignTasks_grouped (signTasks : list evergreen.Task) (s : St W) :
  exists l feed,
    uploads (events (uploadSignTasks v signTasks s))
    = (flat_map (fun p => uploadNames W v (fst p) (snd p)) l ++ feed)%list /\
    (feed = [] \/ feed = [feedFilename]).
Proof.
  unfold uploadSignTasks. rewrite events_bind, uploads_app.
  assert (Hc : uploads (events (checked (call GetClient) "get aws client" s)) = []).
  { apply noUpload_uploads. apply quiet_checked.
    exact (quiet_call noUpload GetClient eq_refl). }
  rewrite Hc. cbn [app].
  destruct (outcome (checked (call GetClient) "get aws client" s)) as [c| |];
    try (exists [], []; split; [reflexivity | now left]).
  rewrite events_bind, uploads_app.
  set (s1 := final (checked (call GetClient) "get aws client" s)).
  destruct (foldM_events (Grouped W v) (uploadTask v c) signTasks grouped_nil grouped_app
              (fun b x s0 => uploadTask_grouped c b x s0) [] s1) as [l Hl].
  rewrite Hl. exists l.
  destruct (outcome (foldM (uploadTask v c) signTasks [] s1)) as [dls| |];
    try (exists []; split; [reflexivity | now left]).
  destruct (uploadFeed_uploads v c dls (final (foldM (uploadTask v c) signTasks [] s1)))
    as [[H0|[_ H1]] _]; cbv zeta in *.
  - exists []. rewrite H0. split; [reflexivity | now left].
  - exists [feedFilename]. rewrite H1. split; [reflexivity | now right].
Qed.

End GroupFacts.

(** X2: in every run of [uploadRelease], also one that stops half way, the
    uploads are complete groups, all the names of an artifact for each of
    some artifacts, followed by at most the feed: no artifact is left with
    its unstable name uploaded and its stable names not. *)
Theorem uploads_in_complete_groups (W : World) (v : version.Version) (s : St W) :
  exists (l : list (platform.Platform * string)) (feed : list string),
    uploads (events (uploadRelease v s)) =
    (flat_map (fun p =>
                 if IsStable W v
                 then [unstableFile (fst p) (snd p); stableFile (fst p) v (snd p);
                       latestStableFile (fst p) (snd p)]
                 else [unstableFile (fst p) (snd p)]) l ++ feed)%list /\
    (feed = [] \/ feed = ["release.json"]).
Proof.
  destruct (uploadRelease_tasks v s) as (s1 & _ & pre & Hpre & Hrun).
  rewrite Hrun. clear Hrun.
  rewrite events_after, !uploads_app, Hpre.
  destruct (handle W (GetTasksForRevision (version.Commit v)) s1) as [ans s2].
  cbn [fst snd].
  change (uploads [Ev (GetTasksForRevision (version.Commit v)) ans])
    with (@nil string).
  cbn [app].
  assert (Hstop : forall msg,
            exists (l : list (platform.Platform * string)) (feed : list string),
              uploads (events (@mkRun (St W) unit (Exit msg) s2 [])) =
              (flat_map (fun p =>
                 if IsStable W v
                 then [unstableFile (fst p) (snd p); stableFile (fst p) v (snd p);
                       latestStableFile (fst p) (snd p)]
                 else [unstableFile (fst p) (snd p)]) l ++ feed)%list /\
              (feed = [] \/ feed = ["release.json"])).
  { intros msg. exists [], []. split; [reflexivity | now left]. }
  destruct ans as [tasks|e]; [|apply Hstop].
  destruct (find (unknownSign W) tasks); [apply Hstop|].
  destruct (negb (length (signTasksOf tasks) =? PlatformCount W)%nat);
    [apply Hstop|].
  exact (uploadSignTasks_grouped v (signTasksOf tasks) s2).
Qed.

(** ** [uploadRelease]: failures of the collaborators *)

Section FailureFacts.
Context {W : World}.

(** [uploadRelease] up to the answer of the CI, in full. *)
Lemma uploadRelease_shape (v : version.Version) (s : St W) :
  exists (s1 : St W) (pre : list Event),
    (pre = [Ev EvgIsPatch true; Ev (Print patchNotice) tt] \/
     pre = [Ev EvgIsPatch false]) /\
    uploadRelease v s =
    after (pre ++ [Ev (GetTasksForRevision (version.Commit v))
                     (fst (handle W (GetTasksForRevision (version.Commit v)) s1))])
      (match fst (handle W (GetTasksForRevision (version.Commit v)) s1) with
       | Err e => checkFailed e "get evergreen tasks"
                    (snd (handle W (GetTasksForRevision (version.Commit v)) s1))
       | Ok tasks =>
           match find (unknownSign W) tasks with
           | Some task =>
               mkRun (Exit ("found sign task with unknown variant '"
                            ++ evergreen.Variant task ++ "'" ++ nl))
                 (snd (handle W (GetTasksForRevision (version.Commit v)) s1)) []
           | None =>
               if negb (length (signTasksOf tasks) =? PlatformCount W)%nat then
                 mkRun (Exit ("found " ++ itoa (length (signTasksOf tasks))
                              ++ " sign tasks, but expected "
                              ++ itoa (PlatformCount W) ++ " release platforms"))
                   (snd (handle W (GetTasksForRevision (version.Commit v)) s1)) []
               else uploadSignTasks v (signTasksOf tasks)
                      (snd (handle W (GetTasksForRevision (version.Commit v)) s1))
           end
       end).
Proof.
  pose proof (uploadRelease_run v s) as Hrun. cbv zeta in Hrun.
  destruct (fst (handle W EvgIsPatch s)).
  - exists (snd (handle W (Print patchNotice) (snd (handle W EvgIsPatch s)))),
      [Ev EvgIsPatch true; Ev (Print patchNotice) tt].
    split; [now left|].
    rewrite Hrun, reconcile_run. cbv zeta. now rewrite after_after.
  - exists (snd (handle W EvgIsPatch s)), [Ev EvgIsPatch false].
    split; [now right|].
    rewrite Hrun, reconcile_run. cbv zeta. now rewrite after_after.
Qed.

(** The loop over the sign tasks does not ask for the client. *)
Lemma uploadTask_inRound v c dls task : Quiet inRound (uploadTask v c dls task).
Proof.
  unfold uploadTask, uploadArtifact, downloadFile, copyFile, computeMD5,
    computeSHA1, computeSHA256.
  quiet.
Qed.

End FailureFacts.

(** X3: a failure of a collaborator that [uploadRelease] asks before the
    loop over the sign tasks is fatal: when the CI fails to list the tasks,
    the run exits with that error and never asks for the storage client;
    when the storage client cannot be made, the run exits with that error
    and has fetched and uploaded nothing. *)
Theorem collaborator_failure_is_fatal (W : World) (v : version.Version)
    (s : St W) (e : string) :
  let r := uploadRelease v s in
  (tasksAnswer (events r) = Some (Err e) ->
   outcome r = Exit ("'get evergreen tasks' failed: " ++ e) /\
   clientAnswer (events r) = None /\
   uploads (events r) = []) /\
  (clientAnswer (events r) = Some (Err e) ->
   outcome r = Exit ("'get aws client' failed: " ++ e) /\
   fetches (events r) = [] /\
   uploads (events r) = []).
Proof.
  cbv zeta.
  destruct (uploadRelease_shape v s) as (s1 & pre & Hpre & Hrun).
  rewrite Hrun. clear Hrun.
  destruct (handle W (GetTasksForRevision (version.Commit v)) s1) as [ans s2].
  cbn [fst snd].
  rewrite events_after, outcome_after.
  unfold tasksAnswer, clientAnswer, uploads, fetches. rewrite !flat_map_app.
  assert (Hp : flat_map tasksAnswered pre = [] /\ flat_map clientAnswered pre = [] /\
               flat_map uploaded pre = [] /\ flat_map fetched pre = []).
  { destruct Hpre as [-> | ->]; repeat split. }
  destruct Hp as (Hp1 & Hp2 & Hp3 & Hp4). rewrite Hp1, Hp2, Hp3, Hp4.
  cbn [flat_map tasksAnswered clientAnswered uploaded fetched cmdOf app hd_error].
  split.
  - intros [= ->]. cbn. repeat split.
  - destruct ans as [tasks|e0]; [|discriminate].
    destruct (find (unknownSign W) tasks); [discriminate|].
    destruct (negb (length (signTasksOf tasks) =? PlatformCount W)%nat);
      [discriminate|].
    unfold uploadSignTasks.
    rewrite bind_run, checked_run, call_run. cbn [outcome final events].
    destruct (handle W GetClient s2) as [ansc s3]. cbn [fst snd].
    destruct ansc as [c|e1]; cbn [outcome final events].
    + rewrite events_after. rewrite !flat_map_app. cbn. discriminate.
    + cbn. intros [= ->]. repeat split.
Qed.

(** The CI is down; the storage credentials are missing. *)
Lemma collaborator_failure_is_fatal_witness :
  (let r := uploadRelease (W := override (scripted release) noTasks) v100_3_1 tt in
   outcome r = Exit "'get evergreen tasks' failed: 503 Service Unavailable" /\
   clientAnswer (events r) = None /\ uploads (events r) = []) /\
  (let r := uploadRelease (W := override (scripted release) noClient) v100_3_1 tt in
   outcome r = Exit "'get aws client' failed: NoCredentialProviders" /\
   fetches (events r) = [] /\ uploads (events r) = []).
Proof.
  split.
  - apply (collaborator_failure_is_fatal (override (scripted release) noTasks)
             v100_3_1 tt "503 Service Unavailable").
    reflexivity.
  - apply (collaborator_failure_is_fatal (override (scripted release) noClient)
             v100_3_1 tt "NoCredentialProviders").
    reflexivity.
Defined.

(** X4: in the round of [uploadRelease] for a sign task, when the CI answers
    a number of artifacts that is not the number of artifact extensions of
    the task's platform, the round is a fatal exit that says both numbers,
    and nothing has been fetched, created or uploaded for the task. *)
Theorem artifact_count_mismatch_is_fatal (W : World) (v : version.Version)
    (c : Client) (dls : list download.ToolsDownload) (task : evergreen.Task)
    (s : St W) (pf : platform.Platform) (artifacts : list evergreen.Artifact) :
  let r := uploadTask v c dls task s in
  GetByVariant W (evergreen.Variant task) = Some pf ->
  artifactsAnswer (events r) = Some (Ok artifacts) ->
  length artifacts <> length (platform.ArtifactExtensions pf) ->
  outcome r =
  Exit ("expected " ++ itoa (length (platform.ArtifactExtensions pf))
        ++ " artifacts but found " ++ itoa (length artifacts)
        ++ " for " ++ evergreen.Variant task) /\
  fetches (events r) = [] /\ creates (events r) = [] /\ uploads (events r) = [].
Proof.
  cbv zeta. intros Hpf. unfold uploadTask. rewrite Hpf.
  rewrite bind_run, call_run. cbn [outcome final events].
  rewrite bind_run, checked_run, call_run. cbn [outcome final events].
  match goal with
  | |- context [handle W (GetArtifactsForTask ?id) ?s0] =>
      destruct (handle W (GetArtifactsForTask id) s0) as [ans s1]
  end.
  cbn [fst snd].
  destruct ans as [artifacts'|e]; cbn [outcome final events].
  - rewrite !events_after, !outcome_after. unfold artifactsAnswer.
    cbn [flat_map artifactsAnswered app hd_error]. intros [= ->] Hlen.
    apply Nat.eqb_neq in Hlen. rewrite Hlen. cbn [negb].
    repeat split.
  - rewrite !events_after. unfold artifactsAnswer. cbn. discriminate.
Qed.

(** The .tgz artifact only, for a platform that also expects an .rpm. *)
Lemma artifact_count_mismatch_is_fatal_witness :
  let W := override (scripted release) oneArtifact in
  let r := uploadTask (W := W) v100_3_1 1 [] (signTask "t1" "rhel70") tt in
  outcome r = Exit "expected 2 artifacts but found 1 for rhel70" /\
  fetches (events r) = [] /\ creates (events r) = [] /\ uploads (events r) = [].
Proof.
  intros W r.
  apply (artifact_count_mismatch_is_fatal W v100_3_1 1 [] (signTask "t1" "rhel70")
           tt linux64 [ {| evergreen.URL := "https://host/a/tools.tgz" |} ]).
  - reflexivity.
  - reflexivity.
  - simpl. lia.
Defined.

(** ** [uploadRelease]: the feed *)

Section FeedFacts.
Context {W : World}.

Lemma inRound_encoded t :
  Forall (fun e => inRound (cmdOf e) = true) t -> encoded t = [].
Proof. apply flat_map_quiet. by_command. Qed.

(** The rounds of the artifacts leave the name and the architecture of the
    download as they are. *)
Lemma uploadArtifacts_name v c pf (artifacts : list evergreen.Artifact) :
  forall dl s dl' s' t,
    Returns (foldM (uploadArtifact v c pf) artifacts dl) s dl' s' t ->
    downloadOf dl' = downloadOf dl.
Proof.
  induction artifacts as [|a artifacts IH]; intros dl s dl' s' t H.
  - simpl in H. returns. reflexivity.
  - apply Returns_foldM_cons in H as (dl1 & s1 & t1 & t2 & Ha & Hrest & ->).
    apply IH in Hrest. rewrite Hrest.
    apply uploadArtifact_returns in Ha as (_ & _ & Ha).
    destruct (IsStable W v).
    + destruct Ha as (b1 & b2 & b3 & _ & ->). cbv zeta.
      now destruct ((_ =? ".tgz") || (_ =? ".zip")).
    + now destruct Ha as [_ ->].
Qed.

(** A round of the loop over the sign tasks adds the download of the task's
    platform. *)
Lemma uploadTask_download v c dls task s dls' s' t :
  Returns (uploadTask v c dls task) s dls' s' t ->
  exists dl, dls' = (dls ++ [dl])%list /\ downloadOf dl = platformOf W task.
Proof.
  unfold uploadTask, platformOf. intros H.
  destruct (GetByVariant W (evergreen.Variant task)) as [pf|]; returns.
  match goal with
  | Hloop : Returns (foldM _ _ (newDownload pf)) _ ?dl _ _ |- _ =>
      apply uploadArtifacts_name in Hloop; exists dl
  end.
  split; [reflexivity | assumption].
Qed.

Lemma uploadTasks_downloads v c (signTasks : list evergreen.Task) :
  forall dls s dls' s' t,
    Returns (foldM (uploadTask v c) signTasks dls) s dls' s' t ->
    map downloadOf dls' = (map downloadOf dls ++ map (platformOf W) signTasks)%list.
Proof.
  induction signTasks as [|task signTasks IH]; intros dls s dls' s' t H.
  - simpl in H. returns. now rewrite List.app_nil_r.
  - apply Returns_foldM_cons in H as (dls1 & s1 & t1 & t2 & Ht & Hrest & ->).
    apply uploadTask_download in Ht as (dl & -> & Hdl).
    apply IH in Hrest. rewrite Hrest, map_app, <- List.app_assoc.
    cbn [map app]. now rewrite Hdl.
Qed.

End FeedFacts.

(** X5: when the run of [uploadRelease] for a stable version returns, the
    feed is encoded once; it holds one version, named without its
    pre-release part, whose downloads are one for each sign task answered by
    the CI, in the order of the tasks and with the name and the architecture
    of the task's platform, as many as the platform matrix has platforms. *)
Theorem feed_lists_the_platforms (W : World) (v : version.Version) (s : St W)
    (tasks : list evergreen.Task) :
  let r := uploadRelease v s in
  outcome r = Done tt ->
  IsStable W v = true ->
  tasksAnswer (events r) = Some (Ok tasks) ->
  exists dls,
    encoded (events r) =
      [ {| download.Versions :=
             [ {| download.Version := StringWithoutPre W v;
                  download.Downloads := dls |} ] |} ] /\
    map downloadOf dls = map (platformOf W) (signTasksOf tasks) /\
    length dls = PlatformCount W.
Proof.
  cbv zeta.
  destruct (uploadRelease_shape v s) as (s1 & pre & Hpre & Hrun).
  rewrite Hrun. clear Hrun.
  destruct (handle W (GetTasksForRevision (version.Commit v)) s1) as [ans s2].
  cbn [fst snd].
  rewrite events_after, outcome_after.
  unfold tasksAnswer, encoded. rewrite !flat_map_app.
  assert (Hp : flat_map tasksAnswered pre = [] /\ flat_map encodedFeed pre = []).
  { destruct Hpre as [-> | ->]; now split. }
  destruct Hp as (Hp1 & Hp2). rewrite Hp1, Hp2.
  cbn [flat_map tasksAnswered encodedFeed cmdOf app hd_error].
  intros Hdone Hstable [= ->].
  destruct (find (unknownSign W) tasks); [discriminate|].
  destruct (negb (length (signTasksOf tasks) =? PlatformCount W)%nat) eqn:Hcount;
    [discriminate|].
  apply negb_false_iff, Nat.eqb_eq in Hcount.
  apply Returns_intro in Hdone. revert Hdone.
  generalize (events (uploadSignTasks v (signTasksOf tasks) s2)).
  generalize (final (uploadSignTasks v (signTasksOf tasks) s2)).
  intros s3 t H. unfold uploadSignTasks, uploadFeed in H. rewrite Hstable in H.
  returns.
  match goal with
  | Hloop : Returns (foldM (uploadTask v ?c) _ []) ?sa ?dls ?sb ?tl |- _ =>
      pose proof (quiet_returns _ _ _ _ _ _
                    (quiet_foldM inRound (uploadTask v c) (signTasksOf tasks)
                       (uploadTask_inRound v c) []) Hloop) as Hq;
      apply inRound_encoded in Hq;
      apply uploadTasks_downloads in Hloop; exists dls
  end.
  match goal with
  | Hret : Returns (ret tt) _ _ _ _ |- _ =>
      apply Returns_ret in Hret as (_ & _ & ->)
  end.
  unfold encoded in Hq. rewrite !flat_map_app, Hq.
  cbn [flat_map encodedFeed cmdOf app map] in *.
  split; [reflexivity|]. split; [assumption|].
  rewrite <- Hcount, <- (length_map downloadOf), <- (length_map (platformOf W)).
  now f_equal.
Qed.

(** The feed of the scripted release: one download, of rhel70 on x86_64. *)
Lemma feed_lists_the_platforms_witness :
  let W := scripted release in
  let r := uploadRelease (W := W) v100_3_1 tt in
  exists dls,
    encoded (events r) =
      [ {| download.Versions :=
             [ {| download.Version := "100.3.1";
                  download.Downloads := dls |} ] |} ] /\
    map downloadOf dls = [("rhel70", "x86_64")] /\
    length dls = 1.
Proof.
  intros W r.
  apply (feed_lists_the_platforms W v100_3_1 tt
           [ {| evergreen.TaskID := "t0"; evergreen.Variant := "rhel70";
                evergreen.DisplayName := "dist"; evergreen.IsPatch := false |};
             signTask "t1" "rhel70" ]).
  - reflexivity.
  - reflexivity.
  - reflexivity.
Defined.

(** ** [uploadRelease]: a version that is not stable *)

Section PrereleaseFacts.
Context {W : World}.

Lemma uploadRelease_inPrerelease (v : version.Version) :
  IsStable W v = false -> Quiet inPrerelease (uploadRelease v).
Proof.
  intros Hstable.
  unfold uploadRelease, reconcileAndUpload, uploadSignTasks, uploadFeed,
    uploadTask, uploadArtifact, collectSignTask, downloadFile.
  rewrite Hstable. cbv beta iota.
  quiet.
Qed.

Lemma inPrerelease_creates t :
  Forall (fun e => inPrerelease (cmdOf e) = true) t -> ~ In feedFilename (creates t).
Proof.
  induction 1 as [|e t He _ IH]; [intros []|].
  unfold creates. cbn [flat_map]. rewrite in_app_iff. intros [Hin|Hin]; [|exact (IH Hin)].
  destruct e as [c r]; destruct c; cbn [created cmdOf In inPrerelease] in *;
    try contradiction.
  destruct Hin as [->|[]]. now rewrite String.eqb_refl in He.
Qed.

Lemma inPrerelease_uploads t :
  Forall (fun e => inPrerelease (cmdOf e) = true) t -> ~ In feedFilename (uploads t).
Proof.
  induction 1 as [|e t He _ IH]; [intros []|].
  unfold uploads. cbn [flat_map]. rewrite in_app_iff. intros [Hin|Hin]; [|exact (IH Hin)].
  destruct e as [c r]; destruct c; cbn [uploaded cmdOf In inPrerelease] in *;
    try contradiction.
  destruct Hin as [->|[]]. now rewrite String.eqb_refl in He.
Qed.

End PrereleaseFacts.

(** X6: a run of [uploadRelease] for a version that is not stable, however
    it ends, opens no file, reads no file and so takes no digest, encodes no
    feed, and neither creates nor uploads [release.json]. *)
Theorem prerelease_makes_no_feed (W : World) (v : version.Version) (s : St W) :
  IsStable W v = false ->
  let t := events (uploadRelease v s) in
  opens t = [] /\ reads t = [] /\ encoded t = [] /\
  ~ In feedFilename (creates t) /\ ~ In feedFilename (uploads t).
Proof.
  intros Hstable t.
  pose proof (uploadRelease_inPrerelease v Hstable s) as Hq. fold t in Hq.
  repeat split.
  - revert Hq. apply flat_map_quiet. by_command.
  - revert Hq. apply flat_map_quiet. by_command.
  - revert Hq. apply flat_map_quiet. by_command.
  - now apply inPrerelease_creates.
  - now apply inPrerelease_uploads.
Qed.

(** The release candidate of the scripted release. *)
Lemma prerelease_makes_no_feed_witness :
  let t := events (uploadRelease (W := scripted release) v100_3_1_rc tt) in
  opens t = [] /\ reads t = [] /\ encoded t = [] /\
  ~ In feedFilename (creates t) /\ ~ In feedFilename (uploads t).
Proof.
  exact (prerelease_makes_no_feed (scripted release) v100_3_1_rc tt eq_refl).
Defined.

(** ** The handles of the files *)

Section HandleFacts.
Context {W : World}.

Lemma filter_nil_weaken {X} (p q : X -> bool) (l : list X) :
  (forall x, q x = true -> p x = true) -> filter p l = [] -> filter q l = [].
Proof.
  intros Hpq. induction l as [|x l IH]; [reflexivity|]. cbn [filter].
  destruct (p x) eqn:Hp; [discriminate|]. intros Hl.
  destruct (q x) eqn:Hq; [|now apply IH].
  apply Hpq in Hq. congruence.
Qed.

(** What is closed in a trace is closed in a longer one. *)
Lemma leaks_app (t1 t2 : list Event) :
  leaks t1 = [] -> leaks t2 = [] -> leaks (t1 ++ t2) = [].
Proof.
  induction t1 as [|e t1 IH]; [now intros _|]. cbn [leaks app].
  intros H1 H2. apply app_eq_nil in H1 as [Hf Hl].
  rewrite (IH Hl H2), List.app_nil_r.
  revert Hf. apply filter_nil_weaken. intros h.
  unfold closes. rewrite flat_map_app, existsb_app, !negb_true_iff.
  intros Hh. now apply orb_false_iff in Hh.
Qed.

Lemma handleFree_leaks t :
  Forall (fun e => handleFree (cmdOf e) = true) t -> leaks t = [].
Proof.
  induction 1 as [|e t He _ IH]; [reflexivity|]. cbn [leaks]. rewrite IH.
  destruct e as [c r]; destruct c; cbn in *; solve [reflexivity | discriminate].
Qed.

(** The trace of [downloadFile] when it returns: the response body is closed
    before the file. *)
Lemma downloadFile_trace url dst (s : St W) u s' t :
  Returns (downloadFile url dst) s u s' t ->
  exists (out resp : Handle) (e1 e2 : error),
    t = [Ev (OsCreate dst) (Ok out); Ev (HttpGet url) (Ok resp);
         Ev (IoCopy out resp) None; Ev (Close resp) e1; Ev (Close out) e2].
Proof.
  unfold downloadFile. intros H. returns. do 4 eexists. reflexivity.
Qed.

(** The trace of [copyFile] when it returns. *)
Lemma copyFile_trace src dst (s : St W) err s' t :
  Returns (copyFile src dst) s err s' t ->
  exists (file out : Handle) (e2 e3 : error),
    t = [Ev (OsOpen src) (Ok file); Ev (OsCreate dst) (Ok out);
         Ev (IoCopy out file) None; Ev (Close out) err; Ev (Close out) e2;
         Ev (Close file) e3].
Proof.
  unfold copyFile. intros H. returns. do 4 eexists. reflexivity.
Qed.

Lemma downloadFile_leaks url dst (s : St W) u s' t :
  Returns (downloadFile url dst) s u s' t -> leaks t = [].
Proof.
  intros H. apply downloadFile_trace in H as (out & resp & e1 & e2 & ->).
  cbn. now rewrite !Nat.eqb_refl, ?orb_true_r.
Qed.

Lemma copyFile_leaks src dst (s : St W) err s' t :
  Returns (copyFile src dst) s err s' t -> leaks t = [].
Proof.
  intros H. apply copyFile_trace in H as (file & out & e2 & e3 & ->).
  cbn. now rewrite !Nat.eqb_refl, ?orb_true_r.
Qed.

Ltac no_leak :=
  repeat apply leaks_app;
  try assumption; try reflexivity;
  try (cbn; now rewrite !Nat.eqb_refl, ?orb_true_r).

Lemma uploadArtifact_leaks v c pf dl a (s : St W) dl' s' t :
  Returns (uploadArtifact v c pf dl a) s dl' s' t -> leaks t = [].
Proof.
  unfold uploadArtifact, computeMD5, computeSHA1, computeSHA256. intros H.
  destruct (IsStable W v); returns;
    repeat match goal with
      | Hd : Returns (downloadFile _ _) _ _ _ _ |- _ => apply downloadFile_leaks in Hd
      | Hc : Returns (copyFile _ _) _ _ _ _ |- _ => apply copyFile_leaks in Hc
      end;
    no_leak.
Qed.

Lemma foldM_leaks {A B} (f : B -> A -> M W B) (l : list A) :
  (forall b x s b' s' t, Returns (f b x) s b' s' t -> leaks t = []) ->
  forall b s b' s' t, Returns (foldM f l b) s b' s' t -> leaks t = [].
Proof.
  intros Hf. induction l as [|x l IH]; intros b s b' s' t H.
  - simpl in H. now returns.
  - apply Returns_foldM_cons in H as (b1 & s1 & t1 & t2 & Hx & Hrest & ->).
    apply leaks_app; [exact (Hf _ _ _ _ _ _ Hx) | exact (IH _ _ _ _ _ Hrest)].
Qed.

Lemma uploadTask_leaks v c dls task (s : St W) dls' s' t :
  Returns (uploadTask v c dls task) s dls' s' t -> leaks t = [].
Proof.
  unfold uploadTask. intros H.
  destruct (GetByVariant W (evergreen.Variant task)); returns.
  match goal with
  | Hloop : Returns (foldM _ _ _) _ _ _ _ |- _ =>
      apply (foldM_leaks _ _ (uploadArtifact_leaks v c _)) in Hloop
  end.
  no_leak.
Qed.

Lemma uploadFeed_leaks v c dls (s : St W) u s' t :
  Returns (uploadFeed v c dls) s u s' t -> leaks t = [].
Proof.
  unfold uploadFeed. intros H.
  destruct (IsStable W v); returns; [|reflexivity].
  cbn. now rewrite !Nat.eqb_refl, ?orb_true_r.
Qed.

Lemma uploadSignTasks_leaks v signTasks (s : St W) u s' t :
  Returns (uploadSignTasks v signTasks) s u s' t -> leaks t = [].
Proof.
  unfold uploadSignTasks. intros H. returns.
  match goal with
  | Hloop : Returns (foldM _ _ _) _ _ _ _, Hfeed : Returns (uploadFeed _ _ _) _ _ _ _ |- _ =>
      apply (foldM_leaks _ _ (uploadTask_leaks v _)) in Hloop;
      apply uploadFeed_leaks in Hfeed
  end.
  no_leak.
Qed.

End HandleFacts.

(** X7: when a run of [uploadRelease] returns, no file is left open: every
    handle that [os.Create], [os.Open] or [http.Get] answered in the run is
    closed later in the run, by the deferred calls of [downloadFile] and
    [copyFile] and the deferred close of the feed. *)
Theorem returning_release_closes_its_files (W : World) (v : version.Version)
    (s : St W) :
  outcome (uploadRelease v s) = Done tt ->
  leaks (events (uploadRelease v s)) = [].
Proof.
  destruct (uploadRelease_shape v s) as (s1 & pre & Hpre & Hrun).
  rewrite Hrun. clear Hrun.
  destruct (handle W (GetTasksForRevision (version.Commit v)) s1) as [ans s2].
  cbn [fst snd]. rewrite events_after, outcome_after.
  intros Hdone. apply leaks_app.
  - destruct Hpre as [-> | ->]; now destruct ans.
  - destruct ans as [tasks|e]; [|discriminate].
    destruct (find (unknownSign W) tasks); [discriminate|].
    destruct (negb _); [discriminate|].
    apply Returns_intro in Hdone.
    exact (uploadSignTasks_leaks _ _ _ _ _ _ Hdone).
Qed.

(** The scripted release returns and leaves no file open. *)
Lemma returning_release_closes_its_files_witness :
  leaks (events (uploadRelease (W := scripted release) v100_3_1 tt)) = [].
Proof.
  exact (returning_release_closes_its_files (scripted release) v100_3_1 tt eq_refl).
Defined.

(** X8: when [copyFile] returns, the source was opened, the destination
    created and the copy made without an error, in this order; the
    destination is then closed twice (by the [return] and by its deferred
    call) and the source once, and the error that [copyFile] returns is the
    answer of the first close: a failed close is returned, not fatal. *)
Theorem copyFile_returns_first_close (W : World) (src dst : string) (s : St W)
    (err : error) :
  outcome (copyFile src dst s) = Done err ->
  exists (file out : Handle) (e2 e3 : error),
    events (copyFile src dst s) =
    [Ev (OsOpen src) (Ok file); Ev (OsCreate dst) (Ok out);
     Ev (IoCopy out file) None; Ev (Close out) err; Ev (Close out) e2;
     Ev (Close file) e3].
Proof.
  intros Hdone. apply Returns_intro in Hdone.
  exact (copyFile_trace _ _ _ _ _ _ Hdone).
Qed.

(** A copy in the scripted release. *)
Lemma copyFile_returns_first_close_witness :
  exists (file out : Handle) (e2 e3 : error),
    events (copyFile (W := scripted release) "a.tgz" "b.tgz" tt) =
    [Ev (OsOpen "a.tgz") (Ok file); Ev (OsCreate "b.tgz") (Ok out);
     Ev (IoCopy out file) None; Ev (Close out) None; Ev (Close out) e2;
     Ev (Close file) e3].
Proof.
  exact (copyFile_returns_first_close (scripted release) "a.tgz" "b.tgz" tt None eq_refl).
Defined.

(** ** [getReleaseName] *)

Section NameFacts.
Context {W : World}.

Lemma append_assoc (a b c : string) : ((a ++ b) ++ c = a ++ (b ++ c))%string.
Proof. induction a as [|x a IH]; simpl; [reflexivity | now rewrite IH]. Qed.

Lemma getReleaseName_returns (s : St W) name s' t :
  Returns getReleaseName s name s' t ->
  exists pf v,
    t = [Ev GetFromEnv (Ok pf); Ev GetCurrent (Ok v)] /\
    name = "mongodb-database-tools-" ++ platform.Name pf ++ "-" ++ platform.Arch pf
           ++ "-" ++ VersionString W v.
Proof.
  unfold getReleaseName. intros H. returns. do 2 eexists. split; reflexivity.
Qed.

End NameFacts.

(** X9: when [getReleaseName] returns, the name is made of the platform of
    the host and of the current version, both asked once and in this order,
    and the stable name under which [uploadRelease] publishes an artifact of
    that platform and version is this release name followed by the
    extension of the artifact. *)
Theorem stable_name_is_release_name (W : World) (s : St W) (name : string) :
  let r := getReleaseName s in
  outcome r = Done name ->
  exists pf v,
    events r = [Ev GetFromEnv (Ok pf); Ev GetCurrent (Ok v)] /\
    name = "mongodb-database-tools-" ++ platform.Name pf ++ "-" ++ platform.Arch pf
           ++ "-" ++ VersionString W v /\
    forall ext, stableFile pf v ext = name ++ ext.
Proof.
  cbv zeta. intros Hdone. apply Returns_intro in Hdone.
  apply getReleaseName_returns in Hdone as (pf & v & Ht & ->).
  exists pf, v. split; [assumption|]. split; [reflexivity|].
  intros ext. unfold stableFile. now rewrite !append_assoc.
Qed.

(** The release name of the scripted host. *)
Lemma stable_name_is_release_name_witness :
  let W := scripted release in
  let r := getReleaseName (W := W) tt in
  exists pf v,
    events r = [Ev GetFromEnv (Ok pf); Ev GetCurrent (Ok v)] /\
    "mongodb-database-tools-rhel70-x86_64-100.3.1"
    = "mongodb-database-tools-" ++ platform.Name pf ++ "-" ++ platform.Arch pf
      ++ "-" ++ VersionString W v /\
    forall ext,
      stableFile (W := W) pf v ext = "mongodb-database-tools-rhel70-x86_64-100.3.1" ++ ext.
Proof.
  intros W r.
  exact (stable_name_is_release_name W tt
           "mongodb-database-tools-rhel70-x86_64-100.3.1" eq_refl).
Defined.

(** ** [useWorkingDir] *)

Lemma absolute_absolute (dir : string) :
  strings.HasPrefix (absolute dir) "/" = true.
Proof.
  unfold absolute. destruct (strings.HasPrefix dir "/") eqn:H; [exact H | reflexivity].
Qed.

(** In the world with a working directory, a change into the working
    directory leaves it as it is. *)
Lemma chdir_absolute (sc : Scenario) (s0 : string) :
  absolute (snd (handle (inDirectory sc) (OsChdir (absolute s0)) s0)) = absolute s0.
Proof.
  change (absolute (if strings.HasPrefix (absolute s0) "/" then absolute s0
                    else absolute s0 ++ "/" ++ absolute s0) = absolute s0).
  rewrite absolute_absolute. unfold absolute at 1. now rewrite absolute_absolute.
Qed.

(** X10: the function that [useWorkingDir] returns, which its callers defer
    as [cdBack], changes into the directory that [os.Getwd] answered after
    the change into the build directory. In a world where [os.Getwd] reports
    the working directory and a change into the working directory leaves it
    as it is, running [cdBack] when [useWorkingDir] has returned leaves the
    working directory where it is, in the build directory; it returns
    whatever [os.Chdir] answers. *)
Theorem cdBack_stays_in_the_build_directory (W : World) (cwd : St W -> string)
    (dir : string) (s : St W) (cdBack : M W unit) :
  (forall s0 cur s1, handle W OsGetwd s0 = (Ok cur, s1) ->
                     cur = cwd s0 /\ cwd s1 = cwd s0) ->
  (forall s0, cwd (snd (handle W (OsChdir (cwd s0)) s0)) = cwd s0) ->
  outcome (useWorkingDir dir s) = Done cdBack ->
  let s' := final (useWorkingDir dir s) in
  outcome (cdBack s') = Done tt /\
  cwd (final (cdBack s')) = cwd s' /\
  exists e, events (cdBack s') = [Ev (OsChdir (cwd s')) e].
Proof.
  intros Hgetwd Hchdir Hdone. cbv zeta.
  apply Returns_intro in Hdone. revert Hdone.
  generalize (final (useWorkingDir dir s)), (events (useWorkingDir dir s)).
  intros s' t H. unfold useWorkingDir in H. returns.
  match goal with
  | Hg : handle W OsGetwd _ = (Ok ?cur, _) |- _ =>
      apply Hgetwd in Hg as (-> & Hsame)
  end.
  rewrite <- Hsame. rewrite bind_run, call_run. cbn [outcome final events after ret].
  split; [reflexivity|]. split; [apply Hchdir|].
  eexists. reflexivity.
Qed.

(** From [/src] the build goes into [/src/msi_build], and [cdBack] stays
    there. *)
Lemma cdBack_stays_in_the_build_directory_witness :
  let W := inDirectory release in
  let s' := final (useWorkingDir (W := W) "msi_build" "/src") in
  let cdBack : M W unit := (_ <- call (OsChdir "/src/msi_build") ;; ret tt) in
  outcome (cdBack s') = Done tt /\
  absolute (final (cdBack s')) = absolute s' /\
  exists e, events (cdBack s') = [Ev (OsChdir (absolute s')) e].
Proof.
  intros W s' cdBack.
  apply (cdBack_stays_in_the_build_directory W absolute "msi_build" "/src" cdBack).
  - intros s0 cur s1 H.
    change ((Ok (absolute s0), s0) = (Ok cur, s1)) in H. now injection H as <- <-.
  - exact (chdir_absolute release).
  - reflexivity.
Defined.

Example cdBack_does_not_go_back :
  let W := inDirectory release in
  let r := useWorkingDir (W := W) "msi_build" "/src" in
  final r = "/src/msi_build" /\
  final ((_ <- call (OsChdir "/src/msi_build") ;; ret tt) (final r)) = "/src/msi_build".
Proof. split; reflexivity. Qed.

(** ** [buildMSI]: the host and the order of the programs *)

Section ToolFacts.
Context {W : World}.

Lemma noExec_ran t :
  Forall (fun e => noExec (cmdOf e) = true) t -> ran t = [].
Proof. apply flat_map_quiet. by_command. Qed.

Lemma plain_noExec (c : Cmd) : plain c = true -> noExec c = true.
Proof. destruct c; simpl; congruence. Qed.

Lemma ran_app t1 t2 : ran (t1 ++ t2) = (ran t1 ++ ran t2)%list.
Proof. apply flat_map_app. Qed.

Lemma tools_after (t : list Event) (r : Run (St W) unit) :
  Forall (fun e => noExec (cmdOf e) = true) t ->
  ToolsInOrder W r -> ToolsInOrder W (after t r).
Proof.
  intros Ht. unfold ToolsInOrder.
  now rewrite events_after, outcome_after, ran_app, (noExec_ran t Ht).
Qed.

Lemma tools_none (t : list Event) (o : Outcome unit) (s : St W) :
  Forall (fun e => noExec (cmdOf e) = true) t -> ToolsInOrder W (mkRun o s t).
Proof. intros Ht. left. now apply noExec_ran. Qed.

(** A statement that starts no program, before the rest. *)
Lemma tools_bind {A} (m : M W A) (k : A -> M W unit) (s : St W) :
  Quiet noExec m ->
  (forall a s', ToolsInOrder W (k a s')) ->
  ToolsInOrder W (bind m k s).
Proof.
  intros Hm Hk.
  apply (bind_prefix noExec (ToolsInOrder W)); try assumption.
  - apply tools_after.
  - intros. now apply tools_none.
  - intros. now apply tools_none.
Qed.

(** The same, when what the statement returns matters to the rest. *)
Lemma tools_bind_post {A} (Q : A -> Prop) (m : M W A) (k : A -> M W unit) (s : St W) :
  Quiet noExec m ->
  (forall a s' t, Returns m s a s' t -> Q a) ->
  (forall a s', Q a -> ToolsInOrder W (k a s')) ->
  ToolsInOrder W (bind m k s).
Proof.
  intros Hm HQ Hk. rewrite bind_run. specialize (Hm s).
  destruct (outcome (m s)) as [a|msg|msg] eqn:Ho.
  - apply tools_after; [assumption|].
    apply Hk, (HQ a (final (m s)) (events (m s))), Returns_intro, Ho.
  - now apply tools_none.
  - now apply tools_none.
Qed.

(** The function that [useWorkingDir] returns changes the directory and
    does nothing else. *)
Lemma useWorkingDir_cdBack dir (s : St W) cdBack s' t :
  Returns (useWorkingDir dir) s cdBack s' t -> Quiet noExec cdBack.
Proof. unfold useWorkingDir. intros H. returns. quiet. Qed.

(** [run] starts the program once and wraps the error of a program that
    exited with a failure. *)
Lemma run_run (name : string) (args : list string) (s : St W) :
  run name args s =
  mkRun (Done (TrimSpace W (fst (fst (handle W (Exec name args) s))),
               match snd (fst (handle W (Exec name args) s)) with
               | None => None
               | Some (ExitError msg stderr) =>
                   Some ("ExitError: " ++ msg ++ ". Stderr: " ++ Quote W stderr)
               | Some (OtherError msg) => Some msg
               end))
    (snd (handle W (Exec name args) s))
    [Ev (Exec name args) (fst (handle W (Exec name args) s))].
Proof.
  unfold run. rewrite bind_run, call_run. cbn [outcome final events].
  destruct (handle W (Exec name args) s) as [[out err] s1]. cbn [fst snd].
  unfold after, ret. cbn [outcome final events app]. reflexivity.
Qed.

(** The two programs and what follows them. *)
Lemma candle_then_light (args1 args2 : list string)
    (f1 f2 : string * error -> string) (rest : M W unit) (s : St W) :
  Quiet noExec rest ->
  ToolsInOrder W
    ((r <- run (candle W) args1 ;;
      check (snd r) (f1 r) ;;
      r2 <- run (light W) args2 ;;
      check (snd r2) (f2 r2) ;;
      rest) s).
Proof.
  intros Hrest. unfold ToolsInOrder.
  rewrite bind_run, run_run. cbn [outcome final events].
  destruct (handle W (Exec (candle W) args1) s) as [[out1 err1] s1]. cbn [fst snd].
  rewrite events_after, outcome_after, ran_app.
  cbn [ran flat_map ranProgram app].
  destruct err1 as [e1|].
  - right. left. rewrite bind_run.
    destruct e1 as [msg stderr|msg]; cbn [snd check checkFailed logFatal outcome events];
      do 4 eexists; split; reflexivity.
  - right. right. rewrite bind_run. cbn [snd check ret outcome final events].
    rewrite events_after, outcome_after. cbn [app].
    rewrite bind_run, run_run. cbn [outcome final events].
    destruct (handle W (Exec (light W) args2) s1) as [[out2 err2] s2]. cbn [fst snd].
    rewrite events_after, outcome_after, ran_app.
    cbn [ran flat_map ranProgram app].
    exists args1, out1, args2, out2, err2.
    destruct err2 as [e2|].
    + rewrite bind_run.
      destruct e2 as [msg stderr|msg]; cbn [snd check checkFailed logFatal outcome events];
        (split; [reflexivity | right; eexists; reflexivity]).
    + rewrite bind_run. cbn [snd check ret outcome final events].
      rewrite events_after, ran_app. cbn [ran flat_map app].
      fold (ran (events (rest s2))).
      rewrite (noExec_ran _ (Hrest s2)). split; [reflexivity | now left].
Qed.

End ToolFacts.

(** X11: on a host that is not a Windows platform [buildMSI] does nothing:
    it asks for the platform of the host and returns; no directory is made,
    no file is copied or linked and no program is started. *)
Theorem buildMSI_only_on_windows (W : World) (s : St W) (pf : platform.Platform) :
  let r := buildMSI s in
  platformAnswer (events r) = Some (Ok pf) ->
  platform.OS pf <> platform.OSWindows ->
  outcome r = Done tt /\ events r = [Ev GetFromEnv (Ok pf)].
Proof.
  cbv zeta. unfold buildMSI.
  rewrite bind_run, checked_run, call_run. cbn [outcome final events].
  destruct (handle W GetFromEnv s) as [ans s1]. cbn [fst snd].
  destruct ans as [pf'|e]; cbn [outcome final events];
    rewrite !events_after, !outcome_after;
    intros [= ->]. intros Hos.
  destruct (platform.OS pf); try contradiction; cbn [platform.OS_eqb negb];
    split; reflexivity.
Qed.

(** The Linux host of the scripted release. *)
Lemma buildMSI_only_on_windows_witness :
  let W := scripted release in
  let r := buildMSI (W := W) tt in
  outcome r = Done tt /\ events r = [Ev GetFromEnv (Ok linux64)].
Proof.
  intros W r. apply (buildMSI_only_on_windows W tt linux64).
  - reflexivity.
  - discriminate.
Defined.

(** X12: in every run of [buildMSI] the programs are started in order:
    either none is started, or [candle.exe] alone, which answered an error
    that is fatal, or [candle.exe], which answered no error, and then
    [light.exe]; in the last case [light.exe] answered no error or the run
    is a fatal exit. No other program is started, and none twice. *)
Theorem buildMSI_tools_in_order (W : World) (s : St W) :
  ToolsInOrder W (buildMSI s).
Proof.
  pose proof (fun d => quiet_weaken plain noExec _ plain_noExec
                         (useWorkingDir_plain d)) as Hdir.
  pose proof (fun x y => quiet_weaken plain noExec _ plain_noExec
                           (copyFile_plain x y)) as Hcopy.
  unfold buildMSI.
  apply tools_bind; [quiet|]. intros pf s1.
  destruct (negb _); [now left|]. cbv zeta.
  apply tools_bind; [quiet|]. intros _ s2.
  apply (tools_bind_post (Quiet noExec)); [apply Hdir | apply useWorkingDir_cdBack |].
  intros cdBack s3 HcdBack.
  do 5 (apply tools_bind; [unfold forEach; quiet; auto | intros]).
  apply tools_bind; [quiet|]. intros v s4.
  apply tools_bind; [quiet|]. intros _ s5.
  apply (candle_then_light _ _
           (fun r => "run candle.exe" ++ nl ++ fst r)
           (fun r => "run light.exe" ++ nl ++ fst r)).
  quiet.
Qed.

(** ** [strings.Split], [strings.Trim] and [sort.Strings] *)

Section LibraryFacts.

Lemma Split_loop_nonempty (n : nat) (s sep : string) : Split_loop n s sep <> [].
Proof.
  destruct n; cbn [Split_loop]; [discriminate|].
  destruct (strings.Index s sep); discriminate.
Qed.

(** A split always has a first element. *)
Lemma Split_nonempty (s sep : string) : sep <> "" -> Split s sep <> [].
Proof.
  intros Hsep. unfold Split. rewrite (StringFacts.eqb_empty sep Hsep).
  apply Split_loop_nonempty.
Qed.

(** Without the separator in it the string is the only element. *)
Lemma Split_none (s sep : string) :
  sep <> "" -> strings.Index s sep = None -> Split s sep = [s].
Proof.
  intros Hsep Hnone. unfold Split. rewrite (StringFacts.eqb_empty sep Hsep).
  destruct (Nat.min _ _ - 1); cbn [Split_loop]; [reflexivity | now rewrite Hnone].
Qed.

Lemma TrimLeft_starts (s cutset : string) :
  startsIn cutset (TrimLeft s cutset) = false.
Proof.
  induction s as [|c s IH]; [reflexivity|]. cbn [TrimLeft].
  destruct (elem c cutset) eqn:Hc; [exact IH | exact Hc].
Qed.

Lemma TrimRight_ends (s cutset : string) :
  endsIn cutset (TrimRight s cutset) = false.
Proof.
  induction s as [|c s IH]; [reflexivity|]. cbn [TrimRight].
  destruct (TrimRight s cutset) as [|c' r] eqn:Hr.
  - destruct (elem c cutset) eqn:Hc; [reflexivity | exact Hc].
  - exact IH.
Qed.

Lemma TrimLeft_ends (s cutset : string) :
  endsIn cutset s = false -> endsIn cutset (TrimLeft s cutset) = false.
Proof.
  induction s as [|c s IH]; [reflexivity|]. cbn [TrimLeft]. intros Hends.
  destruct (elem c cutset) eqn:Hc; [|exact Hends].
  apply IH. destruct s as [|c' s']; [reflexivity|exact Hends].
Qed.

(** What [strings.Trim] answers neither starts nor ends with a byte of the
    cutset. *)
Lemma Trim_trimmed (s cutset : string) :
  startsIn cutset (Trim s cutset) = false /\ endsIn cutset (Trim s cutset) = false.
Proof.
  unfold Trim. split; [apply TrimLeft_starts|].
  apply TrimLeft_ends, TrimRight_ends.
Qed.

Lemma insertString_perm (x : string) (l : list string) :
  Permutation (insertString x l) (x :: l).
Proof.
  induction l as [|y l IH]; [reflexivity|]. cbn [insertString].
  destruct (x <=? y)%string; [reflexivity|].
  rewrite IH. apply perm_swap.
Qed.

Lemma sortStrings_perm (l : list string) : Permutation (sortStrings l) l.
Proof.
  induction l as [|x l IH]; [reflexivity|]. cbn [sortStrings fold_right].
  fold (sortStrings l). rewrite insertString_perm. now constructor.
Qed.

Lemma insertString_sorted (x : string) (l : list string) :
  Sorted (fun a b => (a <=? b)%string = true) l ->
  Sorted (fun a b => (a <=? b)%string = true) (insertString x l).
Proof.
  induction 1 as [|y l Hl IH Hhd]; [repeat constructor|]. cbn [insertString].
  destruct (x <=? y)%string eqn:Hxy.
  - constructor; [now constructor | now constructor].
  - constructor; [exact IH|].
    destruct (String.leb_total x y) as [Hle|Hle]; [congruence|].
    destruct Hhd as [|z l' Hyz]; cbn [insertString]; [now constructor|].
    destruct (x <=? z)%string; now constructor.
Qed.

Lemma sortStrings_sorted (l : list string) :
  Sorted (fun a b => (a <=? b)%string = true) (sortStrings l).
Proof.
  induction l as [|x l IH]; [constructor|]. now apply insertString_sorted.
Qed.

Lemma addKey_In (k x : string) (deps : list string) :
  In x (addKey k deps) <-> x = k \/ In x deps.
Proof.
  unfold addKey. destruct (existsb (String.eqb k) deps) eqn:Hk.
  - apply existsb_exists in Hk as (y & Hy & Heq). apply String.eqb_eq in Heq.
    subst y. split; [now right | now intros [->|]].
  - rewrite in_app_iff. cbn [In]. intuition congruence.
Qed.

Lemma addKey_NoDup (k : string) (deps : list string) :
  NoDup deps -> NoDup (addKey k deps).
Proof.
  intros Hdeps. unfold addKey. destruct (existsb (String.eqb k) deps) eqn:Hk;
    [assumption|].
  apply NoDup_app; [assumption | repeat constructor; intros [] |].
  intros x Hx [Heq|[]]. subst x.
  assert (existsb (String.eqb k) deps = true); [|congruence].
  apply existsb_exists. exists k. split; [assumption | apply String.eqb_refl].
Qed.

End LibraryFacts.

(** ** [getLibraryPaths] and [listLinuxDeps] *)

Section DepsFacts.
Context {W : World}.

Lemma ret_bind {A B} (a : A) (k : A -> M W B) (s : St W) :
  bind (ret a) k s = k a s.
Proof.
  rewrite bind_run. cbn [ret outcome final events]. unfold after.
  now destruct (k a s).
Qed.

Lemma index_found (sp : list string) (i : nat) (x : string) :
  nth_error sp i = Some x -> index (W := W) sp i = ret x.
Proof. unfold index. now intros ->. Qed.

(** A returning [run]: the program was started once; the error is [nil]
    exactly when the program answered none. *)
Lemma Returns_run (name : string) (args : list string) (s : St W) r s' t :
  Returns (run name args) s r s' t ->
  exists out err,
    t = [Ev (Exec name args) (out, err)] /\
    fst r = TrimSpace W out /\
    (snd r = None -> err = None).
Proof.
  unfold Returns. rewrite run_run.
  destruct (handle W (Exec name args) s) as [[out err] s1]. cbn [fst snd].
  intros [= <- <- <-]. exists out, err. split; [reflexivity|]. split; [reflexivity|].
  cbn [snd]. destruct err as [[msg stderr|msg]|]; congruence.
Qed.

Lemma run_nopanic (name : string) (args : list string) : NoPanic (run (W := W) name args).
Proof. intros s msg. rewrite run_run. discriminate. Qed.

(** Take apart [out, err := run(...); check(err, ...)] in a returning run. *)
Ltac returns_run H out :=
  let r := fresh "r" in let s0 := fresh "sa" in
  let t0 := fresh "ta" in let t1 := fresh "tb" in
  let Hrun := fresh "Hrun" in let err := fresh "err" in
  let Hout := fresh "Hout" in let Herr := fresh "Herr" in
  let u := fresh "u" in let s1 := fresh "sb" in
  let t2 := fresh "tc" in let t3 := fresh "td" in
  let Hcheck := fresh "Hcheck" in let Hnone := fresh "Hnone" in
  apply Returns_bind in H as (r & s0 & t0 & t1 & Hrun & H & ->);
  apply Returns_run in Hrun as (out & err & -> & Hout & Herr);
  destruct r as [? ?]; cbn [fst snd] in *;
  apply Returns_bind in H as (u & s1 & t2 & t3 & Hcheck & H & ->);
  apply Returns_check in Hcheck as (Hnone & ? & ?);
  specialize (Herr Hnone); subst.

(** One line of the output of [ldd]: no interaction; at most one path is
    added, which is not empty and has no blank or tab around it, and none
    when the line holds no arrow. *)
Lemma libraryPath_run (paths : list string) (line : string) (s : St W) :
  exists paths',
    libraryPath paths line s = mkRun (Done paths') s [] /\
    (paths' = paths \/
     exists p, paths' = (paths ++ [p])%list /\ p <> "" /\
               startsIn (" " ++ tab) p = false /\ endsIn (" " ++ tab) p = false /\
               strings.Contains line "=>" = true).
Proof.
  unfold libraryPath.
  destruct (length (Split line "=>") <? 2)%nat eqn:Hlen.
  { exists paths. split; [reflexivity | now left]. }
  assert (Harrow : strings.Contains line "=>" = true).
  { unfold strings.Contains. destruct (strings.Index line "=>") eqn:Hi; [reflexivity|].
    rewrite (Split_none line "=>") in Hlen; [discriminate..|assumption]. }
  destruct (Split line "=>") as [|sp0 [|sp1 sp]]; try discriminate.
  rewrite (index_found (sp0 :: sp1 :: sp) 1 sp1 eq_refl), ret_bind.
  destruct (Split sp1 "(") as [|part parts] eqn:Hsplit.
  { now apply Split_nonempty in Hsplit. }
  rewrite (index_found (part :: parts) 0 part eq_refl), ret_bind.
  destruct (Trim part (" " ++ tab) =? "") eqn:Hempty; cbn [negb].
  - exists paths. split; [reflexivity | now left].
  - exists (paths ++ [Trim part (" " ++ tab)])%list. split; [reflexivity|].
    right. eexists. split; [reflexivity|].
    apply String.eqb_neq in Hempty.
    destruct (Trim_trimmed part (" " ++ tab)) as [Hs He]. auto.
Qed.

Lemma libraryPaths_run (lines : list string) :
  forall (paths : list string) (s : St W),
    Forall (fun p => p <> "" /\ startsIn (" " ++ tab) p = false /\
                     endsIn (" " ++ tab) p = false) paths ->
    exists paths',
      foldM libraryPath lines paths s = mkRun (Done paths') s [] /\
      Forall (fun p => p <> "" /\ startsIn (" " ++ tab) p = false /\
                       endsIn (" " ++ tab) p = false) paths' /\
      length paths' <=
      length paths + length (filter (fun line => strings.Contains line "=>") lines).
Proof.
  induction lines as [|line lines IH]; intros paths s Hpaths.
  - exists paths. split; [reflexivity|]. split; [assumption|]. cbn. lia.
  - cbn [foldM]. rewrite bind_run.
    destruct (libraryPath_run paths line s) as (paths1 & -> & Hstep).
    cbn [outcome final events].
    assert (H1 : Forall (fun p => p <> "" /\ startsIn (" " ++ tab) p = false /\
                                  endsIn (" " ++ tab) p = false) paths1 /\
                 length paths1 <=
                 length paths + (if strings.Contains line "=>" then 1 else 0)).
    { destruct Hstep as [->|(p & -> & Hp & Hs & He & Harrow)].
      - split; [assumption | lia].
      - split; [apply Forall_app; split; [assumption | repeat constructor; auto]|].
        rewrite Harrow, length_app. cbn. lia. }
    destruct H1 as [Hall Hlen].
    destruct (IH paths1 s Hall) as (paths' & -> & Hall' & Hlen').
    exists paths'. split; [reflexivity|]. split; [assumption|].
    cbn [filter]. destruct (strings.Contains line "=>"); cbn [length]; lia.
Qed.

(** [getLibraryPaths] when it returns. *)
Lemma getLibraryPaths_returns (s : St W) paths s' t :
  Returns getLibraryPaths s paths s' t ->
  exists out,
    t = [Ev (Exec "ldd" [filepathJoin W ["bin"; "mongodump"]]) (out, None)] /\
    Forall (fun p => p <> "" /\ startsIn (" " ++ tab) p = false /\
                     endsIn (" " ++ tab) p = false) paths /\
    length paths <=
    length (filter (fun line => strings.Contains line "=>")
              (Split (TrimSpace W out) nl)).
Proof.
  unfold getLibraryPaths. intros H. returns_run H out. exists out.
  match goal with
  | Hloop : Returns (foldM libraryPath ?lines []) ?s0 _ _ _ |- _ =>
      destruct (libraryPaths_run lines [] s0 (Forall_nil _))
        as (paths' & Heq & Hall & Hlen);
      unfold Returns in Hloop; rewrite Heq in Hloop;
      injection Hloop as <- <- <-
  end.
  split; [reflexivity|]. split; [assumption | exact Hlen].
Qed.

(** [getLibraryPaths] exits only when [ldd] answered an error. *)
Lemma getLibraryPaths_exits (s : St W) (msg : string) :
  outcome (getLibraryPaths s) = Exit msg ->
  exists out e,
    events (getLibraryPaths s)
    = [Ev (Exec "ldd" [filepathJoin W ["bin"; "mongodump"]]) (out, Some e)].
Proof.
  unfold getLibraryPaths. rewrite bind_run, run_run. cbn [outcome final events].
  destruct (handle W (Exec "ldd" [filepathJoin W ["bin"; "mongodump"]]) s)
    as [[out err] s1]. cbn [fst snd].
  rewrite events_after, outcome_after, bind_run.
  destruct err as [e|].
  - intros _. exists out, e.
    destruct e; cbn [snd check checkFailed logFatal outcome events app]; reflexivity.
  - cbn [snd check ret outcome final events]. rewrite outcome_after.
    destruct (libraryPaths_run (Split (TrimSpace W out) nl) [] s1 (Forall_nil _))
      as (paths' & -> & _).
    discriminate.
Qed.

Lemma getLibraryPaths_nopanic : NoPanic (getLibraryPaths (W := W)).
Proof.
  unfold getLibraryPaths.
  apply nopanic_bind; [apply run_nopanic|]. intros r.
  apply nopanic_bind; [apply nopanic_check|]. intros _ s msg.
  destruct (libraryPaths_run (Split (fst r) nl) [] s (Forall_nil _))
    as (paths' & -> & _).
  discriminate.
Qed.

(** One query of [rpm]. *)
Lemma rpmDependency_returns (deps : list string) (libPath : string) (s : St W)
    deps' s' t :
  Returns (rpmDependency deps libPath) s deps' s' t ->
  exists p,
    ran t = [p] /\ logs t = [] /\ fst (fst p) = "rpm" /\
    deps' = addKey (dependencyOf W p) deps.
Proof.
  unfold rpmDependency. intros H. returns_run H out. returns.
  eexists. split; [reflexivity|]. split; [reflexivity|]. split; reflexivity.
Qed.

(** One query of [dpkg]. *)
Lemma debDependency_returns (deps : list string) (libPath : string) (s : St W)
    deps' s' t :
  Returns (debDependency deps libPath) s deps' s' t ->
  exists p,
    ran t = [p] /\ logs t = [] /\ fst (fst p) = "dpkg" /\
    deps' = addKey (dependencyOf W p) deps.
Proof.
  unfold debDependency. intros H. returns_run H out.
  destruct (Split (TrimSpace W out) ":") as [|part parts] eqn:Hsplit;
    [now apply Split_nonempty in Hsplit|].
  rewrite (index_found (part :: parts) 0 part eq_refl) in H.
  returns.
  eexists. split; [reflexivity|]. split; [reflexivity|]. split; [reflexivity|].
  unfold dependencyOf. cbn [fst snd]. rewrite Hsplit. reflexivity.
Qed.

Lemma debDependency_nopanic deps libPath : NoPanic (debDependency (W := W) deps libPath).
Proof.
  unfold debDependency.
  apply nopanic_bind; [apply run_nopanic|]. intros r.
  apply nopanic_bind; [apply nopanic_check|]. intros _.
  destruct (Split (fst r) ":") as [|part parts] eqn:Hsplit;
    [now apply Split_nonempty in Hsplit|].
  rewrite (index_found (part :: parts) 0 part eq_refl). nopanic.
Qed.

Lemma rpmDependency_nopanic deps libPath : NoPanic (rpmDependency (W := W) deps libPath).
Proof.
  unfold rpmDependency.
  apply nopanic_bind; [apply run_nopanic|]. intros r. nopanic.
Qed.

(** The loop of the queries: the set of the packages that the queries
    name. *)
Lemma dependencies_returns (query : list string -> string -> M W (list string)) :
  (forall deps libPath s deps' s' t,
     Returns (query deps libPath) s deps' s' t ->
     exists p, ran t = [p] /\ logs t = [] /\
               deps' = addKey (dependencyOf W p) deps) ->
  forall (paths deps : list string) (s : St W) deps' s' t,
    Returns (foldM query paths deps) s deps' s' t ->
    logs t = [] /\
    (NoDup deps -> NoDup deps') /\
    (forall d, In d deps' <-> In d deps \/ In d (map (dependencyOf W) (ran t))).
Proof.
  intros Hquery. induction paths as [|libPath paths IH]; intros deps s deps' s' t H.
  - simpl in H. returns. cbn. intuition.
  - apply Returns_foldM_cons in H as (deps1 & s1 & t1 & t2 & Hq & Hrest & ->).
    apply Hquery in Hq as (p & Hran & Hlogs & ->).
    apply IH in Hrest as (Hlogs' & Hnodup & Hin).
    unfold logs in *. rewrite flat_map_app, Hlogs, Hlogs'.
    split; [reflexivity|]. split.
    + intros Hdeps. now apply Hnodup, addKey_NoDup.
    + intros d. rewrite Hin, addKey_In, ran_app, Hran. cbn [map app In]. intuition.
Qed.

(** The loop that logs the dependencies. *)
Lemma logDeps_returns (deps : list string) :
  forall (s : St W) u s' t,
    Returns (forEach deps (fun dep => _ <- call (Log (dep ++ nl)) ;; ret tt)) s u s' t ->
    logs t = map (fun dep => dep ++ nl) deps /\ ran t = [].
Proof.
  unfold forEach. induction deps as [|dep deps IH]; intros s u s' t H.
  - simpl in H. returns. now split.
  - apply Returns_foldM_cons in H as (u1 & s1 & t1 & t2 & Hlog & Hrest & ->).
    returns. apply IH in Hrest as (Hlogs & Hran).
    unfold logs in *. rewrite ran_app, flat_map_app, Hlogs, Hran. now split.
Qed.

(** [listLinuxDeps] up to the answer of the host. *)
Lemma listLinuxDeps_host (rangeOrder : list string -> list string) (s : St W)
    (pf : platform.Platform) :
  platformAnswer (events (listLinuxDeps rangeOrder s)) = Some (Ok pf) ->
  exists s1,
    listLinuxDeps rangeOrder s =
    after [Ev GetFromEnv (Ok pf)]
      ((if negb (platform.OS_eqb (platform.OS pf) platform.OSLinux) then ret tt
        else
          check None "get platform" ;;
          libraryPaths <- getLibraryPaths ;;
          deps <- match platform.Pkg pf with
                  | platform.PkgRPM => foldM rpmDependency libraryPaths []
                  | platform.PkgDeb => foldM debDependency libraryPaths []
                  | platform.PkgNone =>
                      logFatal ("linux platform " ++ Quote W (platform.Name pf)
                                ++ " is neither deb nor rpm based")
                  end ;;
          forEach (sortStrings (rangeOrder deps))
            (fun dep => _ <- call (Log (dep ++ nl)) ;; ret tt)) s1).
Proof.
  unfold listLinuxDeps.
  rewrite bind_run, checked_run, call_run. cbn [outcome final events].
  destruct (handle W GetFromEnv s) as [ans s1]. cbn [fst snd].
  destruct ans as [pf'|e]; cbn [outcome final events].
  - rewrite events_after. intros [= ->]. now exists s1.
  - rewrite events_after. discriminate.
Qed.

Lemma listLinuxDeps_nopanic rangeOrder : NoPanic (listLinuxDeps (W := W) rangeOrder).
Proof.
  pose proof getLibraryPaths_nopanic. pose proof rpmDependency_nopanic.
  pose proof debDependency_nopanic.
  unfold listLinuxDeps, forEach.
  apply nopanic_bind; [nopanic|]. intros pf.
  destruct (negb _); [nopanic|].
  apply nopanic_bind; [nopanic|]. intros _.
  apply nopanic_bind; [assumption|]. intros paths.
  apply nopanic_bind.
  { destruct (platform.Pkg pf);
      [apply nopanic_logFatal | apply nopanic_foldM; intros; auto ..]. }
  intros deps. cbv zeta. nopanic.
Qed.

End DepsFacts.

(** X13: [getLibraryPaths] never panics, whatever [ldd] prints: the two
    indexings of a split are in range.  When it returns, [ldd] was started
    once, on [bin/mongodump], and answered no error; no path is empty or
    has a blank or a tab at either end; and there are at most as many paths
    as lines with an arrow in the output. *)
Theorem library_paths_are_trimmed (W : World) (s : St W) :
  let r := getLibraryPaths s in
  (forall msg, outcome r <> Panic msg) /\
  forall paths, outcome r = Done paths ->
    exists out,
      ran (events r) = [("ldd", [filepathJoin W ["bin"; "mongodump"]], (out, None))] /\
      Forall (fun p => p <> "" /\ startsIn (" " ++ tab) p = false /\
                       endsIn (" " ++ tab) p = false) paths /\
      length paths <=
      length (filter (fun line => strings.Contains line "=>")
                (Split (TrimSpace W out) nl)).
Proof.
  cbv zeta. split.
  - intros msg. apply getLibraryPaths_nopanic.
  - intros paths Hdone. apply Returns_intro in Hdone.
    apply getLibraryPaths_returns in Hdone as (out & -> & Hall & Hlen).
    exists out. split; [reflexivity|]. split; assumption.
Qed.

(** X14: on a host that is not a Linux platform [listLinuxDeps] asks for the
    platform and returns: no program is started and nothing is logged. *)
Theorem listLinuxDeps_only_on_linux (W : World)
    (rangeOrder : list string -> list string) (s : St W) (pf : platform.Platform) :
  let r := listLinuxDeps rangeOrder s in
  platformAnswer (events r) = Some (Ok pf) ->
  platform.OS pf <> platform.OSLinux ->
  outcome r = Done tt /\ events r = [Ev GetFromEnv (Ok pf)].
Proof.
  cbv zeta. intros Hpf Hos.
  destruct (listLinuxDeps_host rangeOrder s pf Hpf) as (s1 & ->).
  destruct (platform.OS pf); try contradiction; cbn [platform.OS_eqb negb];
    split; reflexivity.
Qed.

(** A Windows host. *)
Lemma listLinuxDeps_only_on_linux_witness :
  let W := scripted (withHost release windows64 v100_3_1) in
  let r := listLinuxDeps (W := W) (fun l => l) tt in
  outcome r = Done tt /\ events r = [Ev GetFromEnv (Ok windows64)].
Proof.
  intros W r. apply (listLinuxDeps_only_on_linux W (fun l => l) tt windows64).
  - reflexivity.
  - discriminate.
Defined.

(** X15: on a Linux platform that is neither RPM nor Debian based,
    [listLinuxDeps] is fatal only after it has listed the libraries: [ldd]
    is started, and no other program; nothing is logged; and when [ldd]
    answered no error the exit is the one about the platform. *)
Theorem listLinuxDeps_needs_a_package_kind (W : World)
    (rangeOrder : list string -> list string) (s : St W) (pf : platform.Platform) :
  let r := listLinuxDeps rangeOrder s in
  platformAnswer (events r) = Some (Ok pf) ->
  platform.OS pf = platform.OSLinux ->
  platform.Pkg pf = platform.PkgNone ->
  execs (events r) = ["ldd"] /\
  logs (events r) = [] /\
  (exists msg, outcome r = Exit msg) /\
  (Forall (fun p => snd (snd p) = None) (ran (events r)) ->
   outcome r = Exit ("linux platform " ++ Quote W (platform.Name pf)
                     ++ " is neither deb nor rpm based")).
Proof.
  cbv zeta. intros Hpf Hos Hpkg.
  destruct (listLinuxDeps_host rangeOrder s pf Hpf) as (s1 & ->).
  rewrite Hos, Hpkg. cbn [platform.OS_eqb negb].
  rewrite bind_run. cbn [check ret outcome final events].
  rewrite !events_after, !outcome_after. cbn [app].
  rewrite bind_run.
  destruct (outcome (getLibraryPaths s1)) as [paths|msg|msg] eqn:Ho.
  - apply Returns_intro in Ho. apply getLibraryPaths_returns in Ho as (out & Ht & _).
    rewrite Ht, events_after, outcome_after, bind_run.
    cbn [logFatal outcome final events].
    repeat split; try reflexivity. now eexists.
  - apply getLibraryPaths_exits in Ho as (out & e & Ht).
    cbn [outcome events]. rewrite Ht.
    repeat split; try reflexivity; [now eexists|].
    cbn. intros Hall. inversion Hall as [|p l Hnone _]. discriminate.
  - exfalso. exact (getLibraryPaths_nopanic s1 msg Ho).
Qed.

(** A Linux host without a package kind. *)
Lemma listLinuxDeps_needs_a_package_kind_witness :
  let W := scripted (withHost release bareLinux v100_3_1) in
  let r := listLinuxDeps (W := W) (fun l => l) tt in
  execs (events r) = ["ldd"] /\
  logs (events r) = [] /\
  (exists msg, outcome r = Exit msg) /\
  (Forall (fun p => snd (snd p) = None) (ran (events r)) ->
   outcome r = Exit ("linux platform " ++ Quote W "alpine"
                     ++ " is neither deb nor rpm based")).
Proof.
  intros W r.
  apply (listLinuxDeps_needs_a_package_kind W (fun l => l) tt bareLinux);
    reflexivity.
Defined.

(** X16: when [listLinuxDeps] returns, the lines it has logged are the
    packages that the queries of the package manager named, one query for
    each library path after the [ldd] that listed them: each package once,
    in increasing order, whatever the order in which the run went over the
    map of the packages. *)
Theorem dependencies_are_listed_in_order (W : World)
    (rangeOrder : list string -> list string) (s : St W) :
  let r := listLinuxDeps rangeOrder s in
  (forall l, Permutation (rangeOrder l) l) ->
  outcome r = Done tt ->
  exists deps,
    logs (events r) = map (fun dep => dep ++ nl) deps /\
    Sorted (fun a b => (a <=? b)%string = true) deps /\
    NoDup deps /\
    forall d, In d deps <-> In d (map (dependencyOf W) (tl (ran (events r)))).
Proof.
  cbv zeta. intros Horder Hdone.
  apply Returns_intro in Hdone. revert Hdone.
  generalize (final (listLinuxDeps rangeOrder s)), (events (listLinuxDeps rangeOrder s)).
  intros s' t H. unfold listLinuxDeps in H. returns.
  { exists []. apply Returns_ret in H as (_ & _ & ->). rewrite List.app_nil_r.
    split; [reflexivity|]. split; [constructor|]. split; [constructor|].
    cbn. tauto. }
  match goal with
  | Hcheck : Returns (check None _) _ _ _ _ |- _ =>
      apply Returns_check in Hcheck as (_ & -> & ->)
  end.
  match goal with
  | Hpaths : Returns getLibraryPaths _ _ _ _ |- _ =>
      apply getLibraryPaths_returns in Hpaths as (out & -> & _)
  end.
  match goal with
  | Hlog : Returns (forEach _ _) _ _ _ _ |- _ =>
      apply logDeps_returns in Hlog as (Hlogs & Hran)
  end.
  match goal with
  | Hloop : Returns (match platform.Pkg ?pf with _ => _ end) _ ?deps _ ?tq |- _ =>
      assert (Hdeps : logs tq = [] /\ NoDup deps /\
                      forall d, In d deps <-> In d (map (dependencyOf W) (ran tq)));
        [|clear Hloop]
  end.
  { match goal with
    | Hloop : Returns (match platform.Pkg ?pf with _ => _ end) _ _ _ _ |- _ =>
        destruct (platform.Pkg pf); [now returns | |]
    end.
    - match goal with
      | Hloop : Returns (foldM debDependency _ _) _ _ _ _ |- _ =>
          apply (dependencies_returns debDependency) in Hloop as (Hl & Hn & Hi)
      end.
      + split; [assumption|]. split; [apply Hn; constructor|].
        intros d. rewrite Hi. cbn [In]. tauto.
      + intros ? ? ? ? ? ? Hq. apply debDependency_returns in Hq as (p & ? & ? & _ & ?).
        now exists p.
    - match goal with
      | Hloop : Returns (foldM rpmDependency _ _) _ _ _ _ |- _ =>
          apply (dependencies_returns rpmDependency) in Hloop as (Hl & Hn & Hi)
      end.
      + split; [assumption|]. split; [apply Hn; constructor|].
        intros d. rewrite Hi. cbn [In]. tauto.
      + intros ? ? ? ? ? ? Hq. apply rpmDependency_returns in Hq as (p & ? & ? & _ & ?).
        now exists p. }
  destruct Hdeps as (Hlq & Hnodup & Hin).
  match goal with
  | _ : logs _ = map _ (sortStrings (rangeOrder ?deps)) |- _ =>
      exists (sortStrings (rangeOrder deps));
      assert (Hperm : Permutation (sortStrings (rangeOrder deps)) deps)
        by (rewrite sortStrings_perm; apply Horder)
  end.
  split.
  { unfold logs in *. rewrite !flat_map_app, Hlq, Hlogs. reflexivity. }
  split; [apply sortStrings_sorted|].
  split; [exact (Permutation_NoDup (Permutation_sym Hperm) Hnodup)|].
  intros d. rewrite !ran_app, Hran, List.app_nil_r. cbn [ran flat_map ranProgram app tl].
  rewrite <- Hin. split; apply Permutation_in; [assumption | now apply Permutation_sym].
Qed.

(** The two libraries of the scripted host, the keys of the map visited
    backwards. *)
Lemma dependencies_are_listed_in_order_witness :
  let W := override (scripted release) withLibraries in
  let r := listLinuxDeps (W := W) (@List.rev string) tt in
  exists deps,
    logs (events r) = map (fun dep => dep ++ nl) deps /\
    Sorted (fun a b => (a <=? b)%string = true) deps /\
    NoDup deps /\
    forall d, In d deps <-> In d (map (dependencyOf W) (tl (ran (events r)))).
Proof.
  intros W r.
  apply (dependencies_are_listed_in_order W (@List.rev string) tt).
  - intros l. apply Permutation_sym, Permutation_rev.
  - reflexivity.
Defined.

Example dependencies_of_the_scripted_host :
  let W := override (scripted release) withLibraries in
  logs (events (listLinuxDeps (W := W) (@List.rev string) tt))
  = ["glibc-2.17-307.el7.1.x86_64" ++ nl; "openssl-libs-1.0.2k-19.el7.x86_64" ++ nl].
Proof. reflexivity. Qed.

(** X17: [listLinuxDeps] never panics, whatever the programs print and
    whatever the order of the map: the first element of a split is always
    there. *)
Theorem listLinuxDeps_never_panics (W : World)
    (rangeOrder : list string -> list string) (s : St W) (msg : string) :
  outcome (listLinuxDeps rangeOrder s) <> Panic msg.
Proof. apply listLinuxDeps_nopanic. Qed.

(** The paths of the scripted host with two libraries. *)
Lemma library_paths_are_trimmed_witness :
  let W := override (scripted release) withLibraries in
  let r := getLibraryPaths (W := W) tt in
  (forall msg, outcome r <> Panic msg) /\
  forall paths, outcome r = Done paths ->
    exists out,
      ran (events r) = [("ldd", [filepathJoin W ["bin"; "mongodump"]], (out, None))] /\
      Forall (fun p => p <> "" /\ startsIn (" " ++ tab) p = false /\
                       endsIn (" " ++ tab) p = false) paths /\
      length paths <=
      length (filter (fun line => strings.Contains line "=>")
                (Split (TrimSpace W out) nl)).
Proof.
  exact (library_paths_are_trimmed (override (scripted release) withLibraries) tt).
Defined.

Example library_paths_of_the_scripted_host :
  outcome (getLibraryPaths (W := override (scripted release) withLibraries) tt)
  = Done ["/lib64/libssl.so.10"; "/lib64/libc.so.6"].
Proof. reflexivity. Qed.

(** The listing on the scripted host with two libraries. *)
Lemma listLinuxDeps_never_panics_witness :
  outcome (listLinuxDeps (W := override (scripted release) withLibraries)
             (@List.rev string) tt) <> Panic "runtime error".
Proof.
  exact (listLinuxDeps_never_panics (override (scripted release) withLibraries)
           (@List.rev string) tt "runtime error").
Defined.

(** ** [buildDeb] *)

Section DebFacts.
Context {W : World} {P : Chmod W}.

(** Two runs that go on in the same way after the same statement. *)
Lemma bind_ext_returns {A B} (m : M W A) (k1 k2 : A -> M W B) (s : St W) :
  (forall a s' t, Returns m s a s' t -> k1 a s' = k2 a s') ->
  bind m k1 s = bind m k2 s.
Proof.
  intros Hk. rewrite !bind_run.
  destruct (outcome (m s)) as [a|msg|msg] eqn:Ho; [|reflexivity..].
  f_equal. apply (Hk a (final (m s)) (events (m s))). now apply Returns_intro.
Qed.

Lemma bind_cong_l {A B} (m1 m2 : M W A) (k : A -> M W B) (s : St W) :
  m1 s = m2 s -> bind m1 k s = bind m2 k s.
Proof. unfold bind. now intros ->. Qed.

Lemma Returns_chmod (name : string) (mode : Z) (s : St W) r s' t :
  Returns (chmod name mode) s r s' t -> t = [].
Proof. unfold Returns, chmod. now intros [= _ _ <-]. Qed.

Lemma plain_writes t :
  Forall (fun e => plain (cmdOf e) = true) t -> writes t = [].
Proof. apply flat_map_quiet. by_command. Qed.

Lemma plain_ran t :
  Forall (fun e => plain (cmdOf e) = true) t -> ran t = [].
Proof. apply flat_map_quiet. by_command. Qed.

Lemma linkFile_plain (src dst : string) : Quiet plain (linkFile (W := W) src dst).
Proof. unfold linkFile, logCopy. quiet. Qed.

Lemma useWorkingDir_cdBack_plain dir (s : St W) cdBack s' t :
  Returns (useWorkingDir dir) s cdBack s' t -> Quiet plain cdBack.
Proof. unfold useWorkingDir. intros H. returns. quiet. Qed.

(** A piece of a returning run that is local input and output: nothing is
    read, nothing written, no program started. *)
Lemma plain_piece {A} (m : M W A) (s : St W) a s' t :
  Quiet plain m -> Returns m s a s' t ->
  reads t = [] /\ writes t = [] /\ ran t = [].
Proof.
  intros Hq Hr. pose proof (quiet_returns _ _ _ _ _ _ Hq Hr) as Ht.
  split; [now apply plain_reads|]. split; [now apply plain_writes | now apply plain_ran].
Qed.

Lemma mapGet_found (m : list (string * string)) (k v : string) :
  NoDup (map fst m) -> In (k, v) m -> mapGet k m = Some v.
Proof.
  induction m as [|[k' v'] m IH]; [intros _ []|]. cbn [map fst mapGet In].
  intros Hnodup [[= -> ->]|Hin].
  - now rewrite String.eqb_refl.
  - inversion Hnodup as [|? ? Hnotin Hrest]; subst.
    destruct (k' =? k) eqn:Hk; [|now apply IH].
    apply String.eqb_eq in Hk. subst k'. exfalso. apply Hnotin.
    apply in_map_iff. now exists (k, v).
Qed.

(** One data file: it is linked, its digest is taken and stored under the
    path of the link, and the path is added to the order. *)
Lemma addDataFile_returns (srcDir dstDir : string)
    (sums : list (string * string) * list string) (name : string) (s : St W)
    sums' s' t :
  Returns (addDataFile srcDir dstDir sums name) s sums' s' t ->
  exists content,
    reads t = [(filepathJoin W [srcDir; name], Ok content)] /\
    writes t = [] /\ ran t = [] /\
    sums' = (mapSet (filepathJoin W [dstDir; name]) (md5hex W content) (fst sums),
             (snd sums ++ [filepathJoin W [dstDir; name]])%list).
Proof.
  unfold addDataFile. intros H.
  apply Returns_bind in H as (u & s1 & t1 & t2 & Hlink & H & ->).
  apply (plain_piece _ _ _ _ _ (linkFile_plain _ _)) in Hlink as (Hr & Hw & Hx).
  apply Returns_bind in H as (sum & s2 & t3 & t4 & Hsum & H & ->).
  apply computeMD5_returns in Hsum as (content & -> & ->).
  apply Returns_ret in H as (-> & _ & ->).
  exists content. unfold reads, writes in *. rewrite !ran_app, !flat_map_app, Hr, Hw, Hx.
  repeat split; reflexivity.
Qed.

(** The loop over the data files of a directory. *)
Lemma addDataFiles_returns (srcDir dstDir : string) (names : list string) :
  forall (sums : list (string * string) * list string) (s : St W) sums' s' t,
    Returns (foldM (addDataFile srcDir dstDir) names sums) s sums' s' t ->
    exists contents,
      length contents = length names /\
      reads t = combine (map (fun name => filepathJoin W [srcDir; name]) names)
                  (map (@Ok string) contents) /\
      writes t = [] /\ ran t = [] /\
      snd sums' = (snd sums ++ map (fun name => filepathJoin W [dstDir; name]) names)%list /\
      fst sums' =
      (List.rev (combine (map (fun name => filepathJoin W [dstDir; name]) names)
                   (map (md5hex W) contents)) ++ fst sums)%list.
Proof.
  induction names as [|name names IH]; intros sums s sums' s' t H.
  - simpl in H. apply Returns_ret in H as (-> & _ & ->). exists [].
    cbn. now rewrite List.app_nil_r.
  - apply Returns_foldM_cons in H as (sums1 & s1 & t1 & t2 & Hfile & Hrest & ->).
    apply addDataFile_returns in Hfile as (content & Hr & Hw & Hx & ->).
    apply IH in Hrest as (contents & Hlen & Hr' & Hw' & Hx' & Hsnd & Hfst).
    exists (content :: contents). cbn [fst snd mapSet] in *.
    unfold reads, writes in *.
    rewrite !ran_app, !flat_map_app, Hr, Hr', Hw, Hw', Hx, Hx', Hsnd, Hfst.
    cbn [length map combine List.rev app]. rewrite <- !List.app_assoc.
    repeat split; try reflexivity. now rewrite Hlen.
Qed.

(** The loops keep the order within the keys of the map. *)
Lemma addDataFiles_coherent (srcDir dstDir : string) (names : list string) :
  forall (sums : list (string * string) * list string) (s : St W) sums' s' t,
    Returns (foldM (addDataFile srcDir dstDir) names sums) s sums' s' t ->
    Coherent sums -> Coherent sums'.
Proof.
  induction names as [|name names IH]; intros sums s sums' s' t H Hco.
  - simpl in H. now apply Returns_ret in H as (-> & _ & _).
  - apply Returns_foldM_cons in H as (sums1 & s1 & t1 & t2 & Hfile & Hrest & ->).
    apply (IH _ _ _ _ _ Hrest).
    apply addDataFile_returns in Hfile as (content & _ & _ & _ & ->).
    intros path. cbn [fst snd mapSet mapGet]. rewrite in_app_iff. cbn [In].
    destruct (filepathJoin W [dstDir; name] =? path) eqn:Hpath; [discriminate|].
    apply String.eqb_neq in Hpath. intros [Hin|[Heq|[]]]; [now apply Hco | contradiction].
Qed.

(** With every path among the keys, the loop of [createMD5Sums] never goes
    into the branch of a missing key. *)
Lemma writeMD5Sums_dead (missing missing' : string -> M W string) (f : Handle)
    (md5sums : list (string * string)) (order : list string) :
  (forall path, In path order -> mapGet path md5sums <> None) ->
  forall s : St W,
    forEach order (writeMD5Sum missing f md5sums) s
    = forEach order (writeMD5Sum missing' f md5sums) s.
Proof.
  unfold forEach. induction order as [|path order IH]; intros Hkeys s; [reflexivity|].
  cbn [foldM].
  assert (Hstep : writeMD5Sum missing f md5sums path s
                  = writeMD5Sum missing' f md5sums path s).
  { unfold writeMD5Sum. destruct (mapGet path md5sums) eqn:Hget; [reflexivity|].
    exfalso. apply (Hkeys path); [now left | assumption]. }
  rewrite (bind_cong_l _ _ _ _ Hstep).
  apply bind_ext_returns. intros [] s1 _ _. apply IH.
  intros p Hp. apply Hkeys. now right.
Qed.

Lemma createMD5Sums_dead (missing missing' : string -> M W string)
    (md5sumsFile : string) (sums : list (string * string) * list string) (s : St W) :
  Coherent sums ->
  createMD5Sums missing md5sumsFile (fst sums) (snd sums) s
  = createMD5Sums missing' md5sumsFile (fst sums) (snd sums) s.
Proof.
  intros Hco. unfold createMD5Sums.
  apply bind_ext_returns. intros f s1 _ _.
  apply bind_ext_returns. intros e s2 _ _.
  apply bind_cong_l. now apply writeMD5Sums_dead.
Qed.

(** The lines that the loop of [createMD5Sums] writes. *)
Lemma writeMD5Sums_returns (missing : string -> M W string) (f : Handle)
    (md5sums : list (string * string)) (pairs : list (string * string)) :
  (forall k v, In (k, v) pairs -> mapGet k md5sums = Some v) ->
  forall (s : St W) u s' t,
    Returns (forEach (map fst pairs) (writeMD5Sum missing f md5sums)) s u s' t ->
    reads t = [] /\ ran t = [] /\
    writes t = flat_map (fun kv => [snd kv ++ " "; fst kv ++ nl]) pairs.
Proof.
  unfold forEach. induction pairs as [|[k v] pairs IH]; intros Hget s u s' t H.
  - simpl in H. apply Returns_ret in H as (_ & _ & ->). now repeat split.
  - cbn [map fst] in H.
    apply Returns_foldM_cons in H as ([] & s1 & t1 & t2 & Hline & Hrest & ->).
    apply IH in Hrest as (Hr & Hx & Hw); [|intros; apply Hget; now right].
    unfold writeMD5Sum in Hline. rewrite (Hget k v (or_introl eq_refl)) in Hline.
    returns.
    unfold reads, writes in *. rewrite !ran_app, !flat_map_app, Hr, Hx, Hw.
    repeat split; reflexivity.
Qed.

Lemma createMD5Sums_returns (missing : string -> M W string) (md5sumsFile : string)
    (md5sums : list (string * string)) (pairs : list (string * string))
    (s : St W) u s' t :
  (forall k v, In (k, v) pairs -> mapGet k md5sums = Some v) ->
  Returns (createMD5Sums missing md5sumsFile md5sums (map fst pairs)) s u s' t ->
  reads t = [] /\ ran t = [] /\
  writes t = flat_map (fun kv => [snd kv ++ " "; fst kv ++ nl]) pairs.
Proof.
  intros Hget H. unfold createMD5Sums in H.
  apply Returns_bind in H as (f & s1 & t1 & t2 & Hf & H & ->).
  apply Returns_checked in Hf.
  apply (Returns_call (OsCreate md5sumsFile) s (Ok f) s1 t1) in Hf as (_ & ->).
  apply Returns_bind in H as (e & s2 & t3 & t4 & Hch & H & ->).
  apply Returns_chmod in Hch as ->.
  apply Returns_bind in H as (u1 & s3 & t5 & t6 & Hloop & H & ->).
  apply (writeMD5Sums_returns _ _ _ _ Hget) in Hloop as (Hr & Hx & Hw).
  returns.
  unfold reads, writes in *. rewrite !ran_app, !flat_map_app, Hr, Hx, Hw.
  cbn. rewrite !List.app_nil_r. repeat split; reflexivity.
Qed.

End DebFacts.

(** X18: the fatal branch of [createMD5Sums] in [buildDeb], for a path
    without a digest in the map, is never taken: every path of
    [md5sumsOrder] was stored in [md5sums] by the loop that added it.
    Whatever stands in the place of the branch, the run of [buildDeb] is the
    same. *)
Theorem md5sum_lookup_never_fails (W : World) (P : Chmod W)
    (missing : string -> M W string) (s : St W) :
  buildDebWith missing s = buildDeb s.
Proof.
  unfold buildDeb, buildDebWith.
  apply bind_ext_returns. intros pf s1 _ _. cbv zeta.
  apply bind_ext_returns. intros releaseName s2 _ _.
  apply bind_ext_returns. intros cdBack s3 _ _.
  do 7 (apply bind_ext_returns; intros ? ? _ _).
  apply bind_ext_returns. intros sums1 s4 t1 Hbin.
  apply bind_ext_returns. intros sums2 s5 t2 Hstatic.
  apply bind_ext_returns. intros u s6 _ _.
  apply bind_cong_l. apply createMD5Sums_dead.
  apply (addDataFiles_coherent _ _ _ _ _ _ _ _ Hstatic).
  apply (addDataFiles_coherent _ _ _ _ _ _ _ _ Hbin).
  intros path [].
Qed.

(** ** [buildDeb]: the file of the digests *)

Section Md5sumsFacts.
Context {W : World} {P : Chmod W}.

Lemma combine_app {X Y} (l1 l2 : list X) (l1' l2' : list Y) :
  length l1 = length l1' ->
  combine (l1 ++ l2) (l1' ++ l2') = (combine l1 l1' ++ combine l2 l2')%list.
Proof.
  revert l1'. induction l1 as [|x l1 IH]; intros [|y l1']; try discriminate.
  - reflexivity.
  - cbn. intros [= Hlen]. now rewrite IH.
Qed.

Lemma map_fst_combine {X Y} (l : list X) (l' : list Y) :
  length l = length l' -> map fst (combine l l') = l.
Proof.
  revert l'. induction l as [|x l IH]; intros [|y l']; try discriminate.
  - reflexivity.
  - cbn. intros [= Hlen]. now rewrite IH.
Qed.

Lemma md5Lines_combine (paths contents : list string) :
  flat_map (fun kv => [snd kv ++ " "; fst kv ++ nl])
    (combine paths (map (md5hex W) contents))
  = md5Lines W paths contents.
Proof.
  unfold md5Lines. revert contents.
  induction paths as [|p paths IH]; intros [|c contents]; try reflexivity.
  cbn [map combine flat_map fst snd]. now rewrite IH.
Qed.

Lemma createControlFile_ran controlFile pf (s : St W) u s' t :
  Returns (createControlFile controlFile pf) s u s' t -> ran t = [].
Proof. unfold createControlFile. intros H. returns. reflexivity. Qed.

(** [buildDeb] when it returns: what it reads and writes and the program
    it starts. *)
Lemma buildDeb_returns (missing : string -> M W string) (s : St W) u s' t :
  (forall name, NoDup (debDataFiles W name)) ->
  Returns (buildDebWith missing) s u s' t ->
  exists pf v name contents template out,
    platformAnswer t = Some (Ok pf) /\
    length contents = length (debDataSources W) /\
    reads t = (combine (debDataSources W) (map (@Ok string) contents) ++
               [(filepathJoin W [".."; "installer"; "deb"; "control"], Ok template)])%list /\
    writes t = controlContent template (VersionString W v) (DebianArch W pf)
               :: md5Lines W (debDataFiles W name) contents /\
    ran t = [("dpkg", ["-D1"; "-b"; name; name ++ ".deb"], (out, None))].
Proof.
  intros Hnodup H. unfold buildDebWith in H. cbv zeta in H. returns.
  repeat match goal with
  | Hname : Returns getReleaseName _ _ _ _ |- _ =>
      apply getReleaseName_returns in Hname as (pf' & v' & -> & _)
  | Hdir : Returns (useWorkingDir _) _ ?cdBack _ _,
    Hback : Returns ?cdBack _ _ _ _ |- _ =>
      apply (plain_piece _ _ _ _ _ (useWorkingDir_cdBack_plain _ _ _ _ _ Hdir)) in Hback
        as (? & ? & ?)
  | Hdir : Returns (useWorkingDir _) _ _ _ _ |- _ =>
      apply (plain_piece _ _ _ _ _ (useWorkingDir_plain _)) in Hdir as (? & ? & ?)
  | Hlink : Returns (linkFile _ _) _ _ _ _ |- _ =>
      apply (plain_piece _ _ _ _ _ (linkFile_plain _ _)) in Hlink as (? & ? & ?)
  | Hlinks : Returns (forEach _ _) _ _ _ _ |- _ =>
      apply (plain_piece _ _ _ _ _
               (quiet_foldM plain _ _ (fun _ x => linkFile_plain _ _) tt)) in Hlinks
        as (? & ? & ?)
  | Hcontrol : Returns (createControlFile _ _) _ _ _ _ |- _ =>
      pose proof (createControlFile_ran _ _ _ _ _ _ Hcontrol);
      apply createControlFile_returns in Hcontrol as (v & template & _ & ? & ?)
  | Hrun : Returns (run _ _) _ ?r _ _, Hcheck : Returns (check (snd ?r) _) _ _ _ _ |- _ =>
      apply Returns_run in Hrun as (out & err & -> & _ & Herr);
      apply Returns_check in Hcheck as (Hnone & _ & ->);
      specialize (Herr Hnone); subst err
  end.
  match goal with
  | Hbin : Returns (foldM _ binaries _) _ ?sums1 _ _,
    Hstatic : Returns (foldM _ staticFiles ?sums1) _ ?sums2 _ _ |- _ =>
      apply addDataFiles_returns in Hbin
        as (contents1 & Hlen1 & Hr1 & Hw1 & Hx1 & Hsnd1 & Hfst1);
      apply addDataFiles_returns in Hstatic
        as (contents2 & Hlen2 & Hr2 & Hw2 & Hx2 & Hsnd2 & Hfst2);
      rewrite Hsnd1 in Hsnd2; rewrite Hfst1 in Hfst2;
      cbn [fst snd app] in Hsnd2, Hfst2; rewrite List.app_nil_r in Hfst2
  end.
  set (contents := (contents1 ++ contents2)%list).
  lazymatch goal with
  | Hsums : Returns (createMD5Sums _ _ (fst ?sums) (snd ?sums)) _ _ _ _,
    Hname : handle W (OsMkdirAll (filepathJoin W [?name; "DEBIAN"])) _ = _ |- _ =>
      set (pairs := combine (debDataFiles W name) (map (md5hex W) contents));
      assert (Hlen : length (debDataFiles W name) = length (map (md5hex W) contents))
        by (unfold debDataFiles, contents;
            rewrite !length_map, !length_app, !length_map; congruence);
      assert (Hpaths : snd sums = map fst pairs)
        by (unfold pairs; rewrite (map_fst_combine _ _ Hlen); exact Hsnd2);
      assert (Hmap : fst sums = List.rev pairs)
        by (unfold pairs, debDataFiles, contents;
            rewrite map_app, combine_app, rev_app_distr;
            [exact Hfst2 | rewrite !length_map; congruence]);
      rewrite Hpaths, Hmap in Hsums;
      apply createMD5Sums_returns in Hsums as (Hr3 & Hx3 & Hw3);
      [ unfold pairs in Hw3; rewrite md5Lines_combine in Hw3
      | intros k sum Hin; apply mapGet_found;
        [ rewrite map_rev; apply NoDup_rev; unfold pairs;
          rewrite (map_fst_combine _ _ Hlen); apply Hnodup
        | now apply in_rev in Hin ] ];
      exists a, v, name, contents, template, out
  end.
  split; [reflexivity|].
  split.
  { unfold contents, debDataSources. rewrite !length_app, !length_map. congruence. }
  unfold reads, writes in *. rewrite !ran_app, !flat_map_app.
  repeat match goal with
         | Hfact : flat_map _ _ = _ |- _ => rewrite Hfact; clear Hfact
         | Hfact : ran _ = _ |- _ => rewrite Hfact; clear Hfact
         end.
  cbn [flat_map readFrom written ran ranProgram cmdOf app].
  rewrite !List.app_nil_r.
  split; [|split; reflexivity].
  unfold contents, debDataSources.
  rewrite map_app, combine_app, <- List.app_assoc; [reflexivity|].
  rewrite !length_map. congruence.
Qed.

End Md5sumsFacts.


(** In the scripted worlds, where paths are joined with a slash, the links
    of the data files are distinct. *)
Lemma append_inj_l (a x y : string) : (a ++ x = a ++ y)%string -> x = y.
Proof.
  induction a as [|c a IH]; [trivial|]. cbn. intros [= H]. now apply IH.
Qed.

Lemma scripted_debDataFiles (sc : Scenario) (name : string) :
  debDataFiles (scripted sc) name =
  map (append name)
    ["/usr/bin/bsondump"; "/usr/bin/mongodump"; "/usr/bin/mongoexport";
     "/usr/bin/mongofiles"; "/usr/bin/mongoimport"; "/usr/bin/mongorestore";
     "/usr/bin/mongostat"; "/usr/bin/mongotop";
     "/usr/share/doc/mongodb-database-tools/LICENSE.md";
     "/usr/share/doc/mongodb-database-tools/README.md";
     "/usr/share/doc/mongodb-database-tools/THIRD-PARTY-NOTICES"].
Proof.
  unfold debDataFiles, binaries, staticFiles. cbn [map app].
  change (filepathJoin (scripted sc)) with (String.concat "/").
  cbn [String.concat]. rewrite !append_assoc. reflexivity.
Qed.

Lemma scripted_debDataFiles_NoDup (sc : Scenario) (name : string) :
  NoDup (debDataFiles (scripted sc) name).
Proof.
  rewrite scripted_debDataFiles.
  apply NoDup_map_NoDup_ForallPairs.
  - intros x y _ _. apply append_inj_l.
  - repeat constructor; cbn [In]; intuition discriminate.
Qed.


Example md5sums_of_the_scripted_host :
  let W := scripted (withFiles (withHost release debian64 v100_3_1) debFiles) in
  firstn 5 (writes (events (buildDeb (W := W) tt))) =
  ["Package: mongodb-database-tools" ++ nl ++ "Version: 100.3.1" ++ nl
   ++ "Architecture: amd64" ++ nl;
   "md5:bytes of ../bin/bsondump ";
   "mongodb-database-tools-debian10-x86_64-100.3.1/usr/bin/bsondump" ++ nl;
   "md5:bytes of ../bin/mongodump ";
   "mongodb-database-tools-debian10-x86_64-100.3.1/usr/bin/mongodump" ++ nl].
Proof. vm_compute. reflexivity. Qed.

(** ** [uploadRelease]: what is uploaded was created *)

Section CreatedFacts.
Context {W : World}.

Lemma uploadsCreated_more (t : list Event) :
  forall seen seen' : list string,
    incl seen seen' -> uploadsCreated seen t = true -> uploadsCreated seen' t = true.
Proof.
  induction t as [|e t IH]; intros seen seen' Hincl; [reflexivity|].
  cbn [uploadsCreated]. rewrite !andb_true_iff. intros [Hnow Hlater]. split.
  - rewrite forallb_forall in *. intros name Hname.
    specialize (Hnow name Hname). rewrite existsb_exists in *.
    destruct Hnow as (x & Hx & Heq). exists x. split; [now apply Hincl | assumption].
  - apply (IH (created e ++ seen)%list); [|assumption].
    apply incl_app; [apply incl_appl, incl_refl | now apply incl_appr].
Qed.

Lemma uploadsCreated_app (t1 t2 : list Event) :
  forall seen : list string,
    uploadsCreated seen t1 = true -> uploadsCreated [] t2 = true ->
    uploadsCreated seen (t1 ++ t2) = true.
Proof.
  induction t1 as [|e t1 IH]; intros seen H1 H2.
  - apply (uploadsCreated_more t2 [] seen); [intros x [] | assumption].
  - cbn [uploadsCreated app] in *. apply andb_true_iff in H1 as [Hnow Hlater].
    rewrite Hnow. now apply IH.
Qed.

Lemma uploadsCreated_quiet (t : list Event) :
  uploads t = [] -> forall seen, uploadsCreated seen t = true.
Proof.
  induction t as [|e t IH]; [reflexivity|]. unfold uploads. cbn [flat_map].
  intros H seen. apply app_eq_nil in H as [He Ht].
  cbn [uploadsCreated]. rewrite He. cbn [forallb]. now apply IH.
Qed.

(** The round of an artifact. *)
Lemma uploadArtifact_created v c pf dl a (s : St W) :
  uploadsCreated [] (events (uploadArtifact v c pf dl a s)) = true.
Proof.
  destruct (outcome (uploadArtifact v c pf dl a s)) as [dl'|msg|msg] eqn:Ho.
  - apply Returns_intro in Ho. revert Ho.
    generalize (final (uploadArtifact v c pf dl a s)),
      (events (uploadArtifact v c pf dl a s)).
    intros s' t H. unfold uploadArtifact, computeMD5, computeSHA1, computeSHA256 in H.
    destruct (IsStable W v); returns;
      repeat match goal with
        | Hd : Returns (downloadFile _ _) _ _ _ _ |- _ =>
            apply downloadFile_trace in Hd as (? & ? & ? & ? & ->)
        | Hc : Returns (copyFile _ _) _ _ _ _ |- _ =>
            apply copyFile_trace in Hc as (? & ? & ? & ? & ->)
        end;
      cbn [app uploadsCreated uploaded created cmdOf forallb existsb];
      now rewrite !String.eqb_refl, ?orb_true_r.
  - apply uploadsCreated_quiet. exact (uploadArtifact_exits_clean v c pf dl a s msg Ho).
  - exfalso. exact (uploadArtifact_nopanic v c pf dl a s msg Ho).
Qed.

Lemma uploadTask_created v c dls task (s : St W) :
  uploadsCreated [] (events (uploadTask v c dls task s)) = true.
Proof.
  unfold uploadTask. rewrite events_bind, outcome_call.
  apply uploadsCreated_app.
  { apply uploadsCreated_quiet, noUpload_uploads,
      (quiet_call noUpload (Print _) eq_refl). }
  destruct (GetByVariant W (evergreen.Variant task)) as [pf|]; [|reflexivity].
  rewrite events_bind. apply uploadsCreated_app.
  { apply uploadsCreated_quiet, noUpload_uploads. apply quiet_checked.
    exact (quiet_call noUpload (GetArtifactsForTask _) eq_refl). }
  destruct (outcome (checked _ _ _)) as [artifacts| |]; try reflexivity.
  destruct (negb _); [reflexivity|].
  rewrite events_bind. apply uploadsCreated_app.
  - apply (foldM_events (fun t => uploadsCreated [] t = true)); [reflexivity | |].
    + intros t1 t2. apply uploadsCreated_app.
    + intros. apply uploadArtifact_created.
  - now destruct (outcome _).
Qed.

Lemma uploadFeed_created v c dls (s : St W) :
  uploadsCreated [] (events (uploadFeed v c dls s)) = true.
Proof.
  destruct (outcome (uploadFeed v c dls s)) as [u|msg|msg] eqn:Ho.
  - apply Returns_intro in Ho. revert Ho.
    generalize (final (uploadFeed v c dls s)), (events (uploadFeed v c dls s)).
    intros s' t H. unfold uploadFeed in H.
    destruct (IsStable W v); returns; [|reflexivity].
    cbn [app uploadsCreated uploaded created cmdOf forallb existsb].
    now rewrite !String.eqb_refl.
  - apply uploadsCreated_quiet. revert msg Ho. unfold uploadFeed.
    destruct (IsStable W v); [|discriminate].
    apply exits_clean_bind; [quiet|]. intros feedFile s1.
    apply exits_clean_bind; [quiet|]. intros err s2.
    apply exits_clean_bind; [quiet|]. intros _ s3 msg.
    rewrite !outcome_bind, !outcome_call. discriminate.
  - exfalso. exact (uploadFeed_nopanic v c dls s msg Ho).
Qed.

Lemma uploadSignTasks_created v signTasks (s : St W) :
  uploadsCreated [] (events (uploadSignTasks v signTasks s)) = true.
Proof.
  unfold uploadSignTasks. rewrite events_bind. apply uploadsCreated_app.
  { apply uploadsCreated_quiet, noUpload_uploads. apply quiet_checked.
    exact (quiet_call noUpload GetClient eq_refl). }
  destruct (outcome (checked _ _ _)) as [c| |]; try reflexivity.
  rewrite events_bind. apply uploadsCreated_app.
  - apply (foldM_events (fun t => uploadsCreated [] t = true)); [reflexivity | |].
    + intros t1 t2. apply uploadsCreated_app.
    + intros. apply uploadTask_created.
  - destruct (outcome _); [apply uploadFeed_created | reflexivity ..].
Qed.

End CreatedFacts.

(** X20: in every run of [uploadRelease], also one that stops half way,
    every file that is uploaded was created earlier in the same run, by the
    download, by a copy or as the feed: the program never uploads a file
    that it has not written itself. *)
Theorem uploads_were_created (W : World) (v : version.Version) (s : St W) :
  uploadsCreated [] (events (uploadRelease v s)) = true.
Proof.
  destruct (uploadRelease_shape v s) as (s1 & pre & Hpre & Hrun).
  rewrite Hrun. clear Hrun.
  destruct (handle W (GetTasksForRevision (version.Commit v)) s1) as [ans s2].
  cbn [fst snd]. rewrite events_after.
  apply uploadsCreated_app.
  - destruct Hpre as [-> | ->]; reflexivity.
  - destruct ans as [tasks|e]; [|reflexivity].
    destruct (find (unknownSign W) tasks); [reflexivity|].
    destruct (negb _); [reflexivity|].
    apply uploadSignTasks_created.
Qed.

(** ** [uploadRelease]: where a run can stop *)

Section StopFacts.
Context {W : World}.

Lemma lastStops_app (p : bool) (t1 t2 : list Event) :
  lastStops p (t1 ++ t2) = lastStops (lastStops p t1) t2.
Proof. apply fold_left_app. Qed.

Lemma lastStops_weaken (p : bool) (t : list Event) :
  lastStops false t = true -> lastStops p t = true.
Proof.
  destruct t as [|e t] using rev_ind; [discriminate|].
  now rewrite !lastStops_app.
Qed.

Lemma lastStops_last (t : list Event) :
  lastStops false t = true -> exists t' e, t = (t' ++ [e])%list /\ stops e = true.
Proof.
  destruct t as [|e t _] using rev_ind; [discriminate|].
  rewrite lastStops_app. intros H. now exists t, e.
Qed.

Lemma halt_weaken {A} (p : bool) (m : M W A) : Stops false m -> Stops p m.
Proof. intros Hm s msg Ho. apply lastStops_weaken, (Hm s msg Ho). Qed.

Lemma halt_ret {A} (p : bool) (a : A) : Stops p (ret a).
Proof. intros s msg. discriminate. Qed.

Lemma halt_panic {A} (p : bool) (msg : string) : Stops p (@panic W A msg).
Proof. intros s m. discriminate. Qed.

Lemma halt_logFatal {A} (msg : string) : Stops true (@logFatal W A msg).
Proof. intros s m _. reflexivity. Qed.

Lemma halt_call (p : bool) (c : Cmd) : Stops p (call c).
Proof. intros s msg. rewrite call_run. discriminate. Qed.

(** The statement after a call knows the event of the call. *)
Lemma halt_call_bind {A} (p : bool) (c : Cmd) (k : Resp c -> M W A) :
  (forall r, Stops (stops (Ev c r)) (k r)) -> Stops p (bind (call c) k).
Proof.
  intros Hk s msg. rewrite bind_run, call_run. cbn [outcome final events].
  rewrite outcome_after, events_after. intros Ho.
  rewrite lastStops_app. exact (Hk _ _ msg Ho).
Qed.

(** A statement before statements that begin with a call of their own. *)
Lemma halt_bind {A B} (p : bool) (m : M W A) (k : A -> M W B) :
  Stops p m -> (forall a, Stops false (k a)) -> Stops p (bind m k).
Proof.
  intros Hm Hk s msg. rewrite bind_run.
  destruct (outcome (m s)) as [a|msg'|msg'] eqn:Ho; cbn [outcome events].
  - rewrite outcome_after, events_after, lastStops_app. intros Hexit.
    apply lastStops_weaken, (Hk a _ msg Hexit).
  - intros _. exact (Hm s msg' Ho).
  - discriminate.
Qed.

Lemma halt_foldM {A B} (f : B -> A -> M W B) (l : list A) :
  (forall b x, Stops false (f b x)) -> forall b, Stops false (foldM f l b).
Proof.
  intros Hf. induction l as [|x l IH]; intros b; cbn [foldM].
  - apply halt_ret.
  - apply halt_bind; [apply Hf | apply IH].
Qed.

(** Walk through a procedure whose statements are calls, checks of what
    they answered and procedures that are known to stop after a failure. *)
Ltac halt_walk :=
  repeat (cbv beta;
    first
      [ solve [auto] | apply halt_weaken; solve [auto]
      | apply halt_ret | apply halt_panic | exact (halt_logFatal _)
      | match goal with
        | |- Stops _ (call ?c) => exact (halt_call _ c)
        | |- Stops _ (checked (call ?c) _) =>
            unfold checked at 1; apply (halt_call_bind _ c);
            let r := fresh "r" in intros r; destruct r
        | |- Stops _ (check ?err _) => is_var err; destruct err
        | |- Stops _ (bind (call ?c) _) =>
            apply (halt_call_bind _ c); let r := fresh "r" in intros r
        | |- Stops _ (bind (check ?err _) _) => is_var err; destruct err
        | |- Stops _ (bind _ _) => apply halt_bind; [|intro]
        | |- Stops _ (foldM _ _ _) => apply halt_foldM; intros
        | |- Stops _ (if ?b then _ else _) => destruct b
        | |- Stops _ (match ?x with _ => _ end) => is_var x; destruct x
        end ]).

Lemma downloadFile_stops url dst : Stops false (downloadFile (W := W) url dst).
Proof. unfold downloadFile. halt_walk. Qed.

Lemma copyFile_stops src dst : Stops false (copyFile (W := W) src dst).
Proof. unfold copyFile. halt_walk. Qed.

Lemma uploadArtifact_stops v c pf dl a : Stops false (uploadArtifact (W := W) v c pf dl a).
Proof.
  pose proof downloadFile_stops. pose proof copyFile_stops.
  unfold uploadArtifact, computeMD5, computeSHA1, computeSHA256. cbv zeta.
  halt_walk.
Qed.

(** After the answer of the CI about the artifacts, the statements that
    follow may stop at once: the count of the artifacts is checked. *)
Lemma halt_artifacts {A} (p : bool) (taskID format : string)
    (k : list evergreen.Artifact -> M W A) :
  (forall l, Stops true (k l)) ->
  Stops p (bind (checked (call (GetArtifactsForTask taskID)) format) k).
Proof.
  intros Hk s msg. rewrite bind_run, checked_run, call_run.
  cbn [outcome final events].
  destruct (handle W (GetArtifactsForTask taskID) s) as [[l|e] s1];
    cbn [fst snd outcome final events].
  - rewrite outcome_after, events_after, lastStops_app. intros Ho.
    exact (Hk l s1 msg Ho).
  - intros _. reflexivity.
Qed.

Lemma uploadTask_stops v c dls task : Stops false (uploadTask (W := W) v c dls task).
Proof.
  pose proof uploadArtifact_stops.
  unfold uploadTask. apply halt_call_bind. intros r.
  destruct (GetByVariant W (evergreen.Variant task)) as [pf|]; [|apply halt_panic].
  apply halt_artifacts. intros l.
  destruct (negb _); [exact (halt_logFatal _)|].
  apply halt_weaken. halt_walk.
Qed.

Lemma uploadFeed_stops v c dls : Stops false (uploadFeed (W := W) v c dls).
Proof. unfold uploadFeed. destruct (IsStable W v); halt_walk. Qed.

Lemma uploadSignTasks_stops v signTasks :
  Stops false (uploadSignTasks (W := W) v signTasks).
Proof.
  pose proof uploadTask_stops. pose proof uploadFeed_stops.
  unfold uploadSignTasks. halt_walk.
Qed.

End StopFacts.

(** X21: a run of [uploadRelease] that ends in a fatal exit stops right
    after an answer of the CI (its error, a sign task of an unknown variant,
    a wrong number of sign tasks or of artifacts) or right after a failure
    of the storage client, of [os.Create], [os.Open], [http.Get],
    [ioutil.ReadFile], [io.Copy] or the JSON encoder.  It never stops after
    an upload or after a close, whatever they answered: their errors are
    dropped. *)
Theorem fatal_exit_follows_a_failure (W : World) (v : version.Version)
    (s : St W) (msg : string) :
  outcome (uploadRelease v s) = Exit msg ->
  exists t e, events (uploadRelease v s) = (t ++ [e])%list /\ stops e = true.
Proof.
  destruct (uploadRelease_shape v s) as (s1 & pre & Hpre & Hrun).
  rewrite Hrun. clear Hrun.
  destruct (handle W (GetTasksForRevision (version.Commit v)) s1) as [ans s2].
  cbn [fst snd]. rewrite events_after, outcome_after.
  assert (Hnow : forall o (s' : St W),
            exists t e,
              ((pre ++ [Ev (GetTasksForRevision (version.Commit v)) ans])
               ++ events (@mkRun (St W) unit o s' []))%list = (t ++ [e])%list /\
              stops e = true).
  { intros o s'. exists pre, (Ev (GetTasksForRevision (version.Commit v)) ans).
    cbn [events]. now rewrite List.app_nil_r. }
  destruct ans as [tasks|e]; [|intros _; apply Hnow].
  destruct (find (unknownSign W) tasks); [intros _; apply Hnow|].
  destruct (negb _); [intros _; apply Hnow|].
  intros Ho. apply uploadSignTasks_stops, lastStops_last in Ho as (t & e & -> & He).
  exists ((pre ++ [Ev (GetTasksForRevision (version.Commit v)) (Ok tasks)]) ++ t)%list, e.
  split; [now rewrite List.app_assoc | assumption].
Qed.

(** Without credentials the run stops after the failure of the client. *)
Lemma fatal_exit_follows_a_failure_witness :
  let W := override (scripted release) noClient in
  exists t e,
    events (uploadRelease (W := W) v100_3_1 tt) = (t ++ [e])%list /\ stops e = true.
Proof.
  exact (fatal_exit_follows_a_failure (override (scripted release) noClient)
           v100_3_1 tt "'get aws client' failed: NoCredentialProviders" eq_refl).
Defined.

(** ** [uploadRelease]: the three names of an artifact *)

Section NameClashFacts.
Context {W : World}.

Lemma append_inj_r (a b e : string) : (a ++ e = b ++ e)%string -> a = b.
Proof.
  revert b. induction a as [|c a IH]; intros [|d b] H; cbn in H.
  - reflexivity.
  - exfalso. apply (f_equal String.length) in H. cbn in H.
    rewrite StringFacts.length_app in H. lia.
  - exfalso. apply (f_equal String.length) in H. cbn in H.
    rewrite StringFacts.length_app in H. lia.
  - injection H as -> H. f_equal. now apply IH.
Qed.

Lemma stableFile_unstable pf v ext :
  stableFile pf v ext = unstableFile pf ext <-> VersionString W v = "unstable".
Proof.
  unfold stableFile, unstableFile. split.
  - intros H. do 4 apply append_inj_l in H.
    change ("-unstable" ++ ext) with ("-" ++ "unstable" ++ ext) in H.
    apply append_inj_l in H. now apply append_inj_r in H.
  - now intros ->.
Qed.

Lemma stableFile_latest pf v ext :
  stableFile pf v ext = latestStableFile pf ext
  <-> VersionString W v = "latest-stable".
Proof.
  unfold stableFile, latestStableFile. split.
  - intros H. do 4 apply append_inj_l in H.
    change ("-latest-stable" ++ ext) with ("-" ++ "latest-stable" ++ ext) in H.
    apply append_inj_l in H. now apply append_inj_r in H.
  - now intros ->.
Qed.

Lemma unstableFile_latest (pf : platform.Platform) (ext : string) :
  unstableFile pf ext <> latestStableFile pf ext.
Proof.
  unfold unstableFile, latestStableFile. intros H.
  do 4 apply append_inj_l in H. discriminate.
Qed.

End NameClashFacts.

(** X22: the three names under which [uploadRelease] publishes an artifact
    of a stable version do not clash, so that no upload of the round
    overwrites another in the bucket, unless the version prints as
    "unstable" or as "latest-stable": the unstable and the latest-stable
    name always differ, the stable name is the unstable one exactly when the
    version prints as "unstable", and the latest-stable one exactly when it
    prints as "latest-stable". *)
Theorem artifact_names_clash_only_on_odd_versions (W : World)
    (v : version.Version) (pf : platform.Platform) (ext : string) :
  unstableFile pf ext <> latestStableFile pf ext /\
  (stableFile pf v ext = unstableFile pf ext <-> VersionString W v = "unstable") /\
  (stableFile pf v ext = latestStableFile pf ext
   <-> VersionString W v = "latest-stable") /\
  (VersionString W v <> "unstable" -> VersionString W v <> "latest-stable" ->
   NoDup (uploadNames W v pf ext)).
Proof.
  split; [apply unstableFile_latest|].
  split; [apply stableFile_unstable|].
  split; [apply stableFile_latest|].
  intros Hu Hl. unfold uploadNames.
  destruct (IsStable W v); repeat constructor; cbn [In]; try tauto.
  - intros [H|[H|[]]].
    + now apply stableFile_unstable in H.
    + symmetry in H. now apply unstableFile_latest in H.
  - intros [H|[]]. symmetry in H. now apply stableFile_latest in H.
Qed.

(** The names of the scripted release. *)
Lemma artifact_names_clash_only_on_odd_versions_witness :
  NoDup (uploadNames (scripted release) v100_3_1 linux64 ".tgz").
Proof.
  apply (artifact_names_clash_only_on_odd_versions (scripted release)
           v100_3_1 linux64 ".tgz"); discriminate.
Defined.

(** * The whole run of [uploadRelease] *)

(** ** The round of an artifact, event by event *)

Section RoundTraceFacts.
Context {W : World}.

(** The round of an artifact when it returns: the download, for a stable
    version the two copies and the three reads of the latest-stable copy,
    and the uploads, in this order. *)
Lemma uploadArtifact_trace v c pf dl a (s : St W) dl' s' t :
  Returns (uploadArtifact v c pf dl a) s dl' s' t ->
  let ext := path.Ext (evergreen.URL a) in
  let url := "https://fastdl.mongodb.org/tools/db/" ++ stableFile pf v ext in
  exists (out resp : Handle) (e1 e2 : error),
    if IsStable W v then
      exists (f1 o1 f2 o2 : Handle) (e3 e4 e5 e6 e7 e8 u1 u2 u3 : error)
             (b1 b2 b3 : string),
        t = (Ev (Print ("  downloading " ++ evergreen.URL a ++ nl)) tt
             :: downloadEvents (evergreen.URL a) (unstableFile pf ext) out resp e1 e2
             ++ copyEvents (unstableFile pf ext) (stableFile pf v ext) f1 o1 e3 e4 e5
             ++ copyEvents (unstableFile pf ext) (latestStableFile pf ext) f2 o2 e6 e7 e8
             ++ [Ev (ReadFile (latestStableFile pf ext)) (Ok b1);
                 Ev (ReadFile (latestStableFile pf ext)) (Ok b2);
                 Ev (ReadFile (latestStableFile pf ext)) (Ok b3)]
             ++ uploadEvents c (unstableFile pf ext) u1
             ++ uploadEvents c (stableFile pf v ext) u2
             ++ uploadEvents c (latestStableFile pf ext) u3)%list /\
        dl' =
        if (ext =? ".tgz") || (ext =? ".zip") then
          download.setArchive dl
            {| download.ToolsArchive.URL := url;
               download.ToolsArchive.Md5 := md5hex W b1;
               download.ToolsArchive.Sha1 := sha1hex W b2;
               download.ToolsArchive.Sha256 := sha256hex W b3 |}
        else
          download.setPackage dl
            {| download.ToolsPackage.URL := url;
               download.ToolsPackage.Md5 := md5hex W b1;
               download.ToolsPackage.Sha1 := sha1hex W b2;
               download.ToolsPackage.Sha256 := sha256hex W b3 |}
    else
      exists u1 : error,
        t = (Ev (Print ("  downloading " ++ evergreen.URL a ++ nl)) tt
             :: downloadEvents (evergreen.URL a) (unstableFile pf ext) out resp e1 e2
             ++ uploadEvents c (unstableFile pf ext) u1)%list /\
        dl' = dl.
Proof.
  unfold uploadArtifact, computeMD5, computeSHA1, computeSHA256. intros H. cbv zeta.
  destruct (IsStable W v); returns;
    repeat match goal with
      | Hd : Returns (downloadFile _ _) _ _ _ _ |- _ =>
          apply downloadFile_trace in Hd as (out & resp & e1 & e2 & ->)
      | Hc : Returns (copyFile _ _) _ _ _ _ |- _ =>
          apply copyFile_trace in Hc as (? & ? & ? & ? & ->)
      end;
    repeat match goal with
      | x : Resp (Print _) |- _ => destruct x
      end;
    exists out, resp, e1, e2; rewrite ?Hif.
  - do 16 eexists. split; reflexivity.
  - do 16 eexists. split; reflexivity.
  - eexists. split; reflexivity.
Qed.

End RoundTraceFacts.

(** ** The loops of [uploadRelease], round by round *)

Section WholeRunFacts.
Context {W : World}.

(** What a round of an artifact fetches, reads and uploads. *)
Lemma uploadArtifact_round v c pf dl a (s : St W) dl' s' t :
  Returns (uploadArtifact v c pf dl a) s dl' s' t ->
  artifactLists t = [] /\
  fetches t = [evergreen.URL a] /\
  map fst (reads t) = digestFiles W v pf (path.Ext (evergreen.URL a)) /\
  uploads t = uploadNames W v pf (path.Ext (evergreen.URL a)).
Proof.
  intros H. apply uploadArtifact_trace in H. cbv zeta in H.
  destruct H as (out & resp & e1 & e2 & H). unfold digestFiles, uploadNames.
  destruct (IsStable W v).
  - destruct H as (f1 & o1 & f2 & o2 & e3 & e4 & e5 & e6 & e7 & e8 & u1 & u2 & u3
                   & b1 & b2 & b3 & -> & _).
    repeat split; reflexivity.
  - destruct H as (u1 & -> & _). repeat split; reflexivity.
Qed.

(** The loop over the artifacts of a sign task. *)
Lemma uploadArtifacts_round v c pf (artifacts : list evergreen.Artifact) :
  forall dl (s : St W) dl' s' t,
    Returns (foldM (uploadArtifact v c pf) artifacts dl) s dl' s' t ->
    artifactLists t = [] /\
    fetches t = map evergreen.URL artifacts /\
    map fst (reads t)
    = flat_map (fun a => digestFiles W v pf (path.Ext (evergreen.URL a))) artifacts /\
    uploads t
    = flat_map (fun a => uploadNames W v pf (path.Ext (evergreen.URL a))) artifacts.
Proof.
  induction artifacts as [|a artifacts IH]; intros dl s dl' s' t H.
  - simpl in H. apply Returns_ret in H as (_ & _ & ->). now repeat split.
  - apply Returns_foldM_cons in H as (dl1 & s1 & t1 & t2 & Ha & Hrest & ->).
    apply uploadArtifact_round in Ha as (Hl & Hf & Hr & Hu).
    apply IH in Hrest as (Hl' & Hf' & Hr' & Hu').
    unfold artifactLists, fetches, reads, uploads in *.
    rewrite !flat_map_app, map_app, Hl, Hl', Hf, Hf', Hr, Hr', Hu, Hu'.
    now repeat split.
Qed.

(** The round of a sign task. *)
Lemma uploadTask_round v c dls task (s : St W) dls' s' t :
  Returns (uploadTask v c dls task) s dls' s' t ->
  exists artifacts,
    Reconciled W task artifacts /\
    artifactLists t = [(evergreen.TaskID task, Ok artifacts)] /\
    fetches t = map evergreen.URL artifacts /\
    map fst (reads t) = roundNames W (digestFiles W v) (task, artifacts) /\
    uploads t = roundNames W (uploadNames W v) (task, artifacts).
Proof.
  unfold uploadTask, roundNames, Reconciled. cbn [fst snd]. intros H.
  destruct (GetByVariant W (evergreen.Variant task)) as [pf|]; returns.
  match goal with
  | Hlen : negb (length ?l =? _)%nat = false,
    Hloop : Returns (foldM _ ?l _) _ _ _ _ |- _ =>
      apply negb_false_iff, Nat.eqb_eq in Hlen;
      apply uploadArtifacts_round in Hloop as (Hl & Hf & Hr & Hu);
      exists l
  end.
  match goal with x : Resp (Print _) |- _ => destruct x end.
  unfold artifactLists, fetches, reads, uploads in *.
  rewrite !flat_map_app, !map_app, Hl, Hf, Hr, Hu.
  cbn [flat_map artifactsListed fetched readFrom uploaded cmdOf app map].
  rewrite !List.app_nil_r.
  split; [now exists pf|]. now repeat split.
Qed.

(** The loop over the sign tasks. *)
Lemma uploadTasks_round v c (signTasks : list evergreen.Task) :
  forall dls (s : St W) dls' s' t,
    Returns (foldM (uploadTask v c) signTasks dls) s dls' s' t ->
    exists lists : list (list evergreen.Artifact),
      Forall2 (Reconciled W) signTasks lists /\
      artifactLists t
      = combine (map evergreen.TaskID signTasks) (map (@Ok _) lists) /\
      fetches t = flat_map (map evergreen.URL) lists /\
      map fst (reads t)
      = flat_map (roundNames W (digestFiles W v)) (combine signTasks lists) /\
      uploads t
      = flat_map (roundNames W (uploadNames W v)) (combine signTasks lists).
Proof.
  induction signTasks as [|task signTasks IH]; intros dls s dls' s' t H.
  - simpl in H. apply Returns_ret in H as (_ & _ & ->). exists [].
    repeat split; constructor.
  - apply Returns_foldM_cons in H as (dls1 & s1 & t1 & t2 & Ht & Hrest & ->).
    apply uploadTask_round in Ht as (artifacts & Hrec & Hl & Hf & Hr & Hu).
    apply IH in Hrest as (lists & Hall & Hl' & Hf' & Hr' & Hu').
    exists (artifacts :: lists).
    unfold artifactLists, fetches, reads, uploads in *.
    rewrite !flat_map_app, map_app, Hl, Hl', Hf, Hf', Hr, Hr', Hu, Hu'.
    split; [now constructor|]. now repeat split.
Qed.

(** The feed, when the end of [uploadRelease] returns. *)
Lemma uploadFeed_round v c dls (s : St W) u s' t :
  Returns (uploadFeed v c dls) s u s' t ->
  artifactLists t = [] /\ fetches t = [] /\ reads t = [] /\
  uploads t = if IsStable W v then [feedFilename] else [].
Proof.
  unfold uploadFeed. intros H. destruct (IsStable W v); returns; now repeat split.
Qed.

(** [uploadRelease] from the client on. *)
Lemma uploadSignTasks_round v (signTasks : list evergreen.Task) (s : St W) u s' t :
  Returns (uploadSignTasks v signTasks) s u s' t ->
  exists lists : list (list evergreen.Artifact),
    Forall2 (Reconciled W) signTasks lists /\
    artifactLists t
    = combine (map evergreen.TaskID signTasks) (map (@Ok _) lists) /\
    fetches t = flat_map (map evergreen.URL) lists /\
    map fst (reads t)
    = flat_map (roundNames W (digestFiles W v)) (combine signTasks lists) /\
    uploads t
    = (flat_map (roundNames W (uploadNames W v)) (combine signTasks lists)
       ++ if IsStable W v then [feedFilename] else [])%list.
Proof.
  unfold uploadSignTasks. intros H. returns.
  match goal with
  | Hloop : Returns (foldM _ _ _) _ _ _ _, Hfeed : Returns (uploadFeed _ _ _) _ _ _ _ |- _ =>
      apply uploadTasks_round in Hloop as (lists & Hall & Hl & Hf & Hr & Hu);
      apply uploadFeed_round in Hfeed as (Hl' & Hf' & Hr' & Hu');
      exists lists
  end.
  unfold artifactLists, fetches, reads, uploads in *.
  rewrite !flat_map_app, !map_app, Hl, Hl', Hf, Hf', Hr, Hr', Hu, Hu'.
  cbn [flat_map artifactsListed fetched readFrom uploaded cmdOf app map].
  rewrite !List.app_nil_r. now repeat split.
Qed.

(** A run of [uploadRelease] that returns: the sign tasks are as many as
    the platforms, each is reconciled with the artifacts listed for it, and
    the artifacts are fetched, digested and uploaded round by round. *)
Lemma uploadRelease_returns (v : version.Version) (s : St W)
    (tasks : list evergreen.Task) :
  outcome (uploadRelease v s) = Done tt ->
  tasksAnswer (events (uploadRelease v s)) = Some (Ok tasks) ->
  exists lists : list (list evergreen.Artifact),
    length (signTasksOf tasks) = PlatformCount W /\
    Forall2 (Reconciled W) (signTasksOf tasks) lists /\
    artifactLists (events (uploadRelease v s))
    = combine (map evergreen.TaskID (signTasksOf tasks)) (map (@Ok _) lists) /\
    fetches (events (uploadRelease v s)) = flat_map (map evergreen.URL) lists /\
    map fst (reads (events (uploadRelease v s)))
    = flat_map (roundNames W (digestFiles W v)) (combine (signTasksOf tasks) lists) /\
    uploads (events (uploadRelease v s))
    = (flat_map (roundNames W (uploadNames W v)) (combine (signTasksOf tasks) lists)
       ++ if IsStable W v then [feedFilename] else [])%list.
Proof.
  destruct (uploadRelease_shape v s) as (s1 & pre & Hpre & Hrun).
  rewrite Hrun. clear Hrun.
  destruct (handle W (GetTasksForRevision (version.Commit v)) s1) as [ans s2].
  cbn [fst snd]. rewrite events_after, outcome_after.
  unfold tasksAnswer, artifactLists, fetches, reads, uploads.
  rewrite !flat_map_app.
  assert (Hp : flat_map tasksAnswered pre = [] /\ flat_map artifactsListed pre = [] /\
               flat_map fetched pre = [] /\ flat_map readFrom pre = [] /\
               flat_map uploaded pre = []).
  { destruct Hpre as [-> | ->]; now repeat split. }
  destruct Hp as (Hp1 & Hp2 & Hp3 & Hp4 & Hp5). rewrite Hp1, Hp2, Hp3, Hp4, Hp5.
  cbn [flat_map tasksAnswered artifactsListed fetched readFrom uploaded cmdOf
       app hd_error].
  intros Hdone [= ->].
  destruct (find (unknownSign W) tasks); [discriminate|].
  destruct (negb (length (signTasksOf tasks) =? PlatformCount W)%nat) eqn:Hcount;
    [discriminate|].
  apply negb_false_iff, Nat.eqb_eq in Hcount.
  apply Returns_intro in Hdone.
  apply uploadSignTasks_round in Hdone as (lists & Hall & Hl & Hf & Hr & Hu).
  exists lists. unfold artifactLists, fetches, reads, uploads in *.
  now repeat split.
Qed.

End WholeRunFacts.

(** ** The claims about the whole run *)

Section CountFacts.
Context {W : World}.

Lemma list_sum_cons_eq (n : nat) (l : list nat) : list_sum (n :: l) = n + list_sum l.
Proof. reflexivity. Qed.

(** The names of the rounds are as many as the artifact extensions of the
    platforms of the tasks, each with [k] names. *)
Lemma roundNames_length (names : platform.Platform -> string -> list string) (k : nat)
    (signTasks : list evergreen.Task) (lists : list (list evergreen.Artifact)) :
  (forall pf ext, length (names pf ext) = k) ->
  Forall2 (Reconciled W) signTasks lists ->
  length (flat_map (roundNames W names) (combine signTasks lists))
  = k * list_sum (map (fun task =>
                         match GetByVariant W (evergreen.Variant task) with
                         | Some pf => length (platform.ArtifactExtensions pf)
                         | None => 0
                         end) signTasks).
Proof.
  intros Hk Hall. induction Hall as [|task artifacts signTasks lists Hrec _ IH].
  - cbn. lia.
  - cbn [combine flat_map map]. rewrite list_sum_cons_eq, length_app, IH.
    destruct Hrec as (pf & Hpf & Hlen). unfold roundNames. cbn [fst snd].
    rewrite Hpf, <- Hlen.
    assert (Hone : length (flat_map (fun a => names pf (path.Ext (evergreen.URL a)))
                             artifacts) = k * length artifacts).
    { clear - Hk. induction artifacts as [|a artifacts IH]; cbn [flat_map length].
      - lia.
      - rewrite length_app, IH, Hk. lia. }
    rewrite Hone. nia.
Qed.

(** When the URLs listed for a task carry the artifact extensions of its
    platform, the names of the round are those of the extensions. *)
Lemma roundNames_extensions (names : platform.Platform -> string -> list string)
    (signTasks : list evergreen.Task) (lists : list (list evergreen.Artifact)) :
  Forall2 (fun task artifacts =>
             forall pf, GetByVariant W (evergreen.Variant task) = Some pf ->
                        map (fun a => path.Ext (evergreen.URL a)) artifacts
                        = platform.ArtifactExtensions pf) signTasks lists ->
  flat_map (roundNames W names) (combine signTasks lists)
  = flat_map (fun task =>
                match GetByVariant W (evergreen.Variant task) with
                | Some pf => flat_map (names pf) (platform.ArtifactExtensions pf)
                | None => []
                end) signTasks.
Proof.
  induction 1 as [|task artifacts signTasks lists Hext _ IH]; [reflexivity|].
  cbn [combine flat_map]. rewrite IH. f_equal.
  unfold roundNames. cbn [fst snd].
  destruct (GetByVariant W (evergreen.Variant task)) as [pf|]; [|reflexivity].
  rewrite <- (Hext pf eq_refl). clear.
  induction artifacts as [|a artifacts IH]; [reflexivity|].
  cbn [map flat_map]. now rewrite IH.
Qed.

End CountFacts.

(** C2 (as amended): when a run of [uploadRelease] returns, the sign tasks
    that the CI answered are as many as the platforms of the matrix; for
    each of them the CI has listed as many artifacts as the platform of the
    task has artifact extensions; and the uploads of the run are, task after
    task and artifact after artifact, exactly three names for each listed
    artifact when the version is stable (unstable, stable, latest-stable, in
    this order) and exactly one (unstable) when it is not, made of the
    platform of the task and the extension of the URL of the artifact, and
    then [release.json] for a stable version.  So the uploads are three
    times, or once, the artifact extensions of the platforms of the tasks;
    and they are the names of every artifact extension of the platform of
    each task when the URLs listed for the task carry these extensions. *)
Theorem uploads_three_names_or_one (W : World) (v : version.Version) (s : St W)
    (tasks : list evergreen.Task) :
  let r := uploadRelease v s in
  let names := fun pf ext =>
    if IsStable W v
    then [unstableFile pf ext; stableFile pf v ext; latestStableFile pf ext]
    else [unstableFile pf ext] in
  let feed := if IsStable W v then ["release.json"] else [] in
  outcome r = Done tt ->
  tasksAnswer (events r) = Some (Ok tasks) ->
  exists lists : list (list evergreen.Artifact),
    length (signTasksOf tasks) = PlatformCount W /\
    Forall2 (fun task artifacts =>
               exists pf, GetByVariant W (evergreen.Variant task) = Some pf /\
                          length artifacts = length (platform.ArtifactExtensions pf))
      (signTasksOf tasks) lists /\
    artifactLists (events r)
    = combine (map evergreen.TaskID (signTasksOf tasks)) (map (@Ok _) lists) /\
    uploads (events r)
    = (flat_map (fun round =>
                   match GetByVariant W (evergreen.Variant (fst round)) with
                   | Some pf =>
                       flat_map (fun a => names pf (path.Ext (evergreen.URL a)))
                         (snd round)
                   | None => []
                   end) (combine (signTasksOf tasks) lists) ++ feed)%list /\
    length (uploads (events r))
    = (if IsStable W v then 3 else 1)
      * list_sum (map (fun task =>
                         match GetByVariant W (evergreen.Variant task) with
                         | Some pf => length (platform.ArtifactExtensions pf)
                         | None => 0
                         end) (signTasksOf tasks))
      + length feed /\
    (Forall2 (fun task artifacts =>
                forall pf, GetByVariant W (evergreen.Variant task) = Some pf ->
                           map (fun a => path.Ext (evergreen.URL a)) artifacts
                           = platform.ArtifactExtensions pf)
       (signTasksOf tasks) lists ->
     uploads (events r)
     = (flat_map (fun task =>
                    match GetByVariant W (evergreen.Variant task) with
                    | Some pf => flat_map (names pf) (platform.ArtifactExtensions pf)
                    | None => []
                    end) (signTasksOf tasks) ++ feed)%list).
Proof.
  cbv zeta. intros Hdone Htasks.
  destruct (uploadRelease_returns v s tasks Hdone Htasks)
    as (lists & Hcount & Hall & Hlists & _ & _ & Hup).
  exists lists. split; [exact Hcount|]. split; [exact Hall|]. split; [exact Hlists|].
  split; [exact Hup|]. split.
  - rewrite Hup, length_app. f_equal.
    apply roundNames_length; [|exact Hall].
    intros pf ext. unfold uploadNames. now destruct (IsStable W v).
  - intros Hext. rewrite Hup. f_equal.
    exact (roundNames_extensions (uploadNames W v) _ _ Hext).
Qed.

(** The scripted release: one platform with two artifact extensions, one
    sign task with two artifacts, a stable version: seven uploads. *)
Lemma uploads_three_names_or_one_witness :
  let W := scripted release in
  let r := uploadRelease (W := W) v100_3_1 tt in
  exists lists : list (list evergreen.Artifact),
    artifactLists (events r) = combine ["t1"] (map (@Ok _) lists) /\
    uploads (events r)
    = ["mongodb-database-tools-rhel70-x86_64-unstable.tgz";
       "mongodb-database-tools-rhel70-x86_64-100.3.1.tgz";
       "mongodb-database-tools-rhel70-x86_64-latest-stable.tgz";
       "mongodb-database-tools-rhel70-x86_64-unstable.rpm";
       "mongodb-database-tools-rhel70-x86_64-100.3.1.rpm";
       "mongodb-database-tools-rhel70-x86_64-latest-stable.rpm";
       "release.json"] /\
    length (uploads (events r)) = 3 * 2 + 1.
Proof.
  intros W r.
  destruct (uploads_three_names_or_one W v100_3_1 tt
              [ {| evergreen.TaskID := "t0"; evergreen.Variant := "rhel70";
                   evergreen.DisplayName := "dist"; evergreen.IsPatch := false |};
                signTask "t1" "rhel70" ] eq_refl eq_refl)
    as (lists & _ & Hall & Hlists & _ & Hlen & Hext).
  exists lists. split; [exact Hlists|]. split; [|exact Hlen].
  apply Hext.
  change (signTasksOf _) with [signTask "t1" "rhel70"] in Hall |- *.
  inversion Hall as [|task l signTasks ls _ Hrest]; subst.
  inversion Hrest; subst. clear Hall Hrest Hext Hlen.
  vm_compute in Hlists. injection Hlists as <-.
  constructor; [|constructor]. now intros pf [= <-].
Defined.

(** C2 (against the claim as stated): the platform rhel70 has the artifact
    extensions .tgz and .rpm; when the CI lists two archives for its sign
    task, the run returns, the archive is uploaded twice under its three
    names, and no name of the extension .rpm is uploaded. *)
Lemma package_is_never_uploaded :
  let W := override (scripted release) twoArchives in
  let r := uploadRelease (W := W) v100_3_1 tt in
  outcome r = Done tt /\
  IsStable W v100_3_1 = true /\
  GetByVariant W "rhel70" = Some linux64 /\
  platform.ArtifactExtensions linux64 = [".tgz"; ".rpm"] /\
  uploads (events r)
  = ["mongodb-database-tools-rhel70-x86_64-unstable.tgz";
     "mongodb-database-tools-rhel70-x86_64-100.3.1.tgz";
     "mongodb-database-tools-rhel70-x86_64-latest-stable.tgz";
     "mongodb-database-tools-rhel70-x86_64-unstable.tgz";
     "mongodb-database-tools-rhel70-x86_64-100.3.1.tgz";
     "mongodb-database-tools-rhel70-x86_64-latest-stable.tgz";
     "release.json"] /\
  Forall (fun name => ~ In name (uploads (events r)))
    [unstableFile linux64 ".rpm"; stableFile (W := W) linux64 v100_3_1 ".rpm";
     latestStableFile linux64 ".rpm"].
Proof.
  vm_compute. repeat split; repeat constructor; intuition discriminate.
Qed.

(** Nor does the count check tell the platforms apart: with two platforms
    in the matrix and two sign tasks of rhel70, the run returns and nothing
    of the platform windows is uploaded. *)
Example platform_is_never_uploaded :
  let W := scripted twoPlatforms in
  let r := uploadRelease (W := W) v100_3_1 tt in
  outcome r = Done tt /\
  PlatformCount W = 2 /\
  GetByVariant W "windows" = Some windows64 /\
  length (uploads (events r)) = 13 /\
  Forall (fun name =>
            name = "release.json" \/
            strings.HasPrefix name "mongodb-database-tools-rhel70-" = true)
    (uploads (events r)).
Proof.
  vm_compute. repeat split.
  repeat (apply Forall_cons; [first [left; reflexivity | right; reflexivity]|]).
  apply Forall_nil.
Qed.



(** ** The patch build against the build that is not a patch *)

Section PatchFacts.
Context {W : World}.

(** A statement runs alike in [W] and in [W] told that the build is not a
    patch when its parts do. *)
Lemma frame_bind {A B} (m0 : M (override W notPatch) A) (m : M W A)
    (k0 : A -> M (override W notPatch) B) (k : A -> M W B) (s : St W) :
  m0 s = m s ->
  (forall a s1, k0 a s1 = k a s1) ->
  bind m0 k0 s = bind m k s.
Proof.
  intros Hm Hk. unfold bind. change (St (override W notPatch)) with (St W) in *.
  rewrite Hm.
  destruct (m s) as [[a|msg|msg] s1 t1]; cbn [outcome final events];
    [|reflexivity..].
  now rewrite Hk.
Qed.

Lemma frame_foldM {A B} (f0 : B -> A -> M (override W notPatch) B)
    (f : B -> A -> M W B) (l : list A) :
  (forall b x s, f0 b x s = f b x s) ->
  forall b s, foldM f0 l b s = foldM f l b s.
Proof.
  intros Hf. induction l as [|x l IH]; intros b s; cbn [foldM]; [reflexivity|].
  apply frame_bind; [apply Hf|]. intros b1 s1. apply IH.
Qed.

Ltac frame :=
  repeat (cbv beta;
    first
      [ match goal with
        | |- call _ _ = call _ _ => exact eq_refl
        | |- ret _ _ = ret _ _ => exact eq_refl
        | |- logFatal _ _ = logFatal _ _ => exact eq_refl
        | |- panic _ _ = panic _ _ => exact eq_refl
        | |- check _ _ _ = check _ _ _ => exact eq_refl
        | |- checked _ _ _ = checked _ _ _ => unfold checked
        | |- bind _ _ _ = bind _ _ _ => apply frame_bind; [|intros ? ?]
        | |- foldM _ _ _ _ = foldM _ _ _ _ => apply frame_foldM; intros ? ? ?
        | |- (if ?b then _ else _) _ = _ => destruct b
        | |- (match ?x with _ => _ end) _ = _ => destruct x
        end ]).

(** The statements after the patch notice never ask whether the build is a
    patch: they run alike in [W] and in [W] told that it is not. *)
Lemma frame_reconcile (v : version.Version) (s : St W) :
  reconcileAndUpload (W := override W notPatch) v s
  = reconcileAndUpload (W := W) v s.
Proof.
  unfold reconcileAndUpload, uploadSignTasks, uploadFeed, uploadTask,
    uploadArtifact, collectSignTask, downloadFile, copyFile, computeMD5,
    computeSHA1, computeSHA256. cbv zeta.
  change (GetByVariant (override W notPatch)) with (GetByVariant W).
  change (IsStable (override W notPatch)) with (IsStable W).
  change (PlatformCount (override W notPatch)) with (PlatformCount W).
  frame. all: try reflexivity.
Qed.

(** The run of a patch build is the run of the build that is not a patch,
    with the notice after the answer. *)
Lemma uploadRelease_patch (v : version.Version) (s : St W) :
  fst (handle W EvgIsPatch s) = true ->
  uploadRelease (W := W) v s
  = after [Ev EvgIsPatch true; Ev (Print patchNotice) tt]
      (reconcileAndUpload (W := W) v
         (snd (handle W (Print patchNotice) (snd (handle W EvgIsPatch s))))) /\
  forall s2 : St W,
    uploadRelease (W := override W notPatch) v s2
    = after [Ev EvgIsPatch false] (reconcileAndUpload (W := W) v s2).
Proof.
  intros Hpatch. split.
  - pose proof (uploadRelease_run (W := W) v s) as Hrun. cbv zeta in Hrun.
    now rewrite Hpatch in Hrun.
  - intros s2.
    pose proof (uploadRelease_run (W := override W notPatch) v s2) as Hrun.
    cbv zeta in Hrun. rewrite Hrun.
    change (handle (override W notPatch) EvgIsPatch s2) with (false, s2).
    cbn [fst snd].
    exact (f_equal (after [Ev EvgIsPatch false]) (frame_reconcile v s2)).
Qed.

End PatchFacts.

(** C10: when the build is a patch, [uploadRelease] prints "current build
    is a patch; not uploading a release" and does not return: the next thing
    it does is to ask the CI for the tasks of the commit; from there on it
    runs exactly as the build that is not a patch runs (the same world, but
    for the answer that the build is not a patch, from the state that the
    notice has left): the same events one after the other, the same outcome,
    the same final state; and when it returns, it has reconciled the sign
    tasks with the platforms and the artifacts with the extensions,
    downloaded every artifact listed, read for the checksums of a stable
    version the latest-stable file of each three times, and uploaded the
    names of each and then the feed of a stable version. *)
Theorem patch_build_uploads_all_the_same (W : World) (v : version.Version)
    (s : St W) :
  let notice := "current build is a patch; not uploading a release" ++ nl in
  let r := uploadRelease (W := W) v s in
  let r0 := uploadRelease (W := override W notPatch) v
              (snd (handle W (Print notice) (snd (handle W EvgIsPatch s)))) in
  fst (handle W EvgIsPatch s) = true ->
  (exists ans rest,
     events r = Ev EvgIsPatch true :: Ev (Print notice) tt
                :: Ev (GetTasksForRevision (version.Commit v)) ans :: rest) /\
  (outcome r = outcome r0 /\ final r = final r0 /\
   exists rest,
     events r0 = Ev EvgIsPatch false :: rest /\
     events r = Ev EvgIsPatch true :: Ev (Print notice) tt :: rest) /\
  (forall tasks,
     outcome r = Done tt ->
     tasksAnswer (events r) = Some (Ok tasks) ->
     exists lists : list (list evergreen.Artifact),
       length (signTasksOf tasks) = PlatformCount W /\
       Forall2 (fun task artifacts =>
                  exists pf, GetByVariant W (evergreen.Variant task) = Some pf /\
                             length artifacts
                             = length (platform.ArtifactExtensions pf))
         (signTasksOf tasks) lists /\
       artifactLists (events r)
       = combine (map evergreen.TaskID (signTasksOf tasks)) (map (@Ok _) lists) /\
       fetches (events r) = flat_map (map evergreen.URL) lists /\
       map fst (reads (events r))
       = flat_map (roundNames W (fun pf ext =>
                                   if IsStable W v
                                   then [latestStableFile pf ext;
                                         latestStableFile pf ext;
                                         latestStableFile pf ext]
                                   else []))
           (combine (signTasksOf tasks) lists) /\
       uploads (events r)
       = (flat_map (roundNames W (fun pf ext =>
                                    if IsStable W v
                                    then [unstableFile pf ext; stableFile pf v ext;
                                          latestStableFile pf ext]
                                    else [unstableFile pf ext]))
            (combine (signTasksOf tasks) lists)
          ++ if IsStable W v then ["release.json"] else [])%list).
Proof.
  intros notice r r0 Hpatch.
  destruct (uploadRelease_patch v s Hpatch) as (Hrun & Hrun0).
  fold notice in Hrun. split; [|split].
  - eexists _, _. unfold r. rewrite Hrun, reconcile_run. cbv zeta.
    unfold after. cbn [events app]. reflexivity.
  - unfold r, r0. rewrite Hrun, Hrun0. unfold after. cbn [outcome final events].
    split; [reflexivity|]. split; [reflexivity|].
    eexists. split; reflexivity.
  - intros tasks Hdone Htasks.
    exact (uploadRelease_returns v s tasks Hdone Htasks).
Qed.

(** The scripted release as a patch build. *)
Lemma patch_build_uploads_all_the_same_witness :
  let W := scripted (withPatch release true) in
  let r := uploadRelease (W := W) v100_3_1 tt in
  let r0 := uploadRelease (W := override W notPatch) v100_3_1 tt in
  outcome r = outcome r0 /\
  (exists rest,
     events r0 = Ev EvgIsPatch false :: rest /\
     events r
     = Ev EvgIsPatch true
       :: Ev (Print ("current build is a patch; not uploading a release" ++ nl)) tt
       :: rest) /\
  uploads (events r)
  = ["mongodb-database-tools-rhel70-x86_64-unstable.tgz";
     "mongodb-database-tools-rhel70-x86_64-100.3.1.tgz";
     "mongodb-database-tools-rhel70-x86_64-latest-stable.tgz";
     "mongodb-database-tools-rhel70-x86_64-unstable.rpm";
     "mongodb-database-tools-rhel70-x86_64-100.3.1.rpm";
     "mongodb-database-tools-rhel70-x86_64-latest-stable.rpm";
     "release.json"].
Proof.
  intros W r r0.
  destruct (patch_build_uploads_all_the_same W v100_3_1 tt eq_refl)
    as (_ & (Hout & _ & Hrest) & _).
  split; [exact Hout|]. split; [exact Hrest|].
  vm_compute. reflexivity.
Defined.
